(** * voice_cloning_script.py: dispatcher and batch runner of [VoiceCloner]

    A shallow embedding of the control logic of [VoiceCloner]
    (language choice, speed clamping, engine dispatch with its fallback,
    the CSV and JSON batch loops) together with the properties of the
    specification that concern it.

    Python values are modelled as follows.
    - text ([str] holding arbitrary Unicode): a list of code points;
    - language codes, column and field names, file paths: [string]
      (they are only compared and concatenated);
    - [float]: IEEE 754 values of [spec_float], compared with [SFltb];
    - the file system: a finite map from paths to file sizes;
    - the synthesis back ends, [pd.read_csv], [json.load] and [mkdir]:
      oracles of an environment record, since their code is not part of
      the repository.

    Two things are taken for granted about a run, and said where the
    definitions are: what is raised is an instance of [Exception] (see
    [exn]), and the standard output takes every line that is printed
    (see [print] and [Py.printable]). *)

From Stdlib Require Import ZArith NArith List Ascii String.
From Stdlib Require Import DecimalString DecimalNat.
From Stdlib Require Import Floats.SpecFloat.
From stdpp Require Import gmap strings list.

Local Open Scope N_scope.

(** ** Python primitives used by the script *)

Module Py.

(** A Python [str] as the sequence of its code points. *)
Definition pystr := list N.

(** An ASCII literal of the source as a [pystr]. *)
Definition u (s : string) : pystr :=
  map N_of_ascii (list_ascii_of_string s).

(** [c.lower()] for one code point. The table covers Basic Latin,
    Latin-1 Supplement and the Cyrillic block (U+0400..U+04FF), where it
    agrees with Unicode; other code points are returned unchanged. *)
Definition lower_char (c : N) : N :=
  if (0x41 <=? c) && (c <=? 0x5A) then c + 0x20
  else if (0xC0 <=? c) && (c <=? 0xDE) && negb (c =? 0xD7) then c + 0x20
  else if (0x400 <=? c) && (c <=? 0x40F) then c + 0x50
  else if (0x410 <=? c) && (c <=? 0x42F) then c + 0x20
  else if (((0x460 <=? c) && (c <=? 0x481)) || ((0x48A <=? c) && (c <=? 0x4BF))
           || ((0x4D0 <=? c) && (c <=? 0x4FF))) && N.even c then c + 1
  else if c =? 0x4C0 then 0x4CF
  else if (0x4C1 <=? c) && (c <=? 0x4CE) && N.odd c then c + 1
  else c.

(** [text.lower()] *)
Definition lower (text : pystr) : pystr := map lower_char text.

(** [c.isspace()]: the code points [str.strip()] removes. *)
Definition isspace (c : N) : bool :=
  ((0x09 <=? c) && (c <=? 0x0D)) || ((0x1C <=? c) && (c <=? 0x20))
  || (c =? 0x85) || (c =? 0xA0) || (c =? 0x1680)
  || ((0x2000 <=? c) && (c <=? 0x200A))
  || (c =? 0x2028) || (c =? 0x2029) || (c =? 0x202F) || (c =? 0x205F)
  || (c =? 0x3000).

Fixpoint lstrip (s : pystr) : pystr :=
  match s with
  | c :: s' => if isspace c then lstrip s' else s
  | [] => []
  end.

(** [text.strip()] *)
Definition strip (s : pystr) : pystr := rev (lstrip (rev (lstrip s))).

(** [text[:n]] *)
Definition slice_to (n : nat) (s : pystr) : pystr := firstn n s.

(** A surrogate code point. A [str] can hold one on its own; no UTF-8
    stream encodes it. *)
Definition surrogate (c : N) : bool := (0xD800 <=? c) && (c <=? 0xDFFF).

(** A text that [print] can write to a UTF-8 standard output. *)
Definition printable (s : pystr) : bool :=
  forallb (fun c => negb (surrogate c)) s.

(** [c in s] for a one-character [c]. *)
Definition char_in (c : N) (s : pystr) : bool := existsb (N.eqb c) s.

(** [any(p(c) for c in s)] *)
Definition any (p : N -> bool) (s : pystr) : bool := existsb p s.

(** [x in l] for a list of strings. *)
Definition str_in (x : string) (l : list string) : bool :=
  existsb (String.eqb x) l.

(** [sub in s] for strings: [sub] occurs in [s] at some position. *)
Fixpoint contains (sub s : string) : bool :=
  String.prefix sub s ||
  match s with
  | EmptyString => false
  | String _ s' => contains sub s'
  end.

(** [min(a, b)] and [max(a, b)] on floats: the first argument is kept
    unless the second compares strictly smaller (resp. larger). *)
Definition min (a b : spec_float) : spec_float := if SFltb b a then b else a.
Definition max (a b : spec_float) : spec_float := if SFltb a b then b else a.

(** The binary64 literals of the script. *)
Definition f0_5 : spec_float := S754_finite false 4503599627370496 (-53).
Definition f1_0 : spec_float := S754_finite false 4503599627370496 (-52).
Definition f2_0 : spec_float := S754_finite false 4503599627370496 (-51).

(** [str(n)] for a natural number. *)
Definition str_nat (n : nat) : string := NilZero.string_of_uint (Nat.to_uint n).

(** [str(z)] for an integer: the minus sign of a negative one, then the
    decimal digits of its absolute value. *)
Definition str_int (z : Z) : string :=
  if (z <? 0)%Z then String "-" (str_nat (Z.abs_nat z))
  else str_nat (Z.abs_nat z).

Fixpoint zeros (k : nat) : string :=
  match k with
  | O => EmptyString
  | S k' => String "0" (zeros k')
  end.

(** [f"{idx:04d}"] for an integer [idx]: the decimal digits, padded on
    the left with zeros to a width of four; the sign of a negative
    [idx] comes first and counts in the width. *)
Definition format_04d (idx : Z) : string :=
  let s := str_nat (Z.abs_nat idx) in
  if (idx <? 0)%Z
  then String "-" (String.append (zeros (3 - String.length s)) s)
  else String.append (zeros (4 - String.length s)) s.

(** [os.path.join(d, name)] (posix) for a relative [name]. *)
Definition ends_with_slash (d : string) : bool :=
  match String.get (String.length d - 1) d with
  | Some c => Ascii.eqb c "/"
  | None => false
  end.

Definition os_path_join (d name : string) : string :=
  if String.eqb d EmptyString then name
  else if ends_with_slash d then String.append d name
  else String.append d (String "/" name).

(** The values a CSV cell or a JSON field can hold, as far as the batch
    runners distinguish them. The runners only apply [str] to a value,
    so a float other than NaN and a nested JSON array or object are
    given by the text [str] makes of them (["12.0"] for the cell 12 of
    a row that [iterrows] has turned into floats). *)
Inductive pyval :=
| PyStr (s : pystr)
| PyInt (z : Z)
| PyBool (b : bool)
| PyNone
| PyNaN
| PyFloat (repr : pystr)
| PyNested (repr : pystr).

(** [str(v)] *)
Definition str (v : pyval) : pystr :=
  match v with
  | PyStr s => s
  | PyInt z => u (str_int z)
  | PyBool true => u "True"
  | PyBool false => u "False"
  | PyNone => u "None"
  | PyNaN => u "nan"
  | PyFloat repr => repr
  | PyNested repr => repr
  end.

(** [pd.isna(v)] on a scalar. *)
Definition isna (v : pyval) : bool :=
  match v with
  | PyNone | PyNaN => true
  | _ => false
  end.

End Py.

(** ** The language heuristics *)

(** The literal ['абвгдежзийклмнопрстуфхцчшщъыьэюя'] (U+0430..U+044F). *)
Definition cyrillic_letters : Py.pystr :=
  [0x430; 0x431; 0x432; 0x433; 0x434; 0x435; 0x436; 0x437;
   0x438; 0x439; 0x43A; 0x43B; 0x43C; 0x43D; 0x43E; 0x43F;
   0x440; 0x441; 0x442; 0x443; 0x444; 0x445; 0x446; 0x447;
   0x448; 0x449; 0x44A; 0x44B; 0x44C; 0x44D; 0x44E; 0x44F].

(** ['uk' if any(c in '...' for c in text.lower()) else 'en']
    (lines 128, 157 and 196). *)
Definition detect_language (text : Py.pystr) : string :=
  if Py.any (fun c => Py.char_in c cyrillic_letters) (Py.lower text)
  then "uk"%string else "en"%string.

(** The list [supported_languages] set by [__init__] (line 95), which is
    also the local [supported_langs] of [simple_text_to_speech] (line 131). *)
Definition xtts_languages : list string :=
  ["en"; "es"; "fr"; "de"; "it"; "pt"; "pl"; "tr"; "ru"; "nl"; "cs"; "ar";
   "zh-cn"; "hu"; "ko"; "ja"; "hi"]%string.

(** [_pick_language] (lines 224-233), over [self.supported_languages]. *)
Definition _pick_language (supported_languages : list string)
    (desired_lang : string) : string :=
  if Py.str_in desired_lang supported_languages then desired_lang
  else if String.eqb desired_lang "uk" then
    (if Py.str_in "ru" supported_languages then "ru"%string else "en"%string)
  else "en"%string.

(** Speed validation of [clone_voice_from_sample] (line 274). *)
Definition clamp_speed (speed : spec_float) : spec_float :=
  Py.max Py.f0_5 (Py.min Py.f2_0 speed).

(** ** The world the script runs in *)

(** One invocation of a synthesis back end. *)
Inductive engine_call :=
| tts_to_file (text : Py.pystr) (speaker_wav : option string)
    (language : string) (speed : option spec_float) (file_path : string)
    (** [self.tts.tts_to_file(...)] of Coqui TTS *)
| gTTS_save (text : Py.pystr) (lang : string) (path : string)
    (** [gTTS(text=text, lang=lang, slow=False).save(path)] *)
| pyttsx3_save (text : Py.pystr) (path : string).
    (** [save_to_file(text, path)] followed by [runAndWait()] *)

(** The lines the functions print, one constructor per [print]. *)
Inductive message :=
| MsgGenerating (text50 : Py.pystr)                 (* line 122 *)
| MsgEngineUsed (primary : option string)           (* line 123 *)
| MsgUkNotSupported (lang : string)                 (* line 136 *)
| MsgTTSLang (lang : string)                        (* line 140 *)
| MsgNeedsSpeakerWav                                (* line 147 *)
| MsgUsingLang (lang : string)                      (* line 159 *)
| MsgFileSize (size : N)                            (* line 167 *)
| MsgMaybeEmpty                                     (* line 169 *)
| MsgNoEngine                                       (* line 177 *)
| MsgSaved (path : string)                          (* line 180 *)
| MsgGenError (e : string)                          (* line 184 *)
| MsgTryingFallback                                 (* line 191 *)
| MsgFallbackLang (lang : string)                   (* line 197 *)
| MsgFallbackSize (size : N)                        (* line 204 *)
| MsgFallbackUsedGTTS (path : string)               (* line 206 *)
| MsgFallbackEmpty                                  (* line 209 *)
| MsgFallbackUsedPyttsx3 (path : string)            (* line 216 *)
| MsgFallbackError (e : string)                     (* line 220 *)
| MsgCloneOnlyCoqui                                 (* line 253 *)
| MsgInitHint                                       (* line 254 *)
| MsgSampleNotFound (path : string)                 (* line 258 *)
| MsgNeedWav                                        (* line 259 *)
| MsgLangSubst (language selected_lang : string)    (* line 265 *)
| MsgCloning                                        (* line 267 *)
| MsgSample (path : string)                         (* line 268 *)
| MsgText (text50 : Py.pystr)                       (* line 269 *)
| MsgLang (selected_lang : string)                  (* line 270 *)
| MsgSpeed (speed : spec_float)                     (* line 271 *)
| MsgCloneSaved (path : string) (size : N)          (* line 288 *)
| MsgNotCreated                                     (* line 291 *)
| MsgCloneError (e : string)                        (* line 295 *)
| MsgSpeakerHint                                    (* line 297 *)
| MsgLoaded (n : nat)                               (* lines 319, 382 *)
| MsgColumnMissing (text_column : string)           (* line 322 *)
| MsgProcessing (k : Z) (n : nat) (text30 : Py.pystr) (* lines 338, 400 *)
| MsgDone (n_success n_failed : nat)                (* lines 351, 413 *)
| MsgBatchError (e : string).                       (* lines 355, 417 *)

Inductive event :=
| Call (c : engine_call)
| Print (m : message).

(** The file system (path to size of the file there) and what has been
    called and printed so far. *)
Record state := State {
  fs : gmap string N;
  log : list event
}.

(** An exception that is an instance of [Exception], by its message
    [str(e)]. Every handler of the script is [except Exception], so
    these are the exceptions the handlers see. What passes such a
    handler ([KeyboardInterrupt], [SystemExit], [GeneratorExit]) is not
    among the answers of the oracles below: the development is about
    runs that are not interrupted. *)
Definition exn := string.

(** The label [df.iterrows()] yields with a row. [f"{idx:04d}"]
    accepts an integer, as the default [RangeIndex] gives, and a bool,
    which it formats as the integer 1 or 0. For any other label (a
    string or a float of an index column) it raises; such a label is
    given by what [str] makes of it and by that exception. *)
Inductive index_label :=
| IntLabel (z : Z)
| BoolLabel (b : bool)
| OtherLabel (repr : string) (e : exn).

(** The integer [f"{idx:04d}"] formats and [idx + 1] adds to, or the
    exception the format raises. *)
Definition label_number (idx : index_label) : exn + Z :=
  match idx with
  | IntLabel z => inr z
  | BoolLabel true => inr 1%Z
  | BoolLabel false => inr 0%Z
  | OtherLabel _ e => inl e
  end.

(** [str(idx)], as [f"Row {idx}"] writes it. *)
Definition label_str (idx : index_label) : string :=
  match idx with
  | IntLabel z => Py.str_int z
  | BoolLabel true => "True"
  | BoolLabel false => "False"
  | OtherLabel repr _ => repr
  end.

(** A [pandas.DataFrame] as [pd.read_csv] returns it: the column names
    and the rows in the order of [df.iterrows()], each with its index
    label and with its cells as the row holds them. Labels need not be
    consecutive and can repeat. An empty field is read as [PyNaN]. *)
Record DataFrame := {
  columns : list string;
  rows : list (index_label * (string -> Py.pyval))
}.

(** An element of a JSON array, as far as lines 390 and 393 tell the
    elements apart: an object with its fields; a string; an array, by
    those of its elements that are strings; a number, [true], [false]
    or [null], by the [TypeError] that [in] raises for it. *)
Inductive json_item :=
| JObj (d : gmap string Py.pyval)
| JStr (s : string)
| JArr (strings : list string)
| JAtom (e : exn).

(** What [json.load] returns: an object, an array, or a string, given
    by its characters. For a document that is a number, [true], [false]
    or [null], [len(data)] raises at line 382 before anything is
    printed and the run ends as it does for a file that cannot be
    loaded; [json_load] answers [inl] for such a file. *)
Inductive json_doc :=
| JDict (d : gmap string Py.pyval)
| JList (l : list json_item)
| JText (chars : list string).

(** The parts of the run that are not code of the script: which
    libraries were importable and how the external calls behave. A back
    end either returns ([None]) or raises ([Some e]); either way it may
    have changed the file system. *)
Record Env := {
  GTTS_AVAILABLE : bool;
  PYTTSX3_AVAILABLE : bool;
  engine : engine_call -> state -> option exn * gmap string N;
  read_csv : string -> state -> exn + DataFrame;
  json_load : string -> state -> exn + json_doc;
  mkdir : string -> state -> option exn * gmap string N
}.

(** The fields of a [VoiceCloner] the methods read. *)
Record VoiceCloner := {
  primary_engine : option string;
  tts : bool;          (** [self.tts] holds a loaded model *)
  tts_engine : bool;   (** [self.tts_engine] holds an engine *)
  supported_languages : list string
}.

(** ** A state monad with exceptions *)

Inductive result (A : Type) :=
| Ok (a : A)
| Raise (e : exn).
Arguments Ok {A} a.
Arguments Raise {A} e.

Definition M (A : Type) : Type := state -> result A * state.

Definition ret {A} (a : A) : M A := fun s => (Ok a, s).

Definition bind {A B} (m : M A) (k : A -> M B) : M B :=
  fun s => match m s with
           | (Ok a, s') => k a s'
           | (Raise e, s') => (Raise e, s')
           end.

Definition raise {A} (e : exn) : M A := fun s => (Raise e, s).

(** [try: body  except Exception as e: handler(e)]. Every [exn] is an
    instance of [Exception], so the handler gets whatever [body]
    raises. *)
Definition try_except {A} (body : M A) (handler : exn -> M A) : M A :=
  fun s => match body s with
           | (Ok a, s') => (Ok a, s')
           | (Raise e, s') => handler e s'
           end.

Declare Scope py_scope.
Delimit Scope py_scope with py.
Notation "x <- m ;; k" := (bind m (fun x => k))
  (at level 100, m at next level, right associativity) : py_scope.
Notation "m ;; k" := (bind m (fun _ => k))
  (at level 100, right associativity) : py_scope.
Local Open Scope py_scope.

(** [print(...)]: the line is added to what was printed. The standard
    output is taken to accept every line. A UTF-8 stream refuses a text
    with a lone surrogate ([UnicodeEncodeError]); the statements that
    speak of every text of a run ask for [Py.printable] texts. *)
Definition print (m : message) : M unit :=
  fun s => (Ok tt, State (fs s) (log s ++ [Print m])).

(** [os.path.exists(p)] *)
Definition path_exists (p : string) : M bool :=
  fun s => (Ok (bool_decide (is_Some (fs s !! p))), s).

(** [os.path.getsize(p)]; it raises when there is no such file. *)
Definition getsize (p : string) : M N :=
  fun s => match fs s !! p with
           | Some n => (Ok n, s)
           | None => (Raise "FileNotFoundError"%string, s)
           end.

(** Invoke a back end: the call is recorded, then the oracle decides
    whether it returns or raises and what the files look like after. *)
Definition call (env : Env) (c : engine_call) : M unit :=
  fun s => match engine env c s with
           | (None, fs') => (Ok tt, State fs' (log s ++ [Call c]))
           | (Some e, fs') => (Raise e, State fs' (log s ++ [Call c]))
           end.

(** [Path(output_dir).mkdir(exist_ok=True)] *)
Definition do_mkdir (env : Env) (d : string) : M unit :=
  fun s => match mkdir env d s with
           | (None, fs') => (Ok tt, State fs' (log s))
           | (Some e, fs') => (Raise e, State fs' (log s))
           end.

Definition of_sum {A} (f : state -> exn + A) : M A :=
  fun s => match f s with
           | inr a => (Ok a, s)
           | inl e => (Raise e, s)
           end.

(** [text_field in item] (line 390): a key of an object, a substring of
    a string, an element of an array; anything else is no container. *)
Definition has_field (text_field : string) (item : json_item) : exn + bool :=
  match item with
  | JObj d => inr (bool_decide (is_Some (d !! text_field)))
  | JStr s => inr (Py.contains text_field s)
  | JArr strings => inr (Py.str_in text_field strings)
  | JAtom e => inl e
  end.

(** [item[text_field]] (line 393): only an object can be indexed by a
    string. *)
Definition get_field (text_field : string) (item : json_item)
    : exn + Py.pyval :=
  match item with
  | JObj d =>
      match d !! text_field with
      | Some v => inr v
      | None => inl "KeyError"%string
      end
  | JStr _ => inl "TypeError: string indices must be integers"%string
  | JArr _ => inl "TypeError: list indices must be integers or slices"%string
  | JAtom e => inl e
  end.

(** [self.primary_engine == name] *)
Definition engine_is (o : option string) (name : string) : bool :=
  match o with
  | Some x => String.eqb x name
  | None => false
  end.

(** ** The methods of [VoiceCloner] *)

Section Methods.

Variable env : Env.
Variable self : VoiceCloner.

(** [_fallback_tts] (lines 188-222). The [try] block either returns a
    verdict or falls through to the final [return False]. *)
Definition _fallback_tts (text : Py.pystr) (output_path : string) : M bool :=
  verdict <-
    try_except
      (print MsgTryingFallback;;
       if GTTS_AVAILABLE env && negb (engine_is (primary_engine self) "GTTS") then
         let lang := detect_language text in
         print (MsgFallbackLang lang);;
         call env (gTTS_save text lang output_path);;
         present <- path_exists output_path;;
         if present then
           file_size <- getsize output_path;;
           print (MsgFallbackSize file_size);;
           if 1000 <? file_size then
             print (MsgFallbackUsedGTTS output_path);;
             ret (Some true)
           else
             print MsgFallbackEmpty;;
             ret (Some false)
         else ret None
       else if PYTTSX3_AVAILABLE env
               && negb (engine_is (primary_engine self) "PYTTSX3") then
         call env (pyttsx3_save text output_path);;
         print (MsgFallbackUsedPyttsx3 output_path);;
         ret (Some true)
       else ret None)
      (fun e => print (MsgFallbackError e);; ret None);;
  match verdict with
  | Some b => ret b
  | None => ret false
  end.

(** [simple_text_to_speech] (lines 110-186). *)
Definition simple_text_to_speech (text : Py.pystr) (output_path : string)
    : M bool :=
  try_except
    (print (MsgGenerating (Py.slice_to 50 text));;
     print (MsgEngineUsed (primary_engine self));;
     if engine_is (primary_engine self) "TTS" && tts self then
       let detected_lang := detect_language text in
       let supported_langs := xtts_languages in
       lang <-
         (if String.eqb detected_lang "uk" then
            let lang := if Py.str_in "ru" supported_langs
                        then "ru"%string else "en"%string in
            print (MsgUkNotSupported lang);;
            ret lang
          else
            ret (if Py.str_in detected_lang supported_langs
                 then detected_lang else "en"%string));;
       print (MsgTTSLang lang);;
       try_except
         (call env (tts_to_file text None lang None output_path))
         (fun e =>
            if Py.contains "speaker_wav" e then
              print MsgNeedsSpeakerWav;;
              raise e
            else raise e);;
       print (MsgSaved output_path);;
       ret true
     else if engine_is (primary_engine self) "GTTS" then
       let lang := detect_language text in
       print (MsgUsingLang lang);;
       call env (gTTS_save text lang output_path);;
       present <- path_exists output_path;;
       (if present then
          file_size <- getsize output_path;;
          print (MsgFileSize file_size);;
          if file_size <? 1000 then print MsgMaybeEmpty else ret tt
        else ret tt);;
       print (MsgSaved output_path);;
       ret true
     else if engine_is (primary_engine self) "PYTTSX3" && tts_engine self then
       call env (pyttsx3_save text output_path);;
       print (MsgSaved output_path);;
       ret true
     else
       print MsgNoEngine;;
       ret false)
    (fun e =>
       print (MsgGenError e);;
       _fallback_tts text output_path).

(** [clone_voice_from_sample] (lines 235-298). *)
Definition clone_voice_from_sample (text : Py.pystr) (speaker_wav_path : string)
    (output_path : string) (language : string) (speed : spec_float) : M bool :=
  try_except
    (if negb (engine_is (primary_engine self) "TTS") || negb (tts self) then
       print MsgCloneOnlyCoqui;;
       print MsgInitHint;;
       ret false
     else
       sample_present <- path_exists speaker_wav_path;;
       if negb sample_present then
         print (MsgSampleNotFound speaker_wav_path);;
         print MsgNeedWav;;
         ret false
       else
         let selected_lang :=
           _pick_language (supported_languages self) language in
         (if negb (String.eqb selected_lang language) then
            print (MsgLangSubst language selected_lang)
          else ret tt);;
         print MsgCloning;;
         print (MsgSample speaker_wav_path);;
         print (MsgText (Py.slice_to 50 text));;
         print (MsgLang selected_lang);;
         print (MsgSpeed speed);;
         let speed := clamp_speed speed in
         call env (tts_to_file text (Some speaker_wav_path) selected_lang
                     (Some speed) output_path);;
         present <- path_exists output_path;;
         if present then
           file_size <- getsize output_path;;
           print (MsgCloneSaved output_path file_size);;
           ret true
         else
           print MsgNotCreated;;
           ret false)
    (fun e =>
       print (MsgCloneError e);;
       (if Py.contains "speaker_wav" e then print MsgSpeakerHint else ret tt);;
       ret false).

(** *** The batch runners *)

(** The dictionary [{"success": [...], "failed": [...]}]. *)
Record results := Results {
  success : list string;
  failed : list Py.pystr
}.

Definition no_results : results := Results [] [].

(** [f"audio_{idx:04d}.wav"] (lines 335 and 397). *)
Definition output_filename (idx : Z) : string :=
  String.append "audio_" (String.append (Py.format_04d idx) ".wav").

(** The truth value of [speaker_wav_path]: neither [None] nor [""]. *)
Definition truthy (p : option string) : option string :=
  match p with
  | Some s => if String.eqb s EmptyString then None else Some s
  | None => None
  end.

(** Lines 341-344 and 403-406: clone when a sample is given and exists,
    plain synthesis otherwise. *)
Definition generate_audio (text : Py.pystr) (speaker_wav_path : option string)
    (output_path language : string) : M bool :=
  match truthy speaker_wav_path with
  | Some p =>
      present <- path_exists p;;
      if present then
        clone_voice_from_sample text p output_path language Py.f1_0
      else simple_text_to_speech text output_path
  | None => simple_text_to_speech text output_path
  end.

(** Lines 346-349 and 408-411, with the label ["Row"] or ["Item"] and
    with [idx] as [str] writes it. *)
Definition record_outcome (label idx : string) (text : Py.pystr)
    (output_path : string) (ok : bool) (r : results) : results :=
  if ok then Results (success r ++ [output_path]) (failed r)
  else Results (success r)
         (failed r ++ [Py.u label ++ Py.u " " ++ Py.u idx
                       ++ Py.u ": " ++ Py.slice_to 30 text]).

(** [text.strip() == ""] and [not text.strip()] *)
Definition blank (text : Py.pystr) : bool :=
  match Py.strip text with
  | [] => true
  | _ :: _ => false
  end.

(** The loop of [process_csv_file] (lines 330-349); [n] is [len(df)].
    A row whose text is blank is passed over before its label is
    looked at; for any other row the label is formatted first, which
    raises unless it is an integer or a bool. *)
Fixpoint csv_loop (n : nat) (text_column : string)
    (speaker_wav_path : option string) (output_dir language : string)
    (todo : list (index_label * (string -> Py.pyval))) (r : results)
    : M results :=
  match todo with
  | [] => ret r
  | (idx, row) :: todo' =>
      let text := Py.str (row text_column) in
      if Py.isna (Py.PyStr text) || blank text then
        csv_loop n text_column speaker_wav_path output_dir language todo' r
      else
        number <- of_sum (fun _ => label_number idx);;
        let output_path :=
          Py.os_path_join output_dir (output_filename number) in
        print (MsgProcessing (number + 1) n (Py.slice_to 30 text));;
        ok <- generate_audio text speaker_wav_path output_path language;;
        csv_loop n text_column speaker_wav_path output_dir language
          todo' (record_outcome "Row" (label_str idx) text output_path ok r)
  end.

(** [process_csv_file] (lines 300-356). *)
Definition process_csv_file (csv_path text_column : string)
    (speaker_wav_path : option string) (output_dir language : string)
    : M results :=
  try_except
    (df <- of_sum (read_csv env csv_path);;
     print (MsgLoaded (length (rows df)));;
     if negb (Py.str_in text_column (columns df)) then
       print (MsgColumnMissing text_column);;
       ret no_results
     else
       do_mkdir env output_dir;;
       r <- csv_loop (length (rows df)) text_column speaker_wav_path
              output_dir language (rows df) no_results;;
       print (MsgDone (length (success r)) (length (failed r)));;
       ret r)
    (fun e => print (MsgBatchError e);; ret no_results).

(** The loop of [process_json_file] (lines 389-411); [n] is [len(data)]
    and [idx] the position [enumerate] gives. *)
Fixpoint json_loop (n : nat) (text_field : string)
    (speaker_wav_path : option string) (output_dir language : string)
    (idx : nat) (todo : list json_item) (r : results)
    : M results :=
  match todo with
  | [] => ret r
  | item :: todo' =>
      present <- of_sum (fun _ => has_field text_field item);;
      if negb present then
        json_loop n text_field speaker_wav_path output_dir language
          (S idx) todo' r
      else
        v <- of_sum (fun _ => get_field text_field item);;
        let text := Py.str v in
        if blank text then
          json_loop n text_field speaker_wav_path output_dir language
            (S idx) todo' r
        else
          let output_path :=
            Py.os_path_join output_dir (output_filename (Z.of_nat idx)) in
          print (MsgProcessing (Z.of_nat idx + 1) n (Py.slice_to 30 text));;
          ok <- generate_audio text speaker_wav_path output_path language;;
          json_loop n text_field speaker_wav_path output_dir language
            (S idx) todo'
            (record_outcome "Item" (Py.str_int (Z.of_nat idx)) text
               output_path ok r)
  end.

(** [if isinstance(data, dict): data = [data]] (lines 379-380), and the
    elements the loop then goes through: those of an array, the
    characters of a string. *)
Definition as_list (data : json_doc) : list json_item :=
  match data with
  | JDict d => [JObj d]
  | JList l => l
  | JText chars => map JStr chars
  end.

(** [process_json_file] (lines 358-418). *)
Definition process_json_file (json_path text_field : string)
    (speaker_wav_path : option string) (output_dir language : string)
    : M results :=
  try_except
    (doc <- of_sum (json_load env json_path);;
     let data := as_list doc in
     print (MsgLoaded (length data));;
     do_mkdir env output_dir;;
     r <- json_loop (length data) text_field speaker_wav_path
            output_dir language 0 data no_results;;
     print (MsgDone (length (success r)) (length (failed r)));;
     ret r)
    (fun e => print (MsgBatchError e);; ret no_results).

End Methods.

(** ** Vocabulary of the statements *)

(** The back-end invocations recorded in a log, in order. *)
Fixpoint calls (l : list event) : list engine_call :=
  match l with
  | [] => []
  | Call c :: l' => c :: calls l'
  | Print _ :: l' => calls l'
  end.

(** A computation that returns on every state. *)
Definition total {A} (m : M A) : Prop :=
  forall s, exists a s', m s = (Ok a, s').

(** The back end raises whenever it is given this call. *)
Definition raises_always (env : Env) (c : engine_call) : Prop :=
  forall s, fst (engine env c s) <> None.

(** What [clone_voice_from_sample] prints between its two guards and
    the call of the model (lines 264-271). *)
Definition clone_announcement (self : VoiceCloner) (text : Py.pystr)
    (speaker_wav_path language : string) (speed : spec_float) : list event :=
  let selected_lang := _pick_language (supported_languages self) language in
  (if negb (String.eqb selected_lang language)
   then [Print (MsgLangSubst language selected_lang)] else [])
  ++ [Print MsgCloning; Print (MsgSample speaker_wav_path);
      Print (MsgText (Py.slice_to 50 text)); Print (MsgLang selected_lang);
      Print (MsgSpeed speed)].

(** The call [clone_voice_from_sample] makes (lines 277-283). *)
Definition clone_call (self : VoiceCloner) (text : Py.pystr)
    (speaker_wav_path output_path language : string) (speed : spec_float)
    : engine_call :=
  tts_to_file text (Some speaker_wav_path)
    (_pick_language (supported_languages self) language)
    (Some (clamp_speed speed)) output_path.

(** The language [simple_text_to_speech] passes to Coqui TTS
    (lines 128-138). *)
Definition simple_tts_lang (text : Py.pystr) : string :=
  if String.eqb (detect_language text) "uk" then
    (if Py.str_in "ru" xtts_languages then "ru"%string else "en"%string)
  else if Py.str_in (detect_language text) xtts_languages
       then detect_language text else "en"%string.

(** The primary attempt of [simple_text_to_speech]: what is printed
    before the back end is called, and the call; [None] when no branch
    applies (lines 125-178). *)
Definition primary_plan (self : VoiceCloner) (text : Py.pystr)
    (output_path : string) : option (list event * engine_call) :=
  let head := [Print (MsgGenerating (Py.slice_to 50 text));
               Print (MsgEngineUsed (primary_engine self))] in
  if engine_is (primary_engine self) "TTS" && tts self then
    Some (head
          ++ (if String.eqb (detect_language text) "uk"
              then [Print (MsgUkNotSupported (simple_tts_lang text))] else [])
          ++ [Print (MsgTTSLang (simple_tts_lang text))],
          tts_to_file text None (simple_tts_lang text) None output_path)
  else if engine_is (primary_engine self) "GTTS" then
    Some (head ++ [Print (MsgUsingLang (detect_language text))],
          gTTS_save text (detect_language text) output_path)
  else if engine_is (primary_engine self) "PYTTSX3" && tts_engine self then
    Some (head, pyttsx3_save text output_path)
  else None.

(** The one call [_fallback_tts] can make (lines 193-217). *)
Definition fallback_call (env : Env) (self : VoiceCloner) (text : Py.pystr)
    (output_path : string) : option engine_call :=
  if GTTS_AVAILABLE env && negb (engine_is (primary_engine self) "GTTS") then
    Some (gTTS_save text (detect_language text) output_path)
  else if PYTTSX3_AVAILABLE env
          && negb (engine_is (primary_engine self) "PYTTSX3") then
    Some (pyttsx3_save text output_path)
  else None.

Definition option_list {A} (o : option A) : list A :=
  match o with
  | Some a => [a]
  | None => []
  end.

(** The Ukrainian letters (and the Russian one) that are missing from
    [cyrillic_letters]: U+0456, U+0457, U+0454, U+0491 and U+0451. *)
Definition uncovered_letters : Py.pystr := [0x456; 0x457; 0x454; 0x491; 0x451].

(** The Ukrainian letters (and the Russian one) of
    [uncovered_letters] as capitals: U+0406, U+0407, U+0404, U+0490 and
    U+0401. *)
Definition uncovered_capitals : Py.pystr :=
  [0x406; 0x407; 0x404; 0x490; 0x401].

(** The text and the output path a back end is called with. *)
Definition text_of (c : engine_call) : Py.pystr :=
  match c with
  | tts_to_file text _ _ _ _ => text
  | gTTS_save text _ _ => text
  | pyttsx3_save text _ => text
  end.

Definition target (c : engine_call) : string :=
  match c with
  | tts_to_file _ _ _ _ p => p
  | gTTS_save _ _ p => p
  | pyttsx3_save _ p => p
  end.

(** A call made for the text [text] and the output path [out]. *)
Definition about (text : Py.pystr) (out : string) (c : engine_call) : Prop :=
  text_of c = text /\ target c = out.

(** The path the batch runners give the item of index [idx]
    (lines 335-336 and 397-398). *)
Definition item_path (output_dir : string) (idx : Z) : string :=
  Py.os_path_join output_dir (output_filename idx).

Fixpoint count_if {A} (p : A -> bool) (l : list A) : nat :=
  match l with
  | [] => 0%nat
  | a :: l' => ((if p a then 1 else 0) + count_if p l')%nat
  end.

(** The text of a CSV row is empty or white space (line 332). *)
Definition csv_blank (text_column : string)
    (row : index_label * (string -> Py.pyval)) : bool :=
  blank (Py.str (snd row text_column)).

(** The test of line 390 lets the loop pass over an element: an object
    without the text field, a string or an array in which the name of
    the field does not occur. *)
Definition json_missing (text_field : string) (item : json_item) : bool :=
  match has_field text_field item with
  | inr present => negb present
  | inl _ => false
  end.

(** A JSON record has a text and it is empty or white space (line 394). *)
Definition json_blank (text_field : string) (item : json_item) : bool :=
  match item with
  | JObj d =>
      match d !! text_field with
      | Some v => blank (Py.str v)
      | None => false
      end
  | _ => false
  end.

(** An item a batch loop serves: the number its file name is made of,
    its index as [str] writes it, and its text. *)
Record item := Item {
  item_number : Z;
  item_name : string;
  item_text : Py.pystr
}.

(** The rows the CSV loop serves, in order: those that are not passed
    over, up to the first of them whose label cannot be formatted. The
    exception that row raises is given with them, [None] if there is
    no such row. *)
Fixpoint csv_scan (text_column : string)
    (todo : list (index_label * (string -> Py.pyval)))
    : list item * option exn :=
  match todo with
  | [] => ([], None)
  | (idx, row) :: todo' =>
      let text := Py.str (row text_column) in
      if blank text then csv_scan text_column todo'
      else
        match label_number idx with
        | inr number =>
            let (items, halt) := csv_scan text_column todo' in
            (Item number (label_str idx) text :: items, halt)
        | inl e => ([], Some e)
        end
  end.

Definition csv_items (text_column : string)
    (todo : list (index_label * (string -> Py.pyval))) : list item :=
  fst (csv_scan text_column todo).

Definition csv_error (text_column : string)
    (todo : list (index_label * (string -> Py.pyval))) : option exn :=
  snd (csv_scan text_column todo).

(** The same for the JSON loop: the elements it serves, each under its
    position, up to the first element on which line 390 or 393
    raises. *)
Fixpoint json_scan (text_field : string) (idx : nat) (todo : list json_item)
    : list item * option exn :=
  match todo with
  | [] => ([], None)
  | element :: todo' =>
      match has_field text_field element with
      | inl e => ([], Some e)
      | inr false => json_scan text_field (S idx) todo'
      | inr true =>
          match get_field text_field element with
          | inl e => ([], Some e)
          | inr v =>
              if blank (Py.str v) then json_scan text_field (S idx) todo'
              else
                let (items, halt) := json_scan text_field (S idx) todo' in
                (Item (Z.of_nat idx) (Py.str_int (Z.of_nat idx)) (Py.str v)
                 :: items, halt)
          end
      end
  end.

Definition json_items (text_field : string) (todo : list json_item)
    : list item :=
  fst (json_scan text_field 0 todo).

Definition json_error (text_field : string) (todo : list json_item)
    : option exn :=
  snd (json_scan text_field 0 todo).

(** Serving items one after the other (lines 338-344 and 400-406):
    each is announced and handed to [generate_audio] with the path of
    its number; the verdicts come back in order. *)
Fixpoint serve (env : Env) (self : VoiceCloner) (n : nat)
    (speaker_wav_path : option string) (output_dir language : string)
    (items : list item) : M (list bool) :=
  match items with
  | [] => ret []
  | it :: items' =>
      print (MsgProcessing (item_number it + 1) n
               (Py.slice_to 30 (item_text it)));;
      ok <- generate_audio env self (item_text it) speaker_wav_path
              (item_path output_dir (item_number it)) language;;
      oks <- serve env self n speaker_wav_path output_dir language items';;
      ret (ok :: oks)
  end.

(** The entry of [failed] for an item (lines 349 and 411). *)
Definition failed_entry (label : string) (it : item) : Py.pystr :=
  Py.u label ++ Py.u " " ++ Py.u (item_name it)
  ++ Py.u ": " ++ Py.slice_to 30 (item_text it).

(** The index of an item is written without a colon (code point 58),
    so that the first colon of its entry in [failed] ends it. *)
Definition colon_free (it : item) : Prop := ~ In 58 (Py.u (item_name it)).

(** The items whose verdict is [v], given one verdict per item. *)
Fixpoint chosen {A} (v : bool) (verdicts : list bool) (l : list A) : list A :=
  match verdicts, l with
  | ok :: verdicts', a :: l' =>
      if Bool.eqb ok v then a :: chosen v verdicts' l'
      else chosen v verdicts' l'
  | _, _ => []
  end.

(** The report for items that were served with the given verdicts: the
    path of every item answered [True], the entry of every item
    answered [False]. *)
Definition report (label output_dir : string) (items : list item)
    (verdicts : list bool) : results :=
  Results (map (fun it => item_path output_dir (item_number it))
             (chosen true verdicts items))
          (map (failed_entry label) (chosen false verdicts items)).

(** One report after another. *)
Definition merge (r r' : results) : results :=
  Results (success r ++ success r') (failed r ++ failed r').

(** Every served text can be printed, as far as it is printed
    (lines 122, 269, 338 and 400 print at most its first 50
    characters). In the runs of the embedding every line is printed;
    this keeps a statement to the runs of the script in which the
    standard output does not refuse a text. *)
Definition printable_items (items : list item) : Prop :=
  Forall (fun it => Py.printable (Py.slice_to 50 (item_text it)) = true) items.

(** *** Concrete worlds, for the examples *)

(** The cloner [__init__] builds when Coqui TTS loads (lines 89-96). *)
Definition coqui : VoiceCloner :=
  {| primary_engine := Some "TTS"%string; tts := true; tts_engine := false;
     supported_languages := xtts_languages |}.

(** A cloner whose model does not list Russian. *)
Definition coqui_without_ru : VoiceCloner :=
  {| primary_engine := Some "TTS"%string; tts := true; tts_engine := false;
     supported_languages := ["en"; "fr"]%string |}.

(** A back end that writes [size] bytes to the requested path. *)
Definition writes (size : N) (c : engine_call) (s : state)
    : option exn * gmap string N :=
  (None, <[target c := size]> (fs s)).

(** A back end that raises and writes nothing. *)
Definition crashes (c : engine_call) (s : state) : option exn * gmap string N :=
  (Some "RuntimeError: synthesis failed"%string, fs s).

(** A back end that returns without having written anything. *)
Definition writes_nothing (c : engine_call) (s : state)
    : option exn * gmap string N :=
  (None, fs s).

(** Coqui raises, the other engines write 20000 bytes. *)
Definition coqui_crashes (c : engine_call) (s : state)
    : option exn * gmap string N :=
  match c with
  | tts_to_file _ _ _ _ _ => crashes c s
  | _ => writes 20000 c s
  end.

(** Five rows under the default index; the third is white space and
    the last an empty field. *)
Definition sample_rows : list (index_label * (string -> Py.pyval)) :=
  [ (IntLabel 0, fun _ => Py.PyStr (Py.u "one"));
    (IntLabel 1, fun _ => Py.PyStr (Py.u "two"));
    (IntLabel 2, fun _ => Py.PyStr (Py.u "   "));
    (IntLabel 3, fun _ => Py.PyStr (Py.u "four"));
    (IntLabel 4, fun _ => Py.PyNaN) ].

Definition sample_df : DataFrame :=
  {| columns := ["text"%string]; rows := sample_rows |}.

Definition sample_json : json_doc :=
  JList [ JObj {[ "text"%string := Py.PyStr (Py.u "one") ]};
          JObj {[ "id"%string := Py.PyInt 1 ]};
          JObj {[ "text"%string := Py.PyStr (Py.u " ") ]} ].

Definition world (gtts pyttsx3 : bool)
    (back_end : engine_call -> state -> option exn * gmap string N) : Env :=
  {| GTTS_AVAILABLE := gtts;
     PYTTSX3_AVAILABLE := pyttsx3;
     engine := back_end;
     read_csv := fun _ _ => inr sample_df;
     json_load := fun _ _ => inr sample_json;
     mkdir := fun _ s => (None, fs s) |}.

(** A world with both fallback engines that serves the given table and
    document. *)
Definition world_of (df : DataFrame) (doc : json_doc)
    (back_end : engine_call -> state -> option exn * gmap string N) : Env :=
  {| GTTS_AVAILABLE := true;
     PYTTSX3_AVAILABLE := true;
     engine := back_end;
     read_csv := fun _ _ => inr df;
     json_load := fun _ _ => inr doc;
     mkdir := fun _ s => (None, fs s) |}.

(** Four rows that all hold a string; the third is white space. *)
Definition plain_df : DataFrame :=
  {| columns := ["text"%string];
     rows := [ (IntLabel 0, fun _ => Py.PyStr (Py.u "one"));
               (IntLabel 1, fun _ => Py.PyStr (Py.u "two"));
               (IntLabel 2, fun _ => Py.PyStr (Py.u "   "));
               (IntLabel 3, fun _ => Py.PyStr (Py.u "four")) ] |}.


(** Two rows labelled by the strings "a" and "b". *)
Definition lettered_df : DataFrame :=
  {| columns := ["text"%string];
     rows := [ (OtherLabel "a" "ValueError: Unknown format code 'd'",
                fun _ => Py.PyStr (Py.u "one"));
               (OtherLabel "b" "ValueError: Unknown format code 'd'",
                fun _ => Py.PyStr (Py.u "two")) ] |}.

(** Two rows labelled [True] and 1, which are formatted alike. *)
Definition flagged_df : DataFrame :=
  {| columns := ["text"%string];
     rows := [ (BoolLabel true, fun _ => Py.PyStr (Py.u "one"));
               (IntLabel 1, fun _ => Py.PyStr (Py.u "two")) ] |}.

(** A row whose text cell 12 has become a float, as [iterrows] makes
    it in a table that has a float column. *)
Definition upcast_df : DataFrame :=
  {| columns := ["text"; "score"]%string;
     rows := [ (IntLabel 0,
                fun column =>
                  if String.eqb column "text" then Py.PyFloat (Py.u "12.0")
                  else Py.PyFloat (Py.u "0.5")) ] |}.

(** An array of an object with a text and the number 5. *)
Definition mixed_json : json_doc :=
  JList [ JObj {[ "text"%string := Py.PyStr (Py.u "ok") ]};
          JAtom "TypeError: argument of type 'int' is not iterable"%string ].

(** A file system that holds a voice sample, and nothing logged yet. *)
Definition st0 : state :=
  State {[ "speaker.wav"%string := 480000 ]} [].

Fixpoint lead0 (k : nat) (d : Decimal.uint) : Decimal.uint :=
  match k with
  | O => d
  | S k' => Decimal.D0 (lead0 k' d)
  end.

(** Reading a zero-padded index back. *)
Definition parse_digits (s : string) : option nat :=
  option_map Nat.of_uint (NilEmpty.uint_of_string s).


(** * The rest of the code *)

(** ** [VoiceCloner.__init__] (lines 59-108) *)

(** What the constructor depends on besides [Env]: the two other guarded
    imports, CUDA, and how loading the model ends. *)
Record Imports := {
  TTS_AVAILABLE : bool;
  EDGE_TTS_AVAILABLE : bool;
  cuda_is_available : bool;
  (** [TTS(model_name=model_name).to(self.device)]: [Some e] when it
      raises *)
  load_model : string -> string -> option exn
}.

(** The lines the constructor prints. *)
Inductive init_message :=
| InitDevice (device : string)                      (* line 68 *)
| InitEngines (names : list string)                 (* line 81 *)
| InitLoaded (model_name : string)                  (* line 98 *)
| InitLanguages (first5 : list string) (n : nat)    (* line 99 *)
| InitLoadError (e : exn)                           (* line 102 *)
| InitNeedModel                                     (* line 103 *)
| InitNoLibrary                                     (* line 106 *)
| InitInstallHint.                                  (* line 107 *)

(** The object the constructor leaves behind: the fields the methods
    read ([view]) and the ones they do not. *)
Record Instance := {
  model_name : string;
  device : string;
  available_engines : list string;
  is_multi_lingual : bool;
  view : VoiceCloner
}.

Definition load_failed : exn :=
  "Не вдалося завантажити TTS модель для клонування"%string.

Definition library_missing : exn :=
  "Для клонування голосу потрібна Coqui TTS бібліотека"%string.

(** [__init__]: what is printed, and the object or the [RuntimeError]. *)
Definition __init__ (env : Env) (imports : Imports) (name : string)
    : list init_message * (exn + Instance) :=
  let device := if cuda_is_available imports
                then "cuda"%string else "cpu"%string in
  let available_engines :=
    (if TTS_AVAILABLE imports then ["TTS"%string] else [])
    ++ (if GTTS_AVAILABLE env then ["GTTS"%string] else [])
    ++ (if PYTTSX3_AVAILABLE env then ["PYTTSX3"%string] else [])
    ++ (if EDGE_TTS_AVAILABLE imports then ["EDGE_TTS"%string] else []) in
  let head := [InitDevice device; InitEngines available_engines] in
  if TTS_AVAILABLE imports then
    match load_model imports name device with
    | None =>
        (head ++ [InitLoaded name;
                  InitLanguages (firstn 5 xtts_languages)
                    (length xtts_languages)],
         inr {| model_name := name; device := device;
                available_engines := available_engines;
                is_multi_lingual := true;
                view := {| primary_engine := Some "TTS"%string;
                           tts := true; tts_engine := false;
                           supported_languages := xtts_languages |} |})
    | Some e =>
        (head ++ [InitLoadError e; InitNeedModel], inl load_failed)
    end
  else (head ++ [InitNoLibrary; InitInstallHint], inl library_missing).

(** ** voice_clone_demo.py: the converters (lines 14-84) *)

(** An exception of the converters. The handlers tell [ImportError]
    from the rest, so the class is kept beside the message. *)
Record conv_exn := {
  import_error : bool;
  msg : string
}.

Inductive conv_call :=
| librosa_load (input_path : string)
    (** [librosa.load(input_path, sr=None)] *)
| sf_write (output_path : string) (samples : nat) (sample_rate : N)
    (** [sf.write(output_path, audio_data, sample_rate)] *)
| from_ogg (input_path : string)
    (** [AudioSegment.from_ogg(input_path)] *)
| export_wav (output_path : string).
    (** [audio.export(output_path, format="wav")] *)

Inductive conv_message :=
| ConvStart (input_path output_path : string)       (* line 30 *)
| ConvParams (sample_rate : N) (samples : nat)      (* line 35 *)
| ConvDone (output_path : string) (size : N)        (* lines 43, 73 *)
| ConvNotCreated                                    (* line 46 *)
| ConvNoLibrosa                                     (* line 50 *)
| ConvLibrosaError (e : string)                     (* line 53 *)
| ConvPydub                                         (* line 63 *)
| ConvNoPydub                                       (* line 79 *)
| ConvPydubHint                                     (* line 80 *)
| ConvPydubError (e : string).                      (* line 83 *)

Inductive conv_event :=
| ConvCall (c : conv_call)
| ConvPrint (m : conv_message).

Record conv_state := ConvState {
  cfs : gmap string N;
  clog : list conv_event
}.

(** The audio libraries: whether they can be imported and how their
    calls end. [load] gives the number of samples and the sample rate. *)
Record Converters := {
  librosa_importable : bool;
  load : string -> conv_state -> conv_exn + (nat * N);
  write : string -> nat -> N -> conv_state -> option conv_exn * gmap string N;
  pydub_importable : bool;
  read_ogg : string -> conv_state -> option conv_exn;
  export : string -> conv_state -> option conv_exn * gmap string N
}.

Definition say (m : conv_message) (s : conv_state) : conv_state :=
  ConvState (cfs s) (clog s ++ [ConvPrint m]).

Definition called (c : conv_call) (files : gmap string N) (s : conv_state)
    : conv_state :=
  ConvState files (clog s ++ [ConvCall c]).

(** Lines 71-76 and 41-47: the verdict after the file was written. *)
Definition report_output (not_created : option conv_message)
    (output_path : string) (s : conv_state) : bool * conv_state :=
  match cfs s !! output_path with
  | Some file_size => (true, say (ConvDone output_path file_size) s)
  | None =>
      (false, match not_created with
              | Some m => say m s
              | None => s
              end)
  end.

(** The two [except] clauses of [convert_with_pydub] (lines 78-84). *)
Definition pydub_handler (e : conv_exn) (s : conv_state) : bool * conv_state :=
  if import_error e then (false, say ConvPydubHint (say ConvNoPydub s))
  else (false, say (ConvPydubError (msg e)) s).

(** [convert_with_pydub] (lines 56-84). *)
Definition convert_with_pydub (conv : Converters) (input_path output_path : string)
    (s : conv_state) : bool * conv_state :=
  if negb (pydub_importable conv) then
    pydub_handler {| import_error := true; msg := "No module named 'pydub'" |} s
  else
    let s1 := say ConvPydub s in
    match read_ogg conv input_path s1 with
    | Some e => pydub_handler e (called (from_ogg input_path) (cfs s1) s1)
    | None =>
        let s2 := called (from_ogg input_path) (cfs s1) s1 in
        match export conv output_path s2 with
        | (Some e, files) =>
            pydub_handler e (called (export_wav output_path) files s2)
        | (None, files) =>
            report_output None output_path
              (called (export_wav output_path) files s2)
        end
    end.

(** The two [except] clauses of [convert_ogg_to_wav] (lines 49-54). *)
Definition librosa_handler (conv : Converters) (input_path output_path : string)
    (e : conv_exn) (s : conv_state) : bool * conv_state :=
  if import_error e then
    convert_with_pydub conv input_path output_path (say ConvNoLibrosa s)
  else
    convert_with_pydub conv input_path output_path
      (say (ConvLibrosaError (msg e)) s).

(** [convert_ogg_to_wav] (lines 14-54). Printing the duration divides
    by the sample rate, which raises when the rate is zero. *)
Definition convert_ogg_to_wav (conv : Converters) (input_path output_path : string)
    (s : conv_state) : bool * conv_state :=
  if negb (librosa_importable conv) then
    librosa_handler conv input_path output_path
      {| import_error := true; msg := "No module named 'librosa'" |} s
  else
    let s1 := say (ConvStart input_path output_path) s in
    match load conv input_path s1 with
    | inl e =>
        librosa_handler conv input_path output_path e
          (called (librosa_load input_path) (cfs s1) s1)
    | inr (samples, sample_rate) =>
        let s2 := called (librosa_load input_path) (cfs s1) s1 in
        if sample_rate =? 0 then
          librosa_handler conv input_path output_path
            {| import_error := false; msg := "division by zero" |} s2
        else
          let s3 := say (ConvParams sample_rate samples) s2 in
          match write conv output_path samples sample_rate s3 with
          | (Some e, files) =>
              librosa_handler conv input_path output_path e
                (called (sf_write output_path samples sample_rate) files s3)
          | (None, files) =>
              report_output (Some ConvNotCreated) output_path
                (called (sf_write output_path samples sample_rate) files s3)
          end
    end.

(** The library calls recorded in a converter log. *)
Fixpoint conv_calls (l : list conv_event) : list conv_call :=
  match l with
  | [] => []
  | ConvCall c :: l' => c :: conv_calls l'
  | ConvPrint _ :: l' => conv_calls l'
  end.

(** ** Vocabulary of the further statements *)

(** The three back ends. *)
Inductive back_end := Coqui | GoogleTTS | Pyttsx3.

Definition back_end_of (c : engine_call) : back_end :=
  match c with
  | tts_to_file _ _ _ _ _ => Coqui
  | gTTS_save _ _ _ => GoogleTTS
  | pyttsx3_save _ _ => Pyttsx3
  end.

(** A call that passes a voice sample. *)
Definition cloning (c : engine_call) : bool :=
  match c with
  | tts_to_file _ (Some _) _ _ _ => true
  | _ => false
  end.

(** What a call made for a batch item may be: plain synthesis, or
    cloning with the sample of the batch, the language chosen for the
    batch and the default speed 1.0. *)
Definition batch_call (self : VoiceCloner) (speaker_wav_path : option string)
    (language : string) (c : engine_call) : Prop :=
  cloning c = false
  \/ exists p text out,
       truthy speaker_wav_path = Some p
       /\ c = tts_to_file text (Some p)
               (_pick_language (supported_languages self) language)
               (Some Py.f1_0) out.

(** A world whose input files cannot be read. *)
Definition world_unreadable : Env :=
  {| GTTS_AVAILABLE := true;
     PYTTSX3_AVAILABLE := true;
     engine := writes 20000;
     read_csv := fun _ _ => inl "FileNotFoundError"%string;
     json_load := fun _ _ => inl "JSONDecodeError"%string;
     mkdir := fun _ s => (None, fs s) |}.

(** A world in which the output directory cannot be made. *)
Definition world_readonly : Env :=
  {| GTTS_AVAILABLE := true;
     PYTTSX3_AVAILABLE := true;
     engine := writes 20000;
     read_csv := fun _ _ => inr sample_df;
     json_load := fun _ _ => inr sample_json;
     mkdir := fun _ s => (Some "PermissionError"%string, fs s) |}.

(** A machine with every library, where the model loads. *)
Definition all_imports : Imports :=
  {| TTS_AVAILABLE := true; EDGE_TTS_AVAILABLE := true;
     cuda_is_available := false; load_model := fun _ _ => None |}.

(** Converters in which librosa reads the file and writes [size] bytes,
    and pydub would do the same. *)
Definition converters (librosa pydub : bool) (rate size : N) : Converters :=
  {| librosa_importable := librosa;
     load := fun _ _ => inr (4800%nat, rate);
     write := fun p _ _ s => (None, <[p := size]> (cfs s));
     pydub_importable := pydub;
     read_ogg := fun _ _ => None;
     export := fun p s => (None, <[p := size]> (cfs s)) |}.

(** Converters in which librosa returns without having written the
    file, and pydub would write [size] bytes. *)
Definition silent_converters (size : N) : Converters :=
  {| librosa_importable := true;
     load := fun _ _ => inr (4800%nat, 16000);
     write := fun _ _ _ s => (None, cfs s);
     pydub_importable := true;
     read_ogg := fun _ _ => None;
     export := fun p s => (None, <[p := size]> (cfs s)) |}.

(** A file system that holds the recording, and nothing logged yet. *)
Definition cs0 : conv_state :=
  ConvState {[ "test/audio.ogg"%string := 52000 ]} [].

(** * Lemmas *)

(** ** Facts about the Python primitives *)

Lemma str_in_In (x : string) (l : list string) :
  Py.str_in x l = true <-> In x l.
Proof.
  unfold Py.str_in. rewrite existsb_exists. split.
  - intros (y & Hy & Heq). apply String.eqb_eq in Heq. now subst.
  - intros Hx. exists x. split; [assumption | apply String.eqb_refl].
Qed.

Lemma str_in_not_In (x : string) (l : list string) :
  Py.str_in x l = false <-> ~ In x l.
Proof.
  rewrite <- str_in_In. destruct (Py.str_in x l); split; congruence.
Qed.

Lemma char_in_In (c : N) (s : Py.pystr) :
  Py.char_in c s = true <-> In c s.
Proof.
  unfold Py.char_in. rewrite existsb_exists. split.
  - intros (y & Hy & Heq). apply N.eqb_eq in Heq. now subst.
  - intros Hc. exists c. split; [assumption | apply N.eqb_refl].
Qed.

Lemma lstrip_nil (s : Py.pystr) :
  Py.lstrip s = [] <-> forallb Py.isspace s = true.
Proof.
  induction s as [|c s IH]; simpl.
  - tauto.
  - destruct (Py.isspace c); simpl.
    + exact IH.
    + split; discriminate.
Qed.

Lemma forallb_rev {A} (p : A -> bool) (l : list A) :
  forallb p (rev l) = forallb p l.
Proof.
  induction l as [|a l IH]; simpl; [reflexivity|].
  rewrite forallb_app, IH. simpl. rewrite andb_true_r. apply andb_comm.
Qed.

Lemma lstrip_all_space (s : Py.pystr) :
  forallb Py.isspace (Py.lstrip s) = forallb Py.isspace s.
Proof.
  induction s as [|c s IH]; simpl; [reflexivity|].
  destruct (Py.isspace c) eqn:Hc; simpl; [exact IH | now rewrite Hc].
Qed.

(** A text is skipped as blank exactly when it is empty or consists of
    white space only. *)
Lemma blank_spec (text : Py.pystr) :
  blank text = true <-> forallb Py.isspace text = true.
Proof.
  unfold blank, Py.strip.
  assert (H : rev (Py.lstrip (rev (Py.lstrip text))) = []
              <-> forallb Py.isspace text = true).
  { rewrite <- lstrip_all_space, <- forallb_rev, <- lstrip_nil.
    split; intros E.
    - apply (f_equal (@rev N)) in E. now rewrite rev_involutive in E.
    - now rewrite E. }
  destruct (rev (Py.lstrip (rev (Py.lstrip text)))) eqn:E.
  - tauto.
  - split; [discriminate|]. intros Hs. apply H in Hs. discriminate.
Qed.

(** *** Decimal formatting *)

Lemma append_nil_l (s : string) : String.append EmptyString s = s.
Proof. reflexivity. Qed.

Lemma append_cons (c : ascii) (a b : string) :
  String.append (String c a) b = String c (String.append a b).
Proof. reflexivity. Qed.

Lemma of_uint_lead0 (k : nat) (d : Decimal.uint) :
  Nat.of_uint (lead0 k d) = Nat.of_uint d.
Proof.
  induction k as [|k IH]; simpl; [reflexivity|].
  rewrite <- IH. reflexivity.
Qed.

Lemma uint_of_string_zeros (k : nat) (s : string) :
  NilEmpty.uint_of_string (String.append (Py.zeros k) s)
  = option_map (lead0 k) (NilEmpty.uint_of_string s).
Proof.
  induction k as [|k IH]; simpl.
  - rewrite append_nil_l. now destruct (NilEmpty.uint_of_string s).
  - rewrite ?append_cons. simpl. rewrite IH.
    now destruct (NilEmpty.uint_of_string s).
Qed.

Lemma to_uint_not_Nil (n : nat) : Nat.to_uint n <> Decimal.Nil.
Proof.
  intros E. pose proof (Unsigned.to_of (Nat.to_uint n)) as H.
  rewrite Unsigned.of_to in H.
  assert (Hn : Nat.to_uint n = Decimal.unorm (Nat.to_uint n)) by exact H.
  rewrite E in Hn. discriminate.
Qed.

Lemma str_nat_digits (n : nat) :
  Py.str_nat n = NilEmpty.string_of_uint (Nat.to_uint n).
Proof.
  unfold Py.str_nat, NilZero.string_of_uint.
  pose proof (to_uint_not_Nil n). now destruct (Nat.to_uint n).
Qed.



Lemma parse_digits_padded (k n : nat) :
  parse_digits (String.append (Py.zeros k) (Py.str_nat n)) = Some n.
Proof.
  unfold parse_digits.
  rewrite uint_of_string_zeros, str_nat_digits, NilEmpty.usu. simpl.
  now rewrite of_uint_lead0, Unsigned.of_to.
Qed.

Lemma parse_digits_minus (s : string) : parse_digits (String "-" s) = None.
Proof.
  unfold parse_digits. simpl. now destruct (NilEmpty.uint_of_string s).
Qed.



Lemma list_ascii_append (a b : string) :
  list_ascii_of_string (String.append a b)
  = list_ascii_of_string a ++ list_ascii_of_string b.
Proof.
  induction a as [|c a IH]; [reflexivity|].
  rewrite append_cons. simpl. now rewrite IH.
Qed.

Lemma list_ascii_inj (a b : string) :
  list_ascii_of_string a = list_ascii_of_string b -> a = b.
Proof.
  intros E. apply (f_equal string_of_list_ascii) in E.
  now rewrite !string_of_list_ascii_of_string in E.
Qed.



(** *** Speed clamping *)

Ltac float_cases :=
  repeat match goal with
  | |- context [(?a ?= ?b)%Z] =>
      let H := fresh in destruct (Z.compare_spec a b) as [H|H|H];
      try (exfalso; lia); try subst
  | |- context [Pos.compare_cont Eq ?a ?b] =>
      let H := fresh in
      change (Pos.compare_cont Eq a b) with (Pos.compare a b);
      destruct (Pos.compare_spec a b) as [H|H|H];
      try (exfalso; lia); try subst
  end.

Ltac float_solve :=
  simpl; try discriminate; try reflexivity;
  float_cases; simpl; try discriminate; try reflexivity;
  float_cases; simpl; try discriminate; try reflexivity.

Section Clamp.

(** Clamping between two positive binary64 numbers [lo < hi] that differ
    in their exponents, whatever their mantissas. *)
Variables (mlo mhi : positive) (elo ehi : Z).
Hypothesis Hexp : (elo < ehi)%Z.

Lemma clamp_below_gen (s : spec_float) :
  SFltb s (S754_finite false mlo elo) = true ->
  Py.max (S754_finite false mlo elo) (Py.min (S754_finite false mhi ehi) s)
  = S754_finite false mlo elo.
Proof.
  unfold Py.max, Py.min, SFltb.
  destruct s as [[]|[]| |[] m e]; float_solve.
Qed.

Lemma clamp_above_gen (s : spec_float) :
  SFltb (S754_finite false mhi ehi) s = true ->
  Py.max (S754_finite false mlo elo) (Py.min (S754_finite false mhi ehi) s)
  = S754_finite false mhi ehi.
Proof.
  unfold Py.max, Py.min, SFltb.
  destruct s as [[]|[]| |[] m e]; float_solve.
Qed.

Lemma clamp_inside_gen (s : spec_float) :
  SFleb (S754_finite false mlo elo) s = true ->
  SFleb s (S754_finite false mhi ehi) = true ->
  Py.max (S754_finite false mlo elo) (Py.min (S754_finite false mhi ehi) s) = s.
Proof.
  unfold Py.max, Py.min, SFltb, SFleb.
  destruct s as [[]|[]| |[] m e]; float_solve.
Qed.

(** Whatever the input, NaN and the infinities included, the result
    lies between the bounds. *)
Lemma clamp_range_gen (s : spec_float) :
  SFleb (S754_finite false mlo elo)
    (Py.max (S754_finite false mlo elo) (Py.min (S754_finite false mhi ehi) s))
  = true
  /\ SFleb
       (Py.max (S754_finite false mlo elo)
          (Py.min (S754_finite false mhi ehi) s))
       (S754_finite false mhi ehi)
     = true.
Proof.
  unfold Py.max, Py.min, SFltb, SFleb.
  destruct s as [[]|[]| |[] m e]; simpl; float_cases; simpl;
    rewrite ?Z.compare_refl, ?Pos.compare_cont_refl; simpl;
    float_cases; simpl; rewrite ?Z.compare_refl, ?Pos.compare_cont_refl;
    simpl; float_cases; auto.
Qed.

End Clamp.

Lemma clamp_speed_below (speed : spec_float) :
  SFltb speed Py.f0_5 = true -> clamp_speed speed = Py.f0_5.
Proof. apply (clamp_below_gen _ _ (-53) (-51)). lia. Qed.

Lemma clamp_speed_above (speed : spec_float) :
  SFltb Py.f2_0 speed = true -> clamp_speed speed = Py.f2_0.
Proof. apply (clamp_above_gen _ _ (-53) (-51)). lia. Qed.

Lemma clamp_speed_inside (speed : spec_float) :
  SFleb Py.f0_5 speed = true -> SFleb speed Py.f2_0 = true ->
  clamp_speed speed = speed.
Proof. apply (clamp_inside_gen _ _ (-53) (-51)). lia. Qed.

Lemma clamp_speed_range (speed : spec_float) :
  SFleb Py.f0_5 (clamp_speed speed) = true
  /\ SFleb (clamp_speed speed) Py.f2_0 = true.
Proof. apply (clamp_range_gen _ _ (-53) (-51)). lia. Qed.

(** A NaN speed is replaced by the upper bound. *)
Example clamp_speed_nan : clamp_speed S754_nan = Py.f2_0.
Proof. reflexivity. Qed.

(** *** The log *)

Lemma calls_app (l1 l2 : list event) : calls (l1 ++ l2) = calls l1 ++ calls l2.
Proof.
  induction l1 as [|[c|m] l1 IH]; simpl;
    [reflexivity | now rewrite IH | exact IH].
Qed.

Lemma calls_print (l : list event) (m : message) :
  calls (l ++ [Print m]) = calls l.
Proof. rewrite calls_app. apply app_nil_r. Qed.

Lemma calls_call (l : list event) (c : engine_call) :
  calls (l ++ [Call c]) = calls l ++ [c].
Proof. now rewrite calls_app. Qed.

(** *** Computations that cannot raise *)

Lemma total_ret {A} (a : A) : total (ret a).
Proof. intros s. now exists a, s. Qed.

Lemma total_print (m : message) : total (print m).
Proof. intros s. unfold print. eauto. Qed.

Lemma total_path_exists (p : string) : total (path_exists p).
Proof. intros s. unfold path_exists. eauto. Qed.

Lemma total_bind {A B} (m : M A) (k : A -> M B) :
  total m -> (forall a, total (k a)) -> total (bind m k).
Proof.
  intros Hm Hk s. unfold bind. destruct (Hm s) as (a & s1 & ->). apply Hk.
Qed.

Lemma total_try_except {A} (body : M A) (handler : exn -> M A) :
  (forall e, total (handler e)) -> total (try_except body handler).
Proof.
  intros Hh s. unfold try_except. destruct (body s) as [[a|e] s1].
  - eauto.
  - apply Hh.
Qed.

Lemma total_if {A} (b : bool) (m1 m2 : M A) :
  total m1 -> total m2 -> total (if b then m1 else m2).
Proof. now destruct b. Qed.

Lemma _fallback_tts_total env self text output_path :
  total (_fallback_tts env self text output_path).
Proof.
  unfold _fallback_tts. apply total_bind.
  - apply total_try_except. intros e.
    apply total_bind; [apply total_print | intros; apply total_ret].
  - intros [b|]; apply total_ret.
Qed.

Lemma simple_text_to_speech_total env self text output_path :
  total (simple_text_to_speech env self text output_path).
Proof.
  unfold simple_text_to_speech. apply total_try_except. intros e.
  apply total_bind; [apply total_print | intros; apply _fallback_tts_total].
Qed.

Lemma clone_voice_from_sample_total env self text wav out lang speed :
  total (clone_voice_from_sample env self text wav out lang speed).
Proof.
  unfold clone_voice_from_sample. apply total_try_except. intros e.
  apply total_bind; [apply total_print | intros _].
  apply total_bind; [| intros; apply total_ret].
  apply total_if; [apply total_print | apply total_ret].
Qed.

Lemma generate_audio_total env self text wav out lang :
  total (generate_audio env self text wav out lang).
Proof.
  unfold generate_audio. destruct (truthy wav).
  - apply total_bind; [apply total_path_exists | intros b].
    apply total_if;
      [apply clone_voice_from_sample_total | apply simple_text_to_speech_total].
  - apply simple_text_to_speech_total.
Qed.

(** *** Running the methods *)

Lemma exists_Some {A} (x : A) : bool_decide (is_Some (Some x)) = true.
Proof. apply bool_decide_eq_true. eauto. Qed.

Lemma exists_None {A} : bool_decide (is_Some (@None A)) = false.
Proof. apply bool_decide_eq_false. intros [x Hx]. discriminate. Qed.

Ltac run :=
  unfold try_except, bind, ret, raise, print, path_exists, getsize, call;
  cbv beta; cbn [fs log fst snd].

Ltac norm_log :=
  cbv beta iota; cbn [app fs log];
  repeat (progress (rewrite <- ?app_assoc; cbn [app fs log])).

(** Without the Coqui model nothing is attempted (lines 252-255). *)
Lemma clone_without_model env self text wav out lang speed st :
  negb (engine_is (primary_engine self) "TTS") || negb (tts self) = true ->
  clone_voice_from_sample env self text wav out lang speed st
  = (Ok false,
     State (fs st) (log st ++ [Print MsgCloneOnlyCoqui; Print MsgInitHint])).
Proof.
  intros H. unfold clone_voice_from_sample. run. rewrite H. norm_log.
  reflexivity.
Qed.

(** With the model but without the sample file nothing is attempted
    either (lines 257-260). *)
Lemma clone_missing_sample env self text wav out lang speed st :
  negb (engine_is (primary_engine self) "TTS") || negb (tts self) = false ->
  fs st !! wav = None ->
  clone_voice_from_sample env self text wav out lang speed st
  = (Ok false,
     State (fs st)
       (log st ++ [Print (MsgSampleNotFound wav); Print MsgNeedWav])).
Proof.
  intros H Hmiss. unfold clone_voice_from_sample. run.
  rewrite H, Hmiss, exists_None. cbn [negb]. norm_log. reflexivity.
Qed.

(** Past the two guards the model is called once; the verdict is read
    off the existence of the output file (lines 262-298). *)
Lemma clone_dispatch env self text wav out lang speed st n :
  negb (engine_is (primary_engine self) "TTS") || negb (tts self) = false ->
  fs st !! wav = Some n ->
  let c := clone_call self text wav out lang speed in
  let st1 :=
    State (fs st) (log st ++ clone_announcement self text wav lang speed) in
  clone_voice_from_sample env self text wav out lang speed st
  = match engine env c st1 with
    | (None, fs') =>
        match fs' !! out with
        | Some size =>
            (Ok true,
             State fs' (log st1 ++ [Call c; Print (MsgCloneSaved out size)]))
        | None =>
            (Ok false, State fs' (log st1 ++ [Call c; Print MsgNotCreated]))
        end
    | (Some e, fs') =>
        (Ok false,
         State fs'
           (log st1 ++ [Call c; Print (MsgCloneError e)]
            ++ (if Py.contains "speaker_wav" e
                then [Print MsgSpeakerHint] else [])))
    end.
Proof.
  intros H Hwav c st1. unfold clone_voice_from_sample. run.
  rewrite H, Hwav, exists_Some. cbn [negb].
  subst st1 c. unfold clone_announcement, clone_call.
  destruct (negb (_pick_language (supported_languages self) lang =? lang)%string);
    norm_log.
  all: match goal with |- context [engine ?E ?c ?s] =>
         destruct (engine E c s) as [[e|] fs'] end.
  all: norm_log.
  all: try (destruct (Py.contains "speaker_wav" e); norm_log; reflexivity).
  all: destruct (fs' !! out) as [size|] eqn:Hout;
    rewrite ?exists_Some, ?exists_None; norm_log; rewrite ?Hout; norm_log;
    reflexivity.
Qed.

Ltac case_engine :=
  match goal with
  | |- context [engine ?E ?c ?s] =>
      let e := fresh "e" in
      let fs' := fresh "fs'" in
      destruct (engine E c s) as [[e|] fs'] eqn:?
  end.

Ltac case_output :=
  match goal with
  | |- context [@lookup string N (gmap string N) _ ?p ?m] =>
      destruct (@lookup string N (gmap string N) _ p m) as [size|] eqn:Hout
  end.

(** [_fallback_tts] through gTTS (lines 193-210): success needs an
    output file of more than 1000 bytes. *)
Lemma fallback_gtts env self text out s :
  GTTS_AVAILABLE env && negb (engine_is (primary_engine self) "GTTS") = true ->
  let c := gTTS_save text (detect_language text) out in
  let s1 :=
    State (fs s)
      (log s ++ [Print MsgTryingFallback;
                 Print (MsgFallbackLang (detect_language text))]) in
  _fallback_tts env self text out s
  = match engine env c s1 with
    | (None, fs') =>
        match fs' !! out with
        | Some size =>
            (Ok (1000 <? size),
             State fs'
               (log s1 ++ [Call c; Print (MsgFallbackSize size);
                           Print (if 1000 <? size
                                  then MsgFallbackUsedGTTS out
                                  else MsgFallbackEmpty)]))
        | None => (Ok false, State fs' (log s1 ++ [Call c]))
        end
    | (Some e, fs') =>
        (Ok false, State fs' (log s1 ++ [Call c; Print (MsgFallbackError e)]))
    end.
Proof.
  intros H c s1. subst c s1. unfold _fallback_tts. run. rewrite H. norm_log.
  case_engine; norm_log; [reflexivity|].
  case_output;
    rewrite ?exists_Some, ?exists_None; norm_log; rewrite ?Hout; norm_log;
    [|reflexivity].
  destruct (1000 <? size); norm_log; reflexivity.
Qed.

(** [_fallback_tts] through pyttsx3 (lines 212-217): no check at all. *)
Lemma fallback_pyttsx3 env self text out s :
  GTTS_AVAILABLE env && negb (engine_is (primary_engine self) "GTTS") = false ->
  PYTTSX3_AVAILABLE env
    && negb (engine_is (primary_engine self) "PYTTSX3") = true ->
  let c := pyttsx3_save text out in
  let s0 := State (fs s) (log s ++ [Print MsgTryingFallback]) in
  _fallback_tts env self text out s
  = match engine env c s0 with
    | (None, fs') =>
        (Ok true,
         State fs' (log s0 ++ [Call c; Print (MsgFallbackUsedPyttsx3 out)]))
    | (Some e, fs') =>
        (Ok false, State fs' (log s0 ++ [Call c; Print (MsgFallbackError e)]))
    end.
Proof.
  intros H1 H2 c s0. subst c s0. unfold _fallback_tts. run.
  rewrite H1, H2. norm_log. case_engine; norm_log; reflexivity.
Qed.

(** [_fallback_tts] with no other engine: nothing is called. *)
Lemma fallback_nothing env self text out s :
  GTTS_AVAILABLE env && negb (engine_is (primary_engine self) "GTTS") = false ->
  PYTTSX3_AVAILABLE env
    && negb (engine_is (primary_engine self) "PYTTSX3") = false ->
  _fallback_tts env self text out s
  = (Ok false, State (fs s) (log s ++ [Print MsgTryingFallback])).
Proof.
  intros H1 H2. unfold _fallback_tts. run. rewrite H1, H2. norm_log.
  reflexivity.
Qed.

(** In every case [_fallback_tts] returns, makes at most the one call
    [fallback_call] names, keeps what was logged, and answers [False]
    when there is no other engine or when that engine raises. *)
Lemma fallback_summary env self text out s :
  exists b s' l,
    _fallback_tts env self text out s = (Ok b, s')
    /\ log s' = log s ++ l
    /\ calls l = option_list (fallback_call env self text out)
    /\ (fallback_call env self text out = None -> b = false)
    /\ (forall c, fallback_call env self text out = Some c ->
        raises_always env c -> b = false).
Proof.
  unfold fallback_call.
  destruct (GTTS_AVAILABLE env && negb (engine_is (primary_engine self) "GTTS"))
    eqn:H1;
  [| destruct (PYTTSX3_AVAILABLE env
               && negb (engine_is (primary_engine self) "PYTTSX3")) eqn:H2].
  - rewrite (fallback_gtts _ _ _ _ _ H1). cbv zeta.
    pose proof (fun Hr : raises_always env
                  (gTTS_save text (detect_language text) out) =>
                  Hr (State (fs s)
                        (log s ++ [Print MsgTryingFallback;
                           Print (MsgFallbackLang (detect_language text))])))
      as Hraise.
    case_engine; cbn [fst] in Hraise; [|case_output];
      eexists _, _, _; (split; [reflexivity|]); norm_log;
      (split; [reflexivity|]); cbn [calls option_list];
      (split; [reflexivity|]); (split; [discriminate|]).
    + reflexivity.
    + intros c [= <-] Hr. now apply Hraise in Hr.
    + intros c [= <-] Hr. now apply Hraise in Hr.
  - rewrite (fallback_pyttsx3 _ _ _ _ _ H1 H2). cbv zeta.
    pose proof (fun Hr : raises_always env (pyttsx3_save text out) =>
                  Hr (State (fs s) (log s ++ [Print MsgTryingFallback])))
      as Hraise.
    case_engine; cbn [fst] in Hraise;
      eexists _, _, _; (split; [reflexivity|]); norm_log;
      (split; [reflexivity|]); cbn [calls option_list];
      (split; [reflexivity|]); (split; [discriminate|]).
    + reflexivity.
    + intros c [= <-] Hr. now apply Hraise in Hr.
  - rewrite (fallback_nothing _ _ _ _ _ H1 H2).
    eexists _, _, _. split; [reflexivity|]. cbn [log].
    split; [reflexivity|]. cbn [calls option_list]. split; [reflexivity|].
    split; [reflexivity | discriminate].
Qed.

(** [simple_text_to_speech] when no branch applies (lines 176-178):
    [False] at once, the fallback is not tried. *)
Lemma simple_no_engine env self text out st :
  primary_plan self text out = None ->
  simple_text_to_speech env self text out st
  = (Ok false,
     State (fs st)
       (log st ++ [Print (MsgGenerating (Py.slice_to 50 text));
                   Print (MsgEngineUsed (primary_engine self));
                   Print MsgNoEngine])).
Proof.
  unfold primary_plan, simple_text_to_speech. run.
  destruct (engine_is (primary_engine self) "TTS" && tts self); [discriminate|].
  destruct (engine_is (primary_engine self) "GTTS"); [discriminate|].
  destruct (engine_is (primary_engine self) "PYTTSX3" && tts_engine self);
    [discriminate|].
  intros _. norm_log. reflexivity.
Qed.

Ltac plan_inj :=
  let Hp := fresh "Hp" in
  intros Hp;
  match type of Hp with
  | Some _ = Some (?a, ?c) =>
      apply (f_equal (fun o => match o with Some p => p | None => (a, c) end))
        in Hp;
      cbv beta iota in Hp;
      apply pair_equal_spec in Hp; destruct Hp as [<- <-]
  end.

(** [simple_text_to_speech] when the primary engine returns: the answer
    is [True] whatever was written (lines 144, 160-169, 173-181). *)
Lemma simple_primary_returns env self text out st ann c fs' :
  primary_plan self text out = Some (ann, c) ->
  engine env c (State (fs st) (log st ++ ann)) = (None, fs') ->
  exists l,
    simple_text_to_speech env self text out st
    = (Ok true, State fs' (log st ++ ann ++ Call c :: l))
    /\ calls l = [].
Proof.
  unfold primary_plan, simple_text_to_speech, simple_tts_lang. run.
  destruct (engine_is (primary_engine self) "TTS" && tts self);
  [| destruct (engine_is (primary_engine self) "GTTS");
     [| destruct (engine_is (primary_engine self) "PYTTSX3"
                  && tts_engine self); [|discriminate]]].
  - plan_inj.
    destruct (detect_language text =? "uk")%string; norm_log;
      intros ->; norm_log; eexists; (split; [reflexivity|]); reflexivity.
  - plan_inj. norm_log. intros ->. norm_log.
    case_output; rewrite ?exists_Some, ?exists_None; norm_log;
      rewrite ?Hout; norm_log.
    + destruct (size <? 1000); norm_log;
        eexists; (split; [reflexivity|]); reflexivity.
    + eexists; (split; [reflexivity|]); reflexivity.
  - plan_inj. norm_log. intros ->. norm_log.
    eexists; (split; [reflexivity|]); reflexivity.
Qed.

(** [simple_text_to_speech] when the primary engine raises: the error
    is printed and the verdict is that of [_fallback_tts] (lines 183-186). *)
Lemma simple_primary_raises env self text out st ann c e fs' :
  primary_plan self text out = Some (ann, c) ->
  engine env c (State (fs st) (log st ++ ann)) = (Some e, fs') ->
  exists l,
    simple_text_to_speech env self text out st
    = _fallback_tts env self text out
        (State fs' (log st ++ ann ++ Call c :: l ++ [Print (MsgGenError e)]))
    /\ calls l = [].
Proof.
  unfold primary_plan, simple_text_to_speech, simple_tts_lang. run.
  destruct (engine_is (primary_engine self) "TTS" && tts self);
  [| destruct (engine_is (primary_engine self) "GTTS");
     [| destruct (engine_is (primary_engine self) "PYTTSX3"
                  && tts_engine self); [|discriminate]]].
  - plan_inj.
    destruct (detect_language text =? "uk")%string; norm_log;
      intros ->; norm_log;
      destruct (Py.contains "speaker_wav" e); norm_log;
      first [ exists [Print MsgNeedsSpeakerWav]; split; reflexivity
            | exists []; split; reflexivity ].
  - plan_inj. norm_log. intros ->. norm_log.
    exists []. split; reflexivity.
  - plan_inj. norm_log. intros ->. norm_log.
    exists []. split; reflexivity.
Qed.

(** *** The language guess *)

Ltac split_ifs :=
  repeat match goal with
         | |- context [if ?b then _ else _] => destruct b eqn:?
         end.

Ltac bool_bounds :=
  repeat match goal with
         | H : _ && _ = true |- _ => apply andb_prop in H; destruct H
         | H : _ && _ = false |- _ => apply andb_false_iff in H; destruct H
         | H : _ || _ = true |- _ => apply orb_prop in H; destruct H
         | H : (_ <=? _) = true |- _ => apply N.leb_le in H
         | H : (_ <=? _) = false |- _ => apply N.leb_gt in H
         | H : (_ =? _) = true |- _ => apply N.eqb_eq in H
         end.

Lemma lower_char_ascii (c : N) : c < 0x80 -> Py.lower_char c < 0x80.
Proof.
  intros Hc. unfold Py.lower_char. split_ifs; bool_bounds; lia.
Qed.

Lemma cyrillic_letters_range (c : N) :
  Py.char_in c cyrillic_letters = true <-> 0x430 <= c <= 0x44F.
Proof.
  rewrite char_in_In. unfold cyrillic_letters. split.
  - simpl. intros H.
    repeat (destruct H as [<-|H]; [lia|]). contradiction.
  - intros [Hlo Hhi].
    assert (Hk : exists k, (k < 32)%nat /\ c = 0x430 + N.of_nat k).
    { exists (N.to_nat (c - 0x430)). split; lia. }
    destruct Hk as (k & Hk & ->).
    do 32 (destruct k as [|k]; [simpl; tauto|]). lia.
Qed.

Lemma lower_char_russian (c : N) :
  0x410 <= c <= 0x44F -> 0x430 <= Py.lower_char c <= 0x44F.
Proof.
  intros [Hlo Hhi]. unfold Py.lower_char. split_ifs; bool_bounds; lia.
Qed.

(** Only those letters are: no other code point becomes one of the 32
    letters when it is lower-cased. *)
Lemma lower_char_russian_only (c : N) :
  0x430 <= Py.lower_char c <= 0x44F -> 0x410 <= c <= 0x44F.
Proof.
  unfold Py.lower_char. split_ifs; bool_bounds; lia.
Qed.

Lemma any_cyrillic (text : Py.pystr) :
  Py.any (fun c => Py.char_in c cyrillic_letters) (Py.lower text) = true
  <-> exists c, In c text /\ 0x430 <= Py.lower_char c <= 0x44F.
Proof.
  unfold Py.any, Py.lower. rewrite existsb_exists. split.
  - intros (d & Hd & Hin). apply in_map_iff in Hd as (c & <- & Hc).
    exists c. split; [exact Hc | now apply cyrillic_letters_range].
  - intros (c & Hc & Hr). exists (Py.lower_char c).
    split; [now apply in_map | now apply cyrillic_letters_range].
Qed.

(** The guess is ["uk"] exactly for a text with a letter from U+0410 to
    U+044F, and ["en"] for every other text. *)
Lemma detect_language_range (text : Py.pystr) :
  (detect_language text = "uk"%string
   <-> exists c, In c text /\ 0x410 <= c <= 0x44F)
  /\ (detect_language text = "en"%string
      <-> ~ exists c, In c text /\ 0x410 <= c <= 0x44F).
Proof.
  assert (Hany : Py.any (fun c => Py.char_in c cyrillic_letters) (Py.lower text)
                 = true
                 <-> exists c, In c text /\ 0x410 <= c <= 0x44F).
  { rewrite any_cyrillic. split; intros (c & Hc & Hr); exists c;
      (split; [exact Hc|]);
      [now apply lower_char_russian_only | now apply lower_char_russian]. }
  unfold detect_language.
  destruct (Py.any (fun c => Py.char_in c cyrillic_letters) (Py.lower text)).
  - split; split; try discriminate; try reflexivity.
    + intros _. now apply Hany.
    + intros Hno. exfalso. apply Hno. now apply Hany.
  - split; split; try discriminate; try reflexivity.
    + intros Hex. apply Hany in Hex. discriminate.
    + intros _ Hex. apply Hany in Hex. discriminate.
Qed.

Lemma pick_language_cases (supported : list string) (lang : string) :
  (In lang supported /\ _pick_language supported lang = lang)
  \/ (~ In lang supported /\ lang = "uk"%string /\ In "ru"%string supported
      /\ _pick_language supported lang = "ru"%string)
  \/ (~ In lang supported /\ _pick_language supported lang = "en"%string).
Proof.
  unfold _pick_language.
  destruct (Py.str_in lang supported) eqn:Hin.
  - left. split; [now apply str_in_In | reflexivity].
  - apply str_in_not_In in Hin. right.
    destruct (lang =? "uk")%string eqn:Huk; [|right; now split].
    apply String.eqb_eq in Huk.
    destruct (Py.str_in "ru" supported) eqn:Hru; [left | right; now split].
    apply str_in_In in Hru. now repeat split.
Qed.

Lemma simple_tts_lang_values (text : Py.pystr) :
  simple_tts_lang text
  = if String.eqb (detect_language text) "uk" then "ru"%string else "en"%string.
Proof.
  unfold simple_tts_lang, detect_language.
  now destruct (Py.any (fun c => Py.char_in c cyrillic_letters) (Py.lower text)).
Qed.

(** *** Summaries *)

Lemma primary_plan_silent self text out ann c :
  primary_plan self text out = Some (ann, c) -> calls ann = [].
Proof.
  unfold primary_plan.
  destruct (engine_is (primary_engine self) "TTS" && tts self);
  [| destruct (engine_is (primary_engine self) "GTTS");
     [| destruct (engine_is (primary_engine self) "PYTTSX3"
                  && tts_engine self); [|discriminate]]];
  plan_inj; [|reflexivity..].
  now destruct (detect_language text =? "uk")%string.
Qed.

(** [simple_text_to_speech] always returns; it calls the primary engine
    once and, only when that call raised, [_fallback_tts]. *)
Lemma simple_summary env self text out st ann c :
  primary_plan self text out = Some (ann, c) ->
  exists b s' l,
    simple_text_to_speech env self text out st = (Ok b, s')
    /\ log s' = log st ++ ann ++ Call c :: l
    /\ match engine env c (State (fs st) (log st ++ ann)) with
       | (None, fs') => b = true /\ calls l = [] /\ fs s' = fs'
       | (Some e, _) =>
           calls l = option_list (fallback_call env self text out)
           /\ In (Print (MsgGenError e)) l
           /\ (fallback_call env self text out = None -> b = false)
           /\ (forall c', fallback_call env self text out = Some c' ->
               raises_always env c' -> b = false)
       end.
Proof.
  intros Hplan.
  destruct (engine env c (State (fs st) (log st ++ ann))) as [[e|] fs'] eqn:He.
  - destruct (simple_primary_raises _ _ _ _ _ _ _ _ _ Hplan He) as (l & -> & Hl).
    match goal with |- context [_fallback_tts _ _ _ _ ?s] =>
      destruct (fallback_summary env self text out s)
        as (b & s' & l' & -> & Hlog & Hcalls & Hnone & Hraise) end.
    cbn [log] in Hlog.
    exists b, s', (l ++ [Print (MsgGenError e)] ++ l').
    split; [reflexivity|]. split.
    { rewrite Hlog. repeat (rewrite <- app_assoc; cbn [app]). reflexivity. }
    split; [|split; [|split]]; try assumption.
    + rewrite !calls_app, Hl, Hcalls. reflexivity.
    + apply in_or_app. right. apply in_or_app. left. now left.
  - destruct (simple_primary_returns _ _ _ _ _ _ _ _ Hplan He) as (l & -> & Hl).
    exists true, (State fs' (log st ++ ann ++ Call c :: l)), l.
    cbn [log fs]. repeat split; assumption.
Qed.

Lemma guards_pass self :
  engine_is (primary_engine self) "TTS" = true -> tts self = true ->
  negb (engine_is (primary_engine self) "TTS") || negb (tts self) = false.
Proof. now intros -> ->. Qed.

Lemma clone_announcement_silent self text wav lang speed :
  calls (clone_announcement self text wav lang speed) = [].
Proof.
  unfold clone_announcement.
  now destruct (negb (_pick_language (supported_languages self) lang =? lang)%string).
Qed.

(** Past its guards [clone_voice_from_sample] returns after exactly one
    call, made with the chosen language and the clamped speed. *)
Lemma clone_summary env self text wav out lang speed st n :
  engine_is (primary_engine self) "TTS" = true -> tts self = true ->
  fs st !! wav = Some n ->
  let c := clone_call self text wav out lang speed in
  let ann := clone_announcement self text wav lang speed in
  exists b s' l,
    clone_voice_from_sample env self text wav out lang speed st = (Ok b, s')
    /\ log s' = log st ++ ann ++ Call c :: l
    /\ calls l = []
    /\ match engine env c (State (fs st) (log st ++ ann)) with
       | (None, fs') => b = bool_decide (is_Some (fs' !! out)) /\ fs s' = fs'
       | (Some e, _) => b = false
       end.
Proof.
  intros H1 H2 Hwav c ann.
  rewrite (clone_dispatch _ _ _ _ _ _ _ _ _ (guards_pass _ H1 H2) Hwav).
  cbv zeta. fold c. fold ann.
  destruct (engine env c (State (fs st) (log st ++ ann))) as [[e|] fs'].
  - eexists _, _, _. split; [reflexivity|]. cbn [log].
    split; [now rewrite <- app_assoc|]. split; [|reflexivity].
    now destruct (Py.contains "speaker_wav" e).
  - destruct (fs' !! out) as [size|] eqn:Hout;
      eexists _, _, _; (split; [reflexivity|]); cbn [log fs];
      (split; [now rewrite <- app_assoc|]); (split; [reflexivity|]);
      rewrite ?exists_Some, ?exists_None; split; reflexivity.
Qed.

Lemma primary_plan_coqui self text out :
  engine_is (primary_engine self) "TTS" = true -> tts self = true ->
  exists ann,
    primary_plan self text out
    = Some (ann, tts_to_file text None (simple_tts_lang text) None out).
Proof. intros H1 H2. unfold primary_plan. rewrite H1, H2. cbn [andb]. eauto. Qed.

Lemma fallback_call_not_coqui env self text out c :
  fallback_call env self text out = Some c ->
  (c = gTTS_save text (detect_language text) out
   /\ engine_is (primary_engine self) "GTTS" = false)
  \/ (c = pyttsx3_save text out
      /\ engine_is (primary_engine self) "PYTTSX3" = false).
Proof.
  unfold fallback_call.
  destruct (GTTS_AVAILABLE env && negb (engine_is (primary_engine self) "GTTS"))
    eqn:H1;
  [| destruct (PYTTSX3_AVAILABLE env
               && negb (engine_is (primary_engine self) "PYTTSX3")) eqn:H2];
  [| | discriminate]; intros E;
    apply (f_equal (fun o => match o with Some x => x | None => c end)) in E;
    cbv beta iota in E; subst c.
  - left. split; [reflexivity|]. apply andb_prop in H1 as [_ H1].
    now apply negb_true_iff in H1.
  - right. split; [reflexivity|]. apply andb_prop in H2 as [_ H2].
    now apply negb_true_iff in H2.
Qed.

Lemma primary_plan_cases self text out ann c :
  primary_plan self text out = Some (ann, c) ->
  (back_end_of c = Coqui /\ engine_is (primary_engine self) "TTS" = true)
  \/ (back_end_of c = GoogleTTS /\ engine_is (primary_engine self) "GTTS" = true)
  \/ (back_end_of c = Pyttsx3
      /\ engine_is (primary_engine self) "PYTTSX3" = true).
Proof.
  unfold primary_plan.
  destruct (engine_is (primary_engine self) "TTS") eqn:H1, (tts self);
    cbn [andb];
    try (plan_inj; left; now split);
    (destruct (engine_is (primary_engine self) "GTTS") eqn:H2;
     [plan_inj; right; left; now split|]);
    (destruct (engine_is (primary_engine self) "PYTTSX3") eqn:H3,
       (tts_engine self); cbn [andb]; try discriminate;
     plan_inj; right; right; now split).
Qed.

Lemma primary_plan_plain self text out ann c :
  primary_plan self text out = Some (ann, c) -> cloning c = false.
Proof.
  unfold primary_plan.
  destruct (engine_is (primary_engine self) "TTS" && tts self);
  [| destruct (engine_is (primary_engine self) "GTTS");
     [| destruct (engine_is (primary_engine self) "PYTTSX3"
                  && tts_engine self); [|discriminate]]];
  plan_inj; reflexivity.
Qed.

Lemma primary_plan_about self text out ann c :
  primary_plan self text out = Some (ann, c) -> about text out c.
Proof.
  unfold primary_plan.
  destruct (engine_is (primary_engine self) "TTS" && tts self);
  [| destruct (engine_is (primary_engine self) "GTTS");
     [| destruct (engine_is (primary_engine self) "PYTTSX3"
                  && tts_engine self); [|discriminate]]];
  plan_inj; split; reflexivity.
Qed.

Lemma fallback_call_about env self text out c :
  fallback_call env self text out = Some c ->
  cloning c = false /\ about text out c.
Proof.
  intros H.
  destruct (fallback_call_not_coqui _ _ _ _ _ H) as [(-> & _)|(-> & _)];
    repeat split.
Qed.

(** The calls of one run of [simple_text_to_speech]: none passes a
    sample, and each is made for the text and the path of the run. *)
Lemma simple_calls_plain env self text out st :
  exists b s' l,
    simple_text_to_speech env self text out st = (Ok b, s')
    /\ log s' = log st ++ l
    /\ Forall (fun c => cloning c = false /\ about text out c) (calls l).
Proof.
  destruct (primary_plan self text out) as [[ann c]|] eqn:Hplan.
  - destruct (simple_summary env self text out st ann c Hplan)
      as (b & s' & l & Hrun & Hlog & Hcase).
    exists b, s', (ann ++ Call c :: l). split; [exact Hrun|].
    split; [exact Hlog|].
    rewrite calls_app, (primary_plan_silent _ _ _ _ _ Hplan). cbn [app calls].
    constructor.
    { split; [exact (primary_plan_plain _ _ _ _ _ Hplan)
             | exact (primary_plan_about _ _ _ _ _ Hplan)]. }
    destruct (engine env c _) as [[e|] fs1].
    + destruct Hcase as (-> & _).
      destruct (fallback_call env self text out) as [c'|] eqn:Hfb;
        cbn [option_list]; [|constructor].
      constructor; [|constructor].
      exact (fallback_call_about _ _ _ _ _ Hfb).
    + destruct Hcase as (_ & -> & _). constructor.
  - rewrite (simple_no_engine _ _ _ _ _ Hplan).
    eexists _, _, _. split; [reflexivity|]. cbn [log].
    split; [reflexivity | constructor].
Qed.

Lemma clone_calls env self text wav out lang speed st :
  exists b s' l,
    clone_voice_from_sample env self text wav out lang speed st = (Ok b, s')
    /\ log s' = log st ++ l
    /\ (calls l = [] \/ calls l = [clone_call self text wav out lang speed]).
Proof.
  destruct (negb (engine_is (primary_engine self) "TTS") || negb (tts self))
    eqn:Hguard.
  - rewrite (clone_without_model _ _ _ _ _ _ _ _ Hguard).
    eexists _, _, _. split; [reflexivity|]. cbn [log].
    split; [reflexivity | now left].
  - destruct (fs st !! wav) as [n|] eqn:Hwav.
    + apply orb_false_elim in Hguard as [H1 H2].
      apply negb_false_iff in H1, H2.
      destruct (clone_summary env self text wav out lang speed st n H1 H2 Hwav)
        as (b & s' & l & Hrun & Hlog & Hl & _).
      eexists b, s', _. split; [exact Hrun|]. split; [exact Hlog|].
      right. rewrite calls_app, clone_announcement_silent. cbn [calls app].
      now rewrite Hl.
    + rewrite (clone_missing_sample _ _ _ _ _ _ _ _ Hguard Hwav).
      eexists _, _, _. split; [reflexivity|]. cbn [log].
      split; [reflexivity | now left].
Qed.

(** What [generate_audio] calls for a batch item: plain synthesis or
    the cloning call of the batch, for the text and the path of the
    item. *)
Lemma generate_audio_calls env self text wav out lang st :
  exists ok s' l,
    generate_audio env self text wav out lang st = (Ok ok, s')
    /\ log s' = log st ++ l
    /\ Forall (fun c => batch_call self wav lang c /\ about text out c)
         (calls l).
Proof.
  assert (Hplain : exists ok s' l,
             simple_text_to_speech env self text out st = (Ok ok, s')
             /\ log s' = log st ++ l
             /\ Forall (fun c => batch_call self wav lang c /\ about text out c)
                  (calls l)).
  { destruct (simple_calls_plain env self text out st)
      as (b & s' & l & Hrun & Hlog & Hl).
    exists b, s', l. split; [exact Hrun|]. split; [exact Hlog|].
    eapply Forall_impl; [exact Hl|]. intros c [Hc Ha]. split; [now left | exact Ha]. }
  unfold generate_audio. destruct (truthy wav) as [p|] eqn:Hwav; [|exact Hplain].
  unfold bind, path_exists.
  destruct (bool_decide (is_Some (fs st !! p))); [|exact Hplain].
  destruct (clone_calls env self text p out lang Py.f1_0 st)
    as (b & s' & l & Hrun & Hlog & Hl).
  exists b, s', l. split; [exact Hrun|]. split; [exact Hlog|].
  destruct Hl as [-> | ->]; constructor; [|constructor].
  split; [|split; reflexivity].
  right. exists p, text, out. split; [exact Hwav | reflexivity].
Qed.

(** *** File names *)






(** *** Entries of [failed] *)

Lemma u_app (a b : string) : Py.u (String.append a b) = Py.u a ++ Py.u b.
Proof. unfold Py.u. now rewrite list_ascii_append, map_app. Qed.

Lemma u_inj (a b : string) : Py.u a = Py.u b -> a = b.
Proof.
  unfold Py.u. intros E. apply list_ascii_inj.
  revert E. generalize (list_ascii_of_string b).
  induction (list_ascii_of_string a) as [|x l IH]; intros [|y l']; simpl;
    try discriminate; [reflexivity|].
  intros E. injection E as Hxy Hl.
  apply (f_equal ascii_of_N) in Hxy. rewrite !ascii_N_embedding in Hxy.
  subst y. f_equal. now apply IH.
Qed.

Lemma str_nat_inj (i j : nat) : Py.str_nat i = Py.str_nat j -> i = j.
Proof.
  rewrite !str_nat_digits. intros E.
  apply (f_equal NilEmpty.uint_of_string) in E. rewrite !NilEmpty.usu in E.
  injection E as E. now apply Unsigned.to_uint_inj.
Qed.

Lemma digits_no_colon (d : Decimal.uint) :
  ~ In 58 (Py.u (NilEmpty.string_of_uint d)).
Proof.
  induction d; simpl; [tauto | ..];
    (intros [H|H]; [discriminate | now apply IHd]).
Qed.

Lemma first_separator {A} (c : A) (l1 l2 x y : list A) :
  ~ In c l1 -> ~ In c l2 -> l1 ++ c :: x = l2 ++ c :: y -> l1 = l2.
Proof.
  revert l2. induction l1 as [|a l1 IH]; intros [|b l2] H1 H2 E;
    simpl in *.
  - reflexivity.
  - injection E as <- _. tauto.
  - injection E as -> _. tauto.
  - injection E as <- E. f_equal. apply IH; tauto.
Qed.

Lemma str_int_inj (i j : Z) : Py.str_int i = Py.str_int j -> i = j.
Proof.
  assert (Hmix : forall a b, String "-" (Py.str_nat a) <> Py.str_nat b).
  { intros a b E. apply (f_equal parse_digits) in E.
    rewrite parse_digits_minus in E.
    pose proof (parse_digits_padded 0 b) as Hb. cbn [Py.zeros] in Hb.
    rewrite append_nil_l in Hb. congruence. }
  unfold Py.str_int.
  destruct (i <? 0)%Z eqn:Hi, (j <? 0)%Z eqn:Hj; intros E.
  - injection E as E. apply str_nat_inj in E.
    apply Z.ltb_lt in Hi, Hj. lia.
  - now apply Hmix in E.
  - symmetry in E. now apply Hmix in E.
  - apply str_nat_inj in E. apply Z.ltb_ge in Hi, Hj. lia.
Qed.

Lemma str_int_no_colon (z : Z) : ~ In 58 (Py.u (Py.str_int z)).
Proof.
  unfold Py.str_int. destruct (z <? 0)%Z.
  - change (Py.u (String "-" (Py.str_nat (Z.abs_nat z))))
      with (45 :: Py.u (Py.str_nat (Z.abs_nat z))).
    intros [H|H]; [discriminate|]. revert H.
    rewrite str_nat_digits. apply digits_no_colon.
  - rewrite str_nat_digits. apply digits_no_colon.
Qed.

Lemma label_str_no_colon (idx : index_label) (number : Z) :
  label_number idx = inr number -> ~ In 58 (Py.u (label_str idx)).
Proof.
  destruct idx as [z|[|]|repr e]; cbn [label_number label_str];
    try discriminate; intros _.
  - apply str_int_no_colon.
  - vm_compute. intuition discriminate.
  - vm_compute. intuition discriminate.
Qed.

(** An entry of [failed] tells the index of its item, whatever the
    texts. *)
Lemma failed_entry_name label (a b : item) :
  colon_free a -> colon_free b ->
  failed_entry label a = failed_entry label b -> item_name a = item_name b.
Proof.
  unfold failed_entry, colon_free. intros Ha Hb E.
  apply app_inv_head, app_inv_head in E.
  change (Py.u ": ") with (58 :: [32]) in E. cbn [app] in E.
  apply first_separator in E; [|assumption..].
  now apply u_inj in E.
Qed.

Lemma chosen_indices {A B} (f : A -> B) (v : bool) (oks : list bool) :
  forall l, sublist (map f (chosen v oks l)) (map f l).
Proof.
  induction oks as [|ok oks IH]; intros [|a l]; cbn [chosen map];
    try apply sublist_nil_l.
  destruct (Bool.eqb ok v); cbn [map];
    [apply sublist_skip, IH | apply sublist_cons, IH].
Qed.

Lemma chosen_Forall {A} (P : A -> Prop) (v : bool) (oks : list bool) :
  forall l, Forall P l -> Forall P (chosen v oks l).
Proof.
  induction oks as [|ok oks IH]; intros [|a l] H; cbn [chosen];
    try constructor.
  apply Forall_cons in H as [Ha Hl].
  destruct (Bool.eqb ok v); [constructor; [exact Ha|] |]; now apply IH.
Qed.

Lemma NoDup_failed_entries label (l : list item) :
  Forall colon_free l ->
  NoDup (map item_name l) -> NoDup (map (failed_entry label) l).
Proof.
  induction l as [|a l IH]; cbn [map]; intros Hc H; [constructor|].
  apply Forall_cons in Hc as [Hca Hcl].
  apply NoDup_cons in H as [Ha Hl]. constructor; [|now apply IH].
  rewrite list_elem_of_In. intros Hin.
  apply in_map_iff in Hin as (b & Hb & Hin).
  apply Ha. rewrite list_elem_of_In.
  rewrite (failed_entry_name label a b); [now apply in_map | exact Hca | | now symmetry].
  rewrite Forall_forall in Hcl. apply Hcl. now apply list_elem_of_In.
Qed.


(** *** The batch loops *)

Lemma record_outcome_one label idx text path ok r :
  (length (success (record_outcome label idx text path ok r))
   + length (failed (record_outcome label idx text path ok r))
   = S (length (success r) + length (failed r)))%nat.
Proof.
  unfold record_outcome. destruct ok; cbn [success failed];
    rewrite length_app; simpl; lia.
Qed.

(** Each entry goes to one list and leaves the other as it was. *)
Lemma record_outcome_exclusive label idx text path ok r :
  let r' := record_outcome label idx text path ok r in
  (ok = true /\ success r' = success r ++ [path] /\ failed r' = failed r)
  \/ (ok = false /\ success r' = success r
      /\ exists entry, failed r' = failed r ++ [entry]).
Proof.
  unfold record_outcome. destruct ok; cbn [success failed]; eauto 6.
Qed.

Lemma isna_str (text : Py.pystr) : Py.isna (Py.PyStr text) = false.
Proof. reflexivity. Qed.

(** An empty CSV field arrives as NaN; [str] makes it the text ["nan"],
    and the test of line 332 is applied to that text. *)
Example nan_cell_is_text :
  Py.str Py.PyNaN = Py.u "nan" /\ Py.isna (Py.PyStr (Py.str Py.PyNaN)) = false.
Proof. split; reflexivity. Qed.

Lemma chosen_cons {A} (v ok : bool) (oks : list bool) (a : A) (l : list A) :
  chosen v (ok :: oks) (a :: l)
  = (if Bool.eqb ok v then [a] else []) ++ chosen v oks l.
Proof. simpl. now destruct (Bool.eqb ok v). Qed.

Lemma chosen_lengths {A} (oks : list bool) :
  forall l : list A,
  length oks = length l ->
  (length (chosen true oks l) + length (chosen false oks l) = length l)%nat.
Proof.
  induction oks as [|ok oks IH]; intros [|a l]; cbn [chosen length];
    try discriminate; [reflexivity|].
  intros E. injection E as E. specialize (IH l E).
  destruct ok; cbn [Bool.eqb length]; lia.
Qed.

Lemma report_lengths label out items oks :
  length oks = length items ->
  (length (success (report label out items oks))
   + length (failed (report label out items oks)) = length items)%nat.
Proof.
  intros E. unfold report. cbn [success failed]. rewrite !length_map.
  now apply chosen_lengths.
Qed.

Lemma merge_assoc (r a b : results) : merge (merge r a) b = merge r (merge a b).
Proof. unfold merge. cbn [success failed]. now rewrite <- !app_assoc. Qed.

Lemma report_cons label out it items ok oks :
  report label out (it :: items) (ok :: oks)
  = merge (report label out [it] [ok]) (report label out items oks).
Proof.
  unfold report, merge. cbn [success failed].
  rewrite !chosen_cons, !map_app. cbn [chosen map].
  now rewrite !app_nil_r.
Qed.

(** Lines 346-349 and 408-411 add the report of the one item. *)
Lemma record_outcome_report label out number name text ok r :
  record_outcome label name text (item_path out number) ok r
  = merge r (report label out [Item number name text] [ok]).
Proof.
  unfold record_outcome, merge, report, failed_entry.
  destruct ok;
    cbn [chosen Bool.eqb map success failed item_number item_name item_text];
    now rewrite ?app_nil_r.
Qed.

Lemma serve_cons env self n wav out lang it items s :
  serve env self n wav out lang (it :: items) s
  = match generate_audio env self (item_text it) wav
            (item_path out (item_number it)) lang
            (State (fs s)
               (log s ++ [Print (MsgProcessing (item_number it + 1) n
                                   (Py.slice_to 30 (item_text it)))])) with
    | (Ok ok, s1) =>
        match serve env self n wav out lang items s1 with
        | (Ok oks, s2) => (Ok (ok :: oks), s2)
        | (Raise e, s2) => (Raise e, s2)
        end
    | (Raise e, s1) => (Raise e, s1)
    end.
Proof. reflexivity. Qed.

(** Serving returns one verdict for each item; every call it logs is
    plain synthesis or the cloning call of the batch, made for the text
    of a served item and the path of that item. *)
Lemma serve_calls env self n wav out lang items :
  forall s,
  exists oks s' l,
    serve env self n wav out lang items s = (Ok oks, s')
    /\ length oks = length items
    /\ log s' = log s ++ l
    /\ Forall (batch_call self wav lang) (calls l)
    /\ Forall (fun c =>
                 exists it, In it items
                            /\ about (item_text it)
                                 (item_path out (item_number it)) c)
         (calls l).
Proof.
  induction items as [|it0 items IH]; intros s.
  - exists [], s, []. cbn [serve]. unfold ret.
    rewrite app_nil_r. repeat split; constructor.
  - rewrite serve_cons.
    match goal with |- context [generate_audio ?e ?sf ?t ?w ?o ?l ?s1] =>
      destruct (generate_audio_calls e sf t w o l s1)
        as (ok & s1' & l1 & -> & Hlog1 & Hl1) end.
    destruct (IH s1') as (oks & s' & l2 & -> & Hlen & Hlog2 & Hb & Ha).
    cbn [log] in Hlog1.
    exists (ok :: oks), s',
      (Print (MsgProcessing (item_number it0 + 1) n
                (Py.slice_to 30 (item_text it0))) :: l1 ++ l2).
    split; [reflexivity|]. split; [simpl; now rewrite Hlen|]. split.
    { rewrite Hlog2, Hlog1, <- !app_assoc. reflexivity. }
    cbn [calls]. rewrite calls_app. split; apply Forall_app; split.
    + eapply Forall_impl; [exact Hl1|]. now intros c [Hc _].
    + exact Hb.
    + eapply Forall_impl; [exact Hl1|]. intros c [_ Hc].
      exists it0. split; [now left | exact Hc].
    + eapply Forall_impl; [exact Ha|]. intros c (it & Hin & Hc).
      exists it. split; [now right | exact Hc].
Qed.

Lemma serve_total env self n wav out lang items s :
  exists oks s',
    serve env self n wav out lang items s = (Ok oks, s')
    /\ length oks = length items.
Proof.
  destruct (serve_calls env self n wav out lang items s)
    as (oks & s' & l & H & Hlen & _). eauto.
Qed.

(** The CSV loop is the serving of the rows [csv_scan] selects: it ends
    with their report added to what it was given, or with the exception
    of the first row whose label cannot be formatted, after the rows
    before that one have been served. *)
Lemma csv_loop_run env self n col wav out lang todo :
  forall r s,
  exists oks s',
    serve env self n wav out lang (csv_items col todo) s = (Ok oks, s')
    /\ length oks = length (csv_items col todo)
    /\ csv_loop env self n col wav out lang todo r s
       = (match csv_error col todo with
          | None => Ok (merge r (report "Row" out (csv_items col todo) oks))
          | Some e => Raise e
          end, s').
Proof.
  unfold csv_items, csv_error.
  induction todo as [|[idx row] todo IH]; intros r s.
  - exists [], s. cbn [csv_scan csv_loop serve fst snd]. unfold ret.
    split; [reflexivity|]. split; [reflexivity|].
    unfold merge, report. cbn [chosen map success failed].
    rewrite !app_nil_r. now destruct r.
  - cbn [csv_loop csv_scan]. rewrite isna_str. cbn [orb].
    destruct (blank (Py.str (row col))); [apply IH|].
    unfold bind at 1, of_sum at 1.
    destruct (label_number idx) as [e|number].
    + cbn [fst snd serve]. exists [], s. unfold ret. repeat split.
    + destruct (csv_scan col todo) as [items halt]. cbn [fst snd] in *.
      rewrite serve_cons. cbn [item_number item_name item_text].
      unfold bind at 1, print at 1. unfold bind at 1.
      fold (item_path out number).
      match goal with |- context [generate_audio ?e ?sf ?t ?w ?o ?l ?s1] =>
        destruct (generate_audio_total e sf t w o l s1) as (ok & s1' & ->) end.
      destruct (IH (record_outcome "Row" (label_str idx) (Py.str (row col))
                      (item_path out number) ok r) s1')
        as (oks & s' & -> & Hlen & ->).
      exists (ok :: oks), s'. split; [reflexivity|].
      split; [simpl; now rewrite Hlen|].
      destruct halt; [reflexivity|].
      now rewrite record_outcome_report, merge_assoc, <- report_cons.
Qed.

Lemma json_loop_run env self n field wav out lang todo :
  forall idx r s,
  exists oks s',
    serve env self n wav out lang (fst (json_scan field idx todo)) s
    = (Ok oks, s')
    /\ length oks = length (fst (json_scan field idx todo))
    /\ json_loop env self n field wav out lang idx todo r s
       = (match snd (json_scan field idx todo) with
          | None =>
              Ok (merge r (report "Item" out (fst (json_scan field idx todo))
                             oks))
          | Some e => Raise e
          end, s').
Proof.
  induction todo as [|element todo IH]; intros idx r s.
  - exists [], s. cbn [json_scan json_loop serve fst snd]. unfold ret.
    split; [reflexivity|]. split; [reflexivity|].
    unfold merge, report. cbn [chosen map success failed].
    rewrite !app_nil_r. now destruct r.
  - cbn [json_loop json_scan]. unfold bind at 1, of_sum at 1.
    destruct (has_field field element) as [e|[|]]; cbn [negb].
    + cbn [fst snd serve]. exists [], s. unfold ret. repeat split.
    + unfold bind at 1, of_sum at 1.
      destruct (get_field field element) as [e|v].
      * cbn [fst snd serve]. exists [], s. unfold ret. repeat split.
      * destruct (blank (Py.str v)); [apply IH|].
        destruct (json_scan field (S idx) todo) as [items halt] eqn:Hscan.
        cbn [fst snd] in *.
        rewrite serve_cons. cbn [item_number item_name item_text].
        unfold bind at 1, print at 1. unfold bind at 1.
        fold (item_path out (Z.of_nat idx)).
        match goal with |- context [generate_audio ?e ?sf ?t ?w ?o ?l ?s1] =>
          destruct (generate_audio_total e sf t w o l s1) as (ok & s1' & ->)
        end.
        destruct (IH (S idx)
                    (record_outcome "Item" (Py.str_int (Z.of_nat idx))
                       (Py.str v) (item_path out (Z.of_nat idx)) ok r) s1')
          as (oks & s' & Hserve & Hlen & Hloop).
        rewrite Hscan in Hserve, Hlen, Hloop. cbn [fst snd] in *.
        rewrite Hserve, Hloop.
        exists (ok :: oks), s'. split; [reflexivity|].
        split; [simpl; now rewrite Hlen|].
        destruct halt; [reflexivity|].
        now rewrite record_outcome_report, merge_assoc, <- report_cons.
    + apply IH.
Qed.

(** Of the rows of a loop that ends normally, each is served or has a
    blank text. *)
Lemma csv_items_count col todo :
  csv_error col todo = None ->
  (length (csv_items col todo) + count_if (csv_blank col) todo
   = length todo)%nat.
Proof.
  unfold csv_items, csv_error.
  induction todo as [|[idx row] todo IH]; [reflexivity|].
  cbn [csv_scan count_if length]. unfold csv_blank at 1. cbn [snd].
  destruct (blank (Py.str (row col))).
  - intros H. specialize (IH H). lia.
  - destruct (label_number idx) as [e|number]; [discriminate|].
    destruct (csv_scan col todo) as [items halt]. cbn [fst snd length] in *.
    intros H. specialize (IH H). lia.
Qed.

(** The names of the rows that are served have no colon. *)
Lemma csv_items_colon_free col todo : Forall colon_free (csv_items col todo).
Proof.
  unfold csv_items.
  induction todo as [|[idx row] todo IH]; cbn [csv_scan fst]; [constructor|].
  destruct (blank (Py.str (row col))); [exact IH|].
  destruct (label_number idx) as [e|number] eqn:Hn; [constructor|].
  destruct (csv_scan col todo) as [items halt]. cbn [fst] in *.
  constructor; [|exact IH].
  exact (label_str_no_colon _ _ Hn).
Qed.

Lemma json_scan_count field todo :
  forall idx,
  snd (json_scan field idx todo) = None ->
  (length (fst (json_scan field idx todo))
   + count_if (json_blank field) todo + count_if (json_missing field) todo
   = length todo)%nat.
Proof.
  induction todo as [|element todo IH]; intros idx; [reflexivity|].
  cbn [json_scan count_if length].
  unfold json_blank at 1, json_missing at 1.
  destruct element as [d|s0|strings|e]; cbn [has_field get_field].
  - destruct (d !! field) as [v|]; rewrite ?exists_Some, ?exists_None;
      cbn [negb].
    + destruct (blank (Py.str v)).
      * intros H. specialize (IH _ H). lia.
      * destruct (json_scan field (S idx) todo) as [items halt] eqn:Hscan.
        cbn [fst snd length]. intros H.
        specialize (IH (S idx)). rewrite Hscan in IH. cbn [fst snd] in IH.
        specialize (IH H). lia.
    + intros H. specialize (IH _ H). lia.
  - destruct (Py.contains field s0); cbn [negb]; [discriminate|].
    intros H. specialize (IH _ H). lia.
  - destruct (Py.str_in field strings); cbn [negb]; [discriminate|].
    intros H. specialize (IH _ H). lia.
  - discriminate.
Qed.

Lemma NoDup_map_inj {A B} (f : A -> B) (l : list A) :
  (forall x y, f x = f y -> x = y) -> NoDup l -> NoDup (map f l).
Proof.
  intros Hf. induction 1 as [|j js Hj Hjs IH]; simpl; constructor; [|exact IH].
  rewrite list_elem_of_In. intros Hin.
  apply in_map_iff in Hin as (k & Hk & Hin).
  apply Hf in Hk. subst k. apply Hj. now apply list_elem_of_In.
Qed.

(** The JSON loop serves its elements under their positions. *)
Lemma json_scan_positions {B} (f : Z -> B) field todo :
  forall idx,
  (forall it, In it (fst (json_scan field idx todo)) ->
     item_name it = Py.str_int (item_number it))
  /\ sublist (map item_number (fst (json_scan field idx todo)))
       (map Z.of_nat (seq idx (length todo))).
Proof.
  induction todo as [|element todo IH]; intros idx;
    cbn [json_scan length seq map].
  - split; [intros it []|constructor].
  - destruct (IH (S idx)) as (Hnames & Hsub).
    destruct (has_field field element) as [e|[|]]; cbn [fst map];
      [split; [intros it []|apply sublist_nil_l] |
       | split; [exact Hnames | now apply sublist_cons]].
    destruct (get_field field element) as [e|v]; cbn [fst map];
      [split; [intros it []|apply sublist_nil_l]|].
    destruct (blank (Py.str v));
      [split; [exact Hnames | now apply sublist_cons]|].
    destruct (json_scan field (S idx) todo) as [items halt].
    cbn [fst map item_number] in *. split.
    + intros it [<-|Hin]; [reflexivity | now apply Hnames].
    + now apply sublist_skip.
Qed.

Lemma json_items_numbers field todo :
  NoDup (map item_number (json_items field todo)).
Proof.
  destruct (json_scan_positions (fun z => z) field todo 0%nat) as (_ & Hsub).
  eapply sublist_NoDup; [|exact Hsub].
  apply NoDup_map_inj; [apply Nat2Z.inj | apply NoDup_seq].
Qed.

Lemma json_items_names field todo :
  NoDup (map item_name (json_items field todo))
  /\ Forall colon_free (json_items field todo).
Proof.
  destruct (json_scan_positions (fun z => z) field todo 0%nat) as (Hnames & _).
  fold (json_items field todo) in Hnames.
  assert (Hmap : map item_name (json_items field todo)
                 = map Py.str_int (map item_number (json_items field todo))).
  { rewrite map_map. apply map_ext_in. exact Hnames. }
  split.
  - rewrite Hmap. apply NoDup_map_inj; [apply str_int_inj|].
    apply json_items_numbers.
  - apply Forall_forall. intros it Hin. apply list_elem_of_In in Hin.
    unfold colon_free. rewrite (Hnames it Hin). apply str_int_no_colon.
Qed.

(** *** The batch runners as a whole *)

(** [process_csv_file] when the file cannot be read (lines 318, 354-356). *)
Lemma process_csv_file_unread env self path col wav out lang st e :
  read_csv env path st = inl e ->
  process_csv_file env self path col wav out lang st
  = (Ok no_results, State (fs st) (log st ++ [Print (MsgBatchError e)])).
Proof.
  intros Hread.
  unfold process_csv_file, try_except, bind, of_sum, print, ret.
  rewrite Hread. reflexivity.
Qed.

(** Without the text column the answer is two empty lists, whatever the
    rows (lines 321-323). *)
Lemma process_csv_file_no_column env self path col wav out lang st df :
  read_csv env path st = inr df ->
  Py.str_in col (columns df) = false ->
  process_csv_file env self path col wav out lang st
  = (Ok no_results,
     State (fs st)
       (log st ++ [Print (MsgLoaded (length (rows df)));
                   Print (MsgColumnMissing col)])).
Proof.
  intros Hread Hcol.
  unfold process_csv_file, try_except, bind, of_sum, print, ret.
  rewrite Hread. cbv beta iota. cbn [fs log]. rewrite Hcol. cbn [negb].
  cbv beta iota. cbn [fs log]. now rewrite <- app_assoc.
Qed.

(** When the output directory cannot be made (lines 326, 354-356). *)
Lemma process_csv_file_no_dir env self path col wav out lang st df e fs1 :
  read_csv env path st = inr df ->
  Py.str_in col (columns df) = true ->
  mkdir env out (State (fs st) (log st ++ [Print (MsgLoaded (length (rows df)))]))
  = (Some e, fs1) ->
  process_csv_file env self path col wav out lang st
  = (Ok no_results,
     State fs1 (log st ++ [Print (MsgLoaded (length (rows df)));
                           Print (MsgBatchError e)])).
Proof.
  intros Hread Hcol Hmk.
  unfold process_csv_file, try_except, bind, of_sum, do_mkdir, print, ret.
  rewrite Hread. cbv beta iota. cbn [fs log]. rewrite Hcol. cbn [negb].
  rewrite Hmk. cbn [fs log]. now rewrite <- app_assoc.
Qed.

(** [process_csv_file] when its loop is reached (the file was read, the
    text column is there, the output directory could be made): the rows
    [csv_scan] selects are served; if the loop ends normally the answer
    is their report and the totals are printed, and if a label cannot
    be formatted the answer is two empty lists and the exception is
    printed. *)
Lemma process_csv_file_run env self path col wav out lang st df fs1 :
  read_csv env path st = inr df ->
  Py.str_in col (columns df) = true ->
  mkdir env out (State (fs st) (log st ++ [Print (MsgLoaded (length (rows df)))]))
  = (None, fs1) ->
  exists oks s2,
    serve env self (length (rows df)) wav out lang (csv_items col (rows df))
      (State fs1 (log st ++ [Print (MsgLoaded (length (rows df)))]))
    = (Ok oks, s2)
    /\ length oks = length (csv_items col (rows df))
    /\ process_csv_file env self path col wav out lang st
       = match csv_error col (rows df) with
         | None =>
             (Ok (report "Row" out (csv_items col (rows df)) oks),
              State (fs s2)
                (log s2
                 ++ [Print (MsgDone
                              (length (success (report "Row" out
                                                  (csv_items col (rows df)) oks)))
                              (length (failed (report "Row" out
                                                 (csv_items col (rows df)) oks))))]))
         | Some e =>
             (Ok no_results, State (fs s2) (log s2 ++ [Print (MsgBatchError e)]))
         end.
Proof.
  intros Hread Hcol Hmk.
  destruct (csv_loop_run env self (length (rows df)) col wav out lang (rows df)
              no_results
              (State fs1 (log st ++ [Print (MsgLoaded (length (rows df)))])))
    as (oks & s2 & Hserve & Hlen & Hloop).
  exists oks, s2. split; [exact Hserve|]. split; [exact Hlen|].
  unfold process_csv_file, try_except, bind, of_sum, do_mkdir, print, ret.
  rewrite Hread. cbv beta iota. cbn [fs log]. rewrite Hcol. cbn [negb].
  rewrite Hmk. cbn [fs log]. rewrite Hloop.
  destruct (csv_error col (rows df)); reflexivity.
Qed.

Lemma process_json_file_unread env self path field wav out lang st e :
  json_load env path st = inl e ->
  process_json_file env self path field wav out lang st
  = (Ok no_results, State (fs st) (log st ++ [Print (MsgBatchError e)])).
Proof.
  intros Hread.
  unfold process_json_file, try_except, bind, of_sum, print, ret.
  rewrite Hread. reflexivity.
Qed.

Lemma process_json_file_no_dir env self path field wav out lang st doc e fs1 :
  json_load env path st = inr doc ->
  mkdir env out
    (State (fs st) (log st ++ [Print (MsgLoaded (length (as_list doc)))]))
  = (Some e, fs1) ->
  process_json_file env self path field wav out lang st
  = (Ok no_results,
     State fs1 (log st ++ [Print (MsgLoaded (length (as_list doc)));
                           Print (MsgBatchError e)])).
Proof.
  intros Hread Hmk.
  unfold process_json_file, try_except, bind, of_sum, do_mkdir, print, ret.
  rewrite Hread. cbv beta iota zeta. cbn [fs log].
  rewrite Hmk. cbn [fs log]. now rewrite <- app_assoc.
Qed.

(** The same for [process_json_file], whose loop is reached when the
    document was loaded and the output directory could be made. *)
Lemma process_json_file_run env self path field wav out lang st doc fs1 :
  json_load env path st = inr doc ->
  mkdir env out
    (State (fs st) (log st ++ [Print (MsgLoaded (length (as_list doc)))]))
  = (None, fs1) ->
  exists oks s2,
    serve env self (length (as_list doc)) wav out lang
      (json_items field (as_list doc))
      (State fs1 (log st ++ [Print (MsgLoaded (length (as_list doc)))]))
    = (Ok oks, s2)
    /\ length oks = length (json_items field (as_list doc))
    /\ process_json_file env self path field wav out lang st
       = match json_error field (as_list doc) with
         | None =>
             (Ok (report "Item" out (json_items field (as_list doc)) oks),
              State (fs s2)
                (log s2
                 ++ [Print (MsgDone
                              (length (success
                                         (report "Item" out
                                            (json_items field (as_list doc)) oks)))
                              (length (failed
                                         (report "Item" out
                                            (json_items field (as_list doc)) oks))))]))
         | Some e =>
             (Ok no_results, State (fs s2) (log s2 ++ [Print (MsgBatchError e)]))
         end.
Proof.
  intros Hread Hmk.
  destruct (json_loop_run env self (length (as_list doc)) field wav out lang
              (as_list doc) 0%nat no_results
              (State fs1 (log st ++ [Print (MsgLoaded (length (as_list doc)))])))
    as (oks & s2 & Hserve & Hlen & Hloop).
  exists oks, s2. split; [exact Hserve|]. split; [exact Hlen|].
  unfold process_json_file, try_except, bind, of_sum, do_mkdir, print, ret.
  rewrite Hread. cbv beta iota zeta. cbn [fs log].
  rewrite Hmk. cbn [fs log]. rewrite Hloop.
  unfold json_error, json_items.
  destruct (snd (json_scan field 0 (as_list doc))); reflexivity.
Qed.

(** In every case [process_csv_file] returns, and the calls it logs are
    those of the items it served. *)
Lemma process_csv_file_calls env self path col wav out lang st :
  exists r s' l,
    process_csv_file env self path col wav out lang st = (Ok r, s')
    /\ log s' = log st ++ l
    /\ Forall (batch_call self wav lang) (calls l).
Proof.
  destruct (read_csv env path st) as [e|df] eqn:Hread;
    [|destruct (Py.str_in col (columns df)) eqn:Hcol;
      [destruct (mkdir env out
                   (State (fs st)
                      (log st ++ [Print (MsgLoaded (length (rows df)))])))
         as [[e|] fs1] eqn:Hmk|]].
  - rewrite (process_csv_file_unread _ _ _ _ _ _ _ _ _ Hread).
    eexists _, _, _. split; [reflexivity|]. cbn [log].
    split; [reflexivity | constructor].
  - rewrite (process_csv_file_no_dir _ _ _ _ _ _ _ _ _ _ _ Hread Hcol Hmk).
    eexists _, _, _. split; [reflexivity|]. cbn [log].
    split; [reflexivity | constructor].
  - destruct (process_csv_file_run _ self _ _ wav _ lang _ _ _ Hread Hcol Hmk)
      as (oks & s2 & Hserve & _ & ->).
    destruct (serve_calls env self (length (rows df)) wav out lang
                (csv_items col (rows df))
                (State fs1 (log st ++ [Print (MsgLoaded (length (rows df)))])))
      as (oks' & s2' & l & Hserve' & _ & Hlog & Hb & _).
    rewrite Hserve in Hserve'. injection Hserve' as <- <-.
    cbn [log] in Hlog.
    destruct (csv_error col (rows df)); eexists _, _, _;
      (split; [reflexivity|]); cbn [log]; rewrite Hlog, <- !app_assoc;
      (split; [reflexivity|]); cbn [app calls]; rewrite calls_app;
      cbn [calls]; now rewrite app_nil_r.
  - rewrite (process_csv_file_no_column _ _ _ _ _ _ _ _ _ Hread Hcol).
    eexists _, _, _. split; [reflexivity|]. cbn [log].
    split; [reflexivity | constructor].
Qed.

Lemma process_json_file_calls env self path field wav out lang st :
  exists r s' l,
    process_json_file env self path field wav out lang st = (Ok r, s')
    /\ log s' = log st ++ l
    /\ Forall (batch_call self wav lang) (calls l).
Proof.
  destruct (json_load env path st) as [e|doc] eqn:Hread;
    [|destruct (mkdir env out
                  (State (fs st)
                     (log st ++ [Print (MsgLoaded (length (as_list doc)))])))
        as [[e|] fs1] eqn:Hmk].
  - rewrite (process_json_file_unread _ _ _ _ _ _ _ _ _ Hread).
    eexists _, _, _. split; [reflexivity|]. cbn [log].
    split; [reflexivity | constructor].
  - rewrite (process_json_file_no_dir _ _ _ _ _ _ _ _ _ _ _ Hread Hmk).
    eexists _, _, _. split; [reflexivity|]. cbn [log].
    split; [reflexivity | constructor].
  - destruct (process_json_file_run _ self _ field wav _ lang _ _ _ Hread Hmk)
      as (oks & s2 & Hserve & _ & ->).
    destruct (serve_calls env self (length (as_list doc)) wav out lang
                (json_items field (as_list doc))
                (State fs1 (log st ++ [Print (MsgLoaded (length (as_list doc)))])))
      as (oks' & s2' & l & Hserve' & _ & Hlog & Hb & _).
    rewrite Hserve in Hserve'. injection Hserve' as <- <-.
    cbn [log] in Hlog.
    destruct (json_error field (as_list doc)); eexists _, _, _;
      (split; [reflexivity|]); cbn [log]; rewrite Hlog, <- !app_assoc;
      (split; [reflexivity|]); cbn [app calls]; rewrite calls_app;
      cbn [calls]; now rewrite app_nil_r.
Qed.

(** *** A [True] of the fallback *)

(** [_fallback_tts] answers [True] only if the engine [fallback_call]
    names returned when it was called. *)
Lemma fallback_true env self text out s b s' :
  _fallback_tts env self text out s = (Ok b, s') ->
  b = true ->
  exists c' l1 l2,
    fallback_call env self text out = Some c'
    /\ log s' = log s ++ l1 ++ Call c' :: l2
    /\ engine env c' (State (fs s) (log s ++ l1)) = (None, fs s').
Proof.
  unfold fallback_call.
  destruct (GTTS_AVAILABLE env && negb (engine_is (primary_engine self) "GTTS"))
    eqn:H1;
  [| destruct (PYTTSX3_AVAILABLE env
               && negb (engine_is (primary_engine self) "PYTTSX3")) eqn:H2].
  - rewrite (fallback_gtts _ _ _ _ _ H1). cbv zeta.
    case_engine; [intros [= <- _]; discriminate|].
    case_output; intros [= <- <-]; [|discriminate]. intros _.
    eexists _, [Print MsgTryingFallback;
                Print (MsgFallbackLang (detect_language text))], _.
    split; [reflexivity|]. cbn [log fs]. split; [|eassumption].
    now rewrite <- app_assoc.
  - rewrite (fallback_pyttsx3 _ _ _ _ _ H1 H2). cbv zeta.
    case_engine; intros [= <- <-]; [discriminate|]. intros _.
    eexists _, [Print MsgTryingFallback], _.
    split; [reflexivity|]. cbn [log fs]. split; [|eassumption].
    now rewrite <- app_assoc.
  - rewrite (fallback_nothing _ _ _ _ _ H1 H2). intros [= <- _]. discriminate.
Qed.

(** After a primary engine that raised, [simple_text_to_speech] answers
    [True] only if the fallback engine returned when it was called. *)
Lemma simple_true_after_raise env self text out st ann c e fs1 b s' :
  primary_plan self text out = Some (ann, c) ->
  engine env c (State (fs st) (log st ++ ann)) = (Some e, fs1) ->
  simple_text_to_speech env self text out st = (Ok b, s') ->
  b = true ->
  exists c' s1 l2,
    fallback_call env self text out = Some c'
    /\ log s' = log s1 ++ Call c' :: l2
    /\ engine env c' s1 = (None, fs s').
Proof.
  intros Hplan He Hrun Hb.
  destruct (simple_primary_raises _ _ _ _ _ _ _ _ _ Hplan He) as (l & Heq & _).
  rewrite Heq in Hrun.
  destruct (fallback_true _ _ _ _ _ _ _ Hrun Hb)
    as (c' & l1 & l2 & Hfb & Hlog & Heng).
  cbn [fs log] in Hlog, Heng.
  eexists c', _, l2. split; [exact Hfb|]. split; [|exact Heng].
  cbn [log]. rewrite Hlog, <- !app_assoc. reflexivity.
Qed.

(** *** Cloning has no second engine *)

(** [clone_voice_from_sample] makes at most the one call of the model,
    and answers [False] if the model raises when it is called. *)
Lemma clone_outcome env self text wav out lang speed st :
  exists b s',
    clone_voice_from_sample env self text wav out lang speed st = (Ok b, s')
    /\ (calls (log s') = calls (log st)
        \/ calls (log s')
           = calls (log st) ++ [clone_call self text wav out lang speed])
    /\ (forall e fs1,
          engine env (clone_call self text wav out lang speed)
            (State (fs st)
               (log st ++ clone_announcement self text wav lang speed))
          = (Some e, fs1) ->
          b = false).
Proof.
  destruct (negb (engine_is (primary_engine self) "TTS") || negb (tts self))
    eqn:Hguard.
  - rewrite (clone_without_model _ _ _ _ _ _ _ _ Hguard).
    eexists _, _. split; [reflexivity|]. cbn [log]. split; [|reflexivity].
    left. rewrite calls_app. apply app_nil_r.
  - destruct (fs st !! wav) as [n|] eqn:Hwav.
    + apply orb_false_elim in Hguard as [H1 H2].
      apply negb_false_iff in H1, H2.
      destruct (clone_summary env self text wav out lang speed st n H1 H2 Hwav)
        as (b & s' & l & Hrun & Hlog & Hl & Hcase).
      exists b, s'. split; [exact Hrun|]. split.
      * right. rewrite Hlog, !calls_app, clone_announcement_silent.
        cbn [calls app]. now rewrite Hl.
      * intros e fs1 He. now rewrite He in Hcase.
    + rewrite (clone_missing_sample _ _ _ _ _ _ _ _ Hguard Hwav).
      eexists _, _. split; [reflexivity|]. cbn [log]. split; [|reflexivity].
      left. rewrite calls_app. apply app_nil_r.
Qed.

(** * Properties of the specification *)

(** ** The language negotiator *)

(** C7. A requested language that is among the supported languages is
    returned unchanged by [_pick_language]. *)
Theorem pick_language_supported (supported : list string) (desired_lang : string) :
  In desired_lang supported ->
  _pick_language supported desired_lang = desired_lang.
Proof.
  intros Hin. unfold _pick_language.
  apply str_in_In in Hin. now rewrite Hin.
Qed.

Lemma pick_language_supported_witness :
  In "ru"%string xtts_languages
  /\ _pick_language xtts_languages "ru" = "ru"%string.
Proof.
  assert (Hin : In "ru"%string xtts_languages)
    by (unfold xtts_languages; simpl; tauto).
  split; [exact Hin | exact (pick_language_supported _ _ Hin)].
Defined.

(** C6. For a requested language that is not supported, [_pick_language]
    applies a fixed table: ["uk"] becomes ["ru"] when ["ru"] is
    supported, and everything else (["uk"] without ["ru"] included)
    becomes ["en"]. When [clone_voice_from_sample] gets past its guards
    and the chosen language differs from the requested one, the
    substitution is printed and the model is called with the chosen
    language. *)
Theorem language_substitution (self : VoiceCloner) (lang : string) :
  ~ In lang (supported_languages self) ->
  let selected := _pick_language (supported_languages self) lang in
  (lang = "uk"%string -> In "ru"%string (supported_languages self) ->
   selected = "ru"%string)
  /\ (lang = "uk"%string -> ~ In "ru"%string (supported_languages self) ->
      selected = "en"%string)
  /\ (lang <> "uk"%string -> selected = "en"%string)
  /\ (forall env text wav out speed st n,
        engine_is (primary_engine self) "TTS" = true -> tts self = true ->
        fs st !! wav = Some n ->
        exists b s',
          clone_voice_from_sample env self text wav out lang speed st
          = (Ok b, s')
          /\ (selected <> lang ->
              In (Print (MsgLangSubst lang selected)) (log s'))
          /\ calls (log s')
             = calls (log st)
               ++ [tts_to_file text (Some wav) selected
                     (Some (clamp_speed speed)) out]).
Proof.
  intros Hnot selected. subst selected.
  apply str_in_not_In in Hnot.
  split; [|split; [|split]].
  - intros -> Hru. apply str_in_In in Hru.
    unfold _pick_language. now rewrite Hnot, Hru.
  - intros -> Hru. apply str_in_not_In in Hru.
    unfold _pick_language. now rewrite Hnot, Hru.
  - intros Hne. apply String.eqb_neq in Hne.
    unfold _pick_language. now rewrite Hnot, Hne.
  - intros env text wav out speed st n H1 H2 Hwav.
    destruct (clone_summary env self text wav out lang speed st n H1 H2 Hwav)
      as (b & s' & l & Hrun & Hlog & Hl & _).
    exists b, s'. split; [exact Hrun|]. split.
    + intros Hne. rewrite Hlog. apply in_or_app. right. apply in_or_app. left.
      unfold clone_announcement. apply String.eqb_neq in Hne. rewrite Hne.
      now left.
    + rewrite Hlog, !calls_app, clone_announcement_silent. cbn [calls app].
      now rewrite Hl.
Qed.

Lemma language_substitution_witness :
  ~ In "uk"%string (supported_languages coqui)
  /\ _pick_language (supported_languages coqui) "uk" = "ru"%string
  /\ exists b s',
       clone_voice_from_sample (world true true (writes 20000)) coqui
         (Py.u "dobryi den") "speaker.wav" "out.wav" "uk" Py.f1_0 st0
       = (Ok b, s')
       /\ In (Print (MsgLangSubst "uk" "ru")) (log s')
       /\ calls (log s')
          = [tts_to_file (Py.u "dobryi den") (Some "speaker.wav"%string) "ru"
               (Some Py.f1_0) "out.wav"].
Proof.
  assert (Hnot : ~ In "uk"%string (supported_languages coqui))
    by (apply str_in_not_In; reflexivity).
  assert (Hru : In "ru"%string (supported_languages coqui))
    by (apply str_in_In; reflexivity).
  destruct (language_substitution coqui "uk" Hnot)
    as (Htable & _ & _ & Hreport).
  split; [exact Hnot|]. split; [exact (Htable eq_refl Hru)|].
  destruct (Hreport (world true true (writes 20000)) (Py.u "dobryi den")
              "speaker.wav"%string "out.wav"%string Py.f1_0 st0 480000
              eq_refl eq_refl eq_refl)
    as (b & s' & Hrun & Hprint & Hcalls).
  exists b, s'. split; [exact Hrun|]. split.
  - apply Hprint. discriminate.
  - exact Hcalls.
Defined.

(** C10. The language guess used when the caller names no language is a
    total function with two possible answers. It answers ["uk"] exactly
    when the lower-cased text has one of the 32 letters of
    [cyrillic_letters], which are the code points U+0430 to U+044F (the
    small letters of the Russian alphabet without U+0451); since
    lower-casing takes U+0410 to U+042F to them and nothing else, that
    is exactly when the text has a letter from U+0410 to U+044F. Every
    other text is answered ["en"]. A text written only with the
    Ukrainian letters U+0456, U+0457, U+0454, U+0491 or with U+0451,
    small or capital, is therefore taken for English. *)
Theorem detect_language_spec (text : Py.pystr) :
  (detect_language text = "uk"%string
   <-> exists c, In c text /\ 0x410 <= c <= 0x44F)
  /\ (detect_language text = "en"%string
      <-> forall c, In c text -> c < 0x410 \/ 0x44F < c)
  /\ ((exists c, In c (Py.lower text) /\ In c cyrillic_letters)
      <-> exists c, In c text /\ 0x410 <= c <= 0x44F)
  /\ (forall c, In c cyrillic_letters <-> 0x430 <= c <= 0x44F)
  /\ (Forall (fun c => In c (uncovered_letters ++ uncovered_capitals)) text ->
      detect_language text = "en"%string).
Proof.
  destruct (detect_language_range text) as (Huk & Hen).
  assert (Hnone : (~ exists c, In c text /\ 0x410 <= c <= 0x44F)
                  <-> forall c, In c text -> c < 0x410 \/ 0x44F < c).
  { split.
    - intros Hno c Hc.
      destruct (N.lt_ge_cases c 0x410) as [Hlo|Hlo]; [now left|].
      destruct (N.lt_ge_cases 0x44F c) as [Hhi|Hhi]; [now right|].
      exfalso. apply Hno. exists c. now repeat split.
    - intros Hall (c & Hc & Hlo & Hhi). destruct (Hall c Hc); lia. }
  split; [exact Huk|]. split; [now rewrite Hen|]. split.
  { transitivity (Py.any (fun c => Py.char_in c cyrillic_letters)
                    (Py.lower text) = true).
    - unfold Py.any. rewrite existsb_exists.
      split; intros (c & Hc & Hin); exists c; (split; [exact Hc|]);
        now apply char_in_In.
    - rewrite any_cyrillic. split; intros (c & Hc & Hr); exists c;
        (split; [exact Hc|]);
        [now apply lower_char_russian_only | now apply lower_char_russian]. }
  split; [intros c; rewrite <- char_in_In; apply cyrillic_letters_range|].
  intros Hall. apply Hen. intros (c & Hc & Hlo & Hhi).
  rewrite Forall_forall in Hall. apply list_elem_of_In, Hall in Hc.
  unfold uncovered_letters, uncovered_capitals in Hc. simpl in Hc.
  repeat (destruct Hc as [<-|Hc]; [lia|]). contradiction.
Qed.

Lemma detect_language_spec_witness :
  Forall (fun c => In c (uncovered_letters ++ uncovered_capitals))
    [0x407; 0x456; 0x401]
  /\ detect_language [0x407; 0x456; 0x401] = "en"%string.
Proof.
  assert (H : Forall (fun c => In c (uncovered_letters ++ uncovered_capitals))
                [0x407; 0x456; 0x401])
    by (repeat constructor; simpl; tauto).
  split; [exact H|].
  exact (proj2 (proj2 (proj2 (proj2 (detect_language_spec [0x407; 0x456; 0x401]))))
           H).
Defined.

(** [detect_language] on "Привіт", on "її" and on "ЇЇ". *)
Example detect_language_privit :
  detect_language [0x41F; 0x440; 0x438; 0x432; 0x456; 0x442] = "uk"%string.
Proof. reflexivity. Qed.

Example detect_language_yiyi : detect_language [0x457; 0x457] = "en"%string.
Proof. reflexivity. Qed.

Example detect_language_upper_yiyi :
  detect_language [0x407; 0x407] = "en"%string.
Proof. reflexivity. Qed.

(** ** Speed *)

(** C5. The speed [clone_voice_from_sample] hands to the model is
    [clamp_speed speed]: 0.5 for a speed below 0.5, 2.0 for a speed
    above 2.0, and the speed itself when it lies in [0.5, 2.0]; in
    every case it lies in [0.5, 2.0]. Past the guards of the function
    the model is called once, with that speed. *)
Theorem speed_clamped (speed : spec_float) :
  (SFltb speed Py.f0_5 = true -> clamp_speed speed = Py.f0_5)
  /\ (SFltb Py.f2_0 speed = true -> clamp_speed speed = Py.f2_0)
  /\ (SFleb Py.f0_5 speed = true -> SFleb speed Py.f2_0 = true ->
      clamp_speed speed = speed)
  /\ (SFleb Py.f0_5 (clamp_speed speed) = true
      /\ SFleb (clamp_speed speed) Py.f2_0 = true)
  /\ (forall env self text wav out lang st n,
        engine_is (primary_engine self) "TTS" = true -> tts self = true ->
        fs st !! wav = Some n ->
        exists b s',
          clone_voice_from_sample env self text wav out lang speed st
          = (Ok b, s')
          /\ calls (log s')
             = calls (log st)
               ++ [tts_to_file text (Some wav)
                     (_pick_language (supported_languages self) lang)
                     (Some (clamp_speed speed)) out]).
Proof.
  split; [apply clamp_speed_below|].
  split; [apply clamp_speed_above|].
  split; [apply clamp_speed_inside|].
  split; [apply clamp_speed_range|].
  intros env self text wav out lang st n H1 H2 Hwav.
  destruct (clone_summary env self text wav out lang speed st n H1 H2 Hwav)
    as (b & s' & l & Hrun & Hlog & Hl & _).
  exists b, s'. split; [exact Hrun|].
  rewrite Hlog, !calls_app, clone_announcement_silent. cbn [calls app].
  now rewrite Hl.
Qed.

Lemma speed_clamped_witness :
  SFltb Py.f2_0 (S754_finite false 6755399441055744 (-51)) = true
  /\ exists b s',
       clone_voice_from_sample (world true true (writes 20000)) coqui
         (Py.u "fast") "speaker.wav" "out.wav" "en"
         (S754_finite false 6755399441055744 (-51)) st0 = (Ok b, s')
       /\ calls (log s')
          = [tts_to_file (Py.u "fast") (Some "speaker.wav"%string) "en"
               (Some Py.f2_0) "out.wav"].
Proof.
  assert (Habove : SFltb Py.f2_0 (S754_finite false 6755399441055744 (-51))
                   = true) by reflexivity.
  split; [exact Habove|].
  destruct (speed_clamped (S754_finite false 6755399441055744 (-51)))
    as (_ & Hclamp & _ & _ & Hcall).
  destruct (Hcall (world true true (writes 20000)) coqui (Py.u "fast")
              "speaker.wav"%string "out.wav"%string "en"%string st0 480000
              eq_refl eq_refl eq_refl)
    as (b & s' & Hrun & Hcalls).
  exists b, s'. split; [exact Hrun|].
  rewrite Hcalls, (Hclamp Habove). reflexivity.
Defined.

(** ** File names *)




Example output_filename_7 : output_filename 7 = "audio_0007.wav"%string.
Proof. reflexivity. Qed.

Example output_filename_10000 :
  output_filename 10000 = "audio_10000.wav"%string.
Proof. reflexivity. Qed.

Example output_filename_minus_5 :
  output_filename (-5) = "audio_-005.wav"%string.
Proof. reflexivity. Qed.

(** [f"{True:04d}"] is ["0001"]: a row labelled [True] and a row
    labelled 1 are written to the same file, and told apart in
    [failed]. *)
Example bool_label_is_one :
  exists r s',
    process_csv_file (world_of flagged_df sample_json crashes) coqui
      "in.csv" "text" None "out" "uk" st0 = (Ok r, s')
    /\ Forall (fun c => target c = "out/audio_0001.wav"%string)
         (calls (log s'))
    /\ map text_of (calls (log s'))
       = [Py.u "one"; Py.u "one"; Py.u "two"; Py.u "two"]
    /\ failed r = [Py.u "Row True: one"; Py.u "Row 1: two"].
Proof.
  eexists _, _. split; [vm_compute; reflexivity|]. cbn [log failed].
  split; [repeat constructor|]. split; reflexivity.
Qed.

Example item_path_42 :
  item_path "output_audio" 42 = "output_audio/audio_0042.wav"%string.
Proof. reflexivity. Qed.

(** ** The batch report *)

(** C2, as the claim states it, fails in three ways. A JSON record
    without the text field is in neither list although its text is not
    blank: of the three records of [sample_json] one is synthesised and
    one is blank. When the loop is not reached nothing is listed: asked
    for a column the CSV does not have, the runner answers with two
    empty lists for four rows of which one is blank. And when the loop raises the lists are
    lost: on [mixed_json] the object is synthesised, then the number
    raises, and the answer is two empty lists for two items of which
    none is blank. *)
Lemma record_without_text_is_skipped :
  (exists r s',
     process_json_file (world true true (writes 20000)) coqui
       "in.json" "text" None "out" "uk" st0 = (Ok r, s')
     /\ success r = ["out/audio_0000.wav"%string] /\ failed r = []
     /\ count_if (json_blank "text") (as_list sample_json) = 1%nat
     /\ (length (success r) + length (failed r)
         + count_if (json_blank "text") (as_list sample_json)
         <> length (as_list sample_json))%nat)
  /\ (exists s',
        process_csv_file (world_of plain_df sample_json (writes 20000)) coqui
          "in.csv" "body" None "out" "uk" st0 = (Ok no_results, s')
        /\ length (rows plain_df) = 4%nat
        /\ count_if (csv_blank "body") (rows plain_df) = 1%nat)
  /\ (exists s',
        process_json_file (world_of sample_df mixed_json (writes 20000)) coqui
          "in.json" "text" None "out" "uk" st0 = (Ok no_results, s')
        /\ calls (log s')
           = [tts_to_file (Py.u "ok") None "en" None "out/audio_0000.wav"]
        /\ fs s' !! "out/audio_0000.wav"%string = Some 20000
        /\ length (as_list mixed_json) = 2%nat
        /\ count_if (json_blank "text") (as_list mixed_json) = 0%nat
        /\ count_if (json_missing "text") (as_list mixed_json) = 0%nat).
Proof.
  split; [|split].
  - eexists _, _. split; [vm_compute; reflexivity|].
    cbn [success failed]. split; [reflexivity|]. split; [reflexivity|].
    split; [reflexivity|]. vm_compute. discriminate.
  - eexists. split; [vm_compute; reflexivity|]. split; reflexivity.
  - eexists. split; [vm_compute; reflexivity|]. cbn [fs log].
    split; [reflexivity|]. split; [reflexivity|].
    split; [reflexivity|]. split; reflexivity.
Qed.

(** C2, amended. In a batch run that reaches its loop (the input was
    loaded, the CSV has the text column, the output directory could be
    made) and ends it normally (every CSV row that is served has an
    integer label, every element of the JSON array is an object, or a
    string or an array that does not hold the name of the text field),
    on texts that can be printed, every item is passed over or entered
    in exactly one of the two lists: the items that are not passed over
    are served in order, and the report lists those answered [True]
    under [success] and those answered [False] under [failed]. An item
    is passed over when the text made of its value is empty or white
    space only, and in the JSON runner also when line 390 does not find
    the text field. The lengths of the two lists and the number of
    items passed over add up to the number of items. For the CSV runner
    this is said of tables in which no cell of the text column is
    missing. A CSV without the text column gives two empty lists, and
    so does a run whose loop raises. *)
Theorem batch_accounting env self st path col wav out lang :
  (forall df fs1,
     read_csv env path st = inr df ->
     In col (columns df) ->
     mkdir env out
       (State (fs st) (log st ++ [Print (MsgLoaded (length (rows df)))]))
     = (None, fs1) ->
     csv_error col (rows df) = None ->
     Forall (fun row => Py.isna (snd row col) = false) (rows df) ->
     printable_items (csv_items col (rows df)) ->
     exists verdicts s2 r s',
       serve env self (length (rows df)) wav out lang (csv_items col (rows df))
         (State fs1 (log st ++ [Print (MsgLoaded (length (rows df)))]))
       = (Ok verdicts, s2)
       /\ process_csv_file env self path col wav out lang st = (Ok r, s')
       /\ r = report "Row" out (csv_items col (rows df)) verdicts
       /\ (length (success r) + length (failed r)
           + count_if (csv_blank col) (rows df) = length (rows df))%nat)
  /\ (forall doc fs1,
        json_load env path st = inr doc ->
        mkdir env out
          (State (fs st) (log st ++ [Print (MsgLoaded (length (as_list doc)))]))
        = (None, fs1) ->
        json_error col (as_list doc) = None ->
        printable_items (json_items col (as_list doc)) ->
        exists verdicts s2 r s',
          serve env self (length (as_list doc)) wav out lang
            (json_items col (as_list doc))
            (State fs1 (log st ++ [Print (MsgLoaded (length (as_list doc)))]))
          = (Ok verdicts, s2)
          /\ process_json_file env self path col wav out lang st = (Ok r, s')
          /\ r = report "Item" out (json_items col (as_list doc)) verdicts
          /\ (length (success r) + length (failed r)
              + count_if (json_blank col) (as_list doc)
              + count_if (json_missing col) (as_list doc)
              = length (as_list doc))%nat)
  /\ (forall df,
        read_csv env path st = inr df ->
        ~ In col (columns df) ->
        exists s',
          process_csv_file env self path col wav out lang st
          = (Ok no_results, s'))
  /\ (forall df fs1 e,
        read_csv env path st = inr df ->
        In col (columns df) ->
        mkdir env out
          (State (fs st) (log st ++ [Print (MsgLoaded (length (rows df)))]))
        = (None, fs1) ->
        csv_error col (rows df) = Some e ->
        exists s',
          process_csv_file env self path col wav out lang st
          = (Ok no_results, s')
          /\ In (Print (MsgBatchError e)) (log s'))
  /\ (forall doc fs1 e,
        json_load env path st = inr doc ->
        mkdir env out
          (State (fs st) (log st ++ [Print (MsgLoaded (length (as_list doc)))]))
        = (None, fs1) ->
        json_error col (as_list doc) = Some e ->
        exists s',
          process_json_file env self path col wav out lang st
          = (Ok no_results, s')
          /\ In (Print (MsgBatchError e)) (log s'))
  /\ (forall text, blank text = true <-> forallb Py.isspace text = true)
  /\ (forall label idx text p ok r,
        let r' := record_outcome label idx text p ok r in
        (ok = true /\ success r' = success r ++ [p] /\ failed r' = failed r)
        \/ (ok = false /\ success r' = success r
            /\ exists entry, failed r' = failed r ++ [entry])).
Proof.
  split; [|split; [|split; [|split; [|split; [|split]]]]].
  - intros df fs1 Hread Hcol Hmk Hend _ _. apply str_in_In in Hcol.
    destruct (process_csv_file_run env self path col wav out lang st df fs1
                Hread Hcol Hmk) as (oks & s2 & Hserve & Hlen & Hrun).
    rewrite Hend in Hrun.
    eexists oks, s2, _, _. split; [exact Hserve|]. split; [exact Hrun|].
    split; [reflexivity|].
    pose proof (report_lengths "Row" out _ _ Hlen).
    pose proof (csv_items_count col (rows df) Hend). lia.
  - intros doc fs1 Hread Hmk Hend _.
    destruct (process_json_file_run env self path col wav out lang st doc fs1
                Hread Hmk) as (oks & s2 & Hserve & Hlen & Hrun).
    rewrite Hend in Hrun.
    eexists oks, s2, _, _. split; [exact Hserve|]. split; [exact Hrun|].
    split; [reflexivity|].
    pose proof (report_lengths "Item" out _ _ Hlen).
    pose proof (json_scan_count col (as_list doc) 0%nat Hend) as Hcount.
    fold (json_items col (as_list doc)) in Hcount. lia.
  - intros df Hread Hcol. apply str_in_not_In in Hcol.
    rewrite (process_csv_file_no_column _ _ _ _ _ _ _ _ _ Hread Hcol).
    eexists. reflexivity.
  - intros df fs1 e Hread Hcol Hmk Hend. apply str_in_In in Hcol.
    destruct (process_csv_file_run env self path col wav out lang st df fs1
                Hread Hcol Hmk) as (oks & s2 & _ & _ & Hrun).
    rewrite Hend in Hrun. eexists. split; [exact Hrun|]. cbn [log].
    apply in_or_app. right. now left.
  - intros doc fs1 e Hread Hmk Hend.
    destruct (process_json_file_run env self path col wav out lang st doc fs1
                Hread Hmk) as (oks & s2 & _ & _ & Hrun).
    rewrite Hend in Hrun. eexists. split; [exact Hrun|]. cbn [log].
    apply in_or_app. right. now left.
  - apply blank_spec.
  - apply record_outcome_exclusive.
Qed.

Lemma batch_accounting_witness :
  (exists r s',
     process_csv_file (world_of plain_df sample_json (writes 20000)) coqui
       "in.csv" "text" None "out" "uk" st0 = (Ok r, s')
     /\ (length (success r) + length (failed r) + 1 = 4)%nat)
  /\ (exists r s',
        process_json_file (world_of plain_df sample_json (writes 20000)) coqui
          "in.json" "text" None "out" "uk" st0 = (Ok r, s')
        /\ (length (success r) + length (failed r) + 1 + 1 = 3)%nat).
Proof.
  destruct (batch_accounting (world_of plain_df sample_json (writes 20000))
              coqui st0 "in.csv" "text" None "out" "uk") as (Hcsv & _).
  destruct (batch_accounting (world_of plain_df sample_json (writes 20000))
              coqui st0 "in.json" "text" None "out" "uk") as (_ & Hjson & _).
  split.
  - destruct (Hcsv plain_df (fs st0) eq_refl ltac:(simpl; tauto) eq_refl eq_refl
                ltac:(repeat constructor) ltac:(repeat constructor))
      as (verdicts & s2 & r & s' & _ & Hrun & _ & Hsum).
    exists r, s'. split; [exact Hrun | exact Hsum].
  - destruct (Hjson sample_json (fs st0) eq_refl eq_refl eq_refl
                ltac:(repeat constructor))
      as (verdicts & s2 & r & s' & _ & Hrun & _ & Hsum).
    exists r, s'. split; [exact Hrun | exact Hsum].
Defined.

(** ** The dispatcher *)

(** C1, as the claim states it, fails: with the model loaded, gTTS
    importable and working, a cloning request whose sample file does not
    exist is answered [False], and no engine is called. *)
Lemma missing_sample_fails :
  fs st0 !! "absent.wav"%string = None
  /\ exists s',
       clone_voice_from_sample (world true true (writes 20000)) coqui
         (Py.u "hello") "absent.wav" "out.wav" "en" Py.f1_0 st0
       = (Ok false, s')
       /\ calls (log s') = []
       /\ fs s' !! "out.wav"%string = None.
Proof.
  split; [reflexivity|]. eexists. split; [vm_compute; reflexivity|].
  split; reflexivity.
Qed.

(** C1, amended. A cloning request whose sample file does not exist
    fails: [clone_voice_from_sample] answers [False] without calling any
    engine and without touching the files, and past its first guard it
    prints that the sample was not found. The batch runners do not call
    it then: they run [simple_text_to_speech] on the item, with the same
    output path, and a [True] from it is recorded as that path alone. *)
Theorem missing_sample env self text wav out lang speed st :
  fs st !! wav = None ->
  (exists s',
     clone_voice_from_sample env self text wav out lang speed st
     = (Ok false, s')
     /\ fs s' = fs st /\ calls (log s') = calls (log st)
     /\ (engine_is (primary_engine self) "TTS" = true -> tts self = true ->
         In (Print (MsgSampleNotFound wav)) (log s')))
  /\ generate_audio env self text (Some wav) out lang st
     = simple_text_to_speech env self text out st
  /\ (forall label idx r,
        record_outcome label idx text out true r
        = Results (success r ++ [out]) (failed r)).
Proof.
  intros Hmiss. split; [|split].
  - destruct (negb (engine_is (primary_engine self) "TTS") || negb (tts self))
      eqn:Hguard.
    + rewrite (clone_without_model _ _ _ _ _ _ _ _ Hguard).
      eexists. split; [reflexivity|]. cbn [fs log].
      split; [reflexivity|]. split.
      * rewrite calls_app. apply app_nil_r.
      * intros H1 H2. rewrite H1, H2 in Hguard. discriminate.
    + rewrite (clone_missing_sample _ _ _ _ _ _ _ _ Hguard Hmiss).
      eexists. split; [reflexivity|]. cbn [fs log].
      split; [reflexivity|]. split.
      * rewrite calls_app. apply app_nil_r.
      * intros _ _. apply in_or_app. right. now left.
  - unfold generate_audio, truthy.
    destruct (wav =? "")%string; [reflexivity|].
    unfold bind, path_exists. now rewrite Hmiss, exists_None.
  - reflexivity.
Qed.

Lemma missing_sample_witness :
  fs st0 !! "absent.wav"%string = None
  /\ generate_audio (world true true (writes 20000)) coqui (Py.u "hello")
       (Some "absent.wav"%string) "out.wav" "en" st0
     = simple_text_to_speech (world true true (writes 20000)) coqui
         (Py.u "hello") "out.wav" st0.
Proof.
  assert (Hmiss : fs st0 !! "absent.wav"%string = None) by reflexivity.
  split; [exact Hmiss|].
  exact (proj1 (proj2 (missing_sample (world true true (writes 20000)) coqui
                         (Py.u "hello") "absent.wav" "out.wav" "en" Py.f1_0
                         st0 Hmiss))).
Defined.

(** C3, as the claim states it, fails in two ways. When neither gTTS nor
    pyttsx3 can be imported, a failure of the primary engine is followed
    by no other attempt. And [clone_voice_from_sample] never tries
    another engine: here gTTS is importable and would work, the model
    raises, and the one call made is the one that raised. *)
Lemma hard_failure_without_fallback :
  (exists s',
     simple_text_to_speech (world false false crashes) coqui
       (Py.u "hello") "out.wav" st0 = (Ok false, s')
     /\ calls (log s') = [tts_to_file (Py.u "hello") None "en" None "out.wav"])
  /\ (exists s',
        clone_voice_from_sample (world true true coqui_crashes) coqui
          (Py.u "hello") "speaker.wav" "out.wav" "en" Py.f1_0 st0
        = (Ok false, s')
        /\ calls (log s')
           = [tts_to_file (Py.u "hello") (Some "speaker.wav"%string) "en"
                (Some Py.f1_0) "out.wav"]).
Proof.
  split; eexists; (split; [vm_compute; reflexivity|]); reflexivity.
Qed.

(** C3, amended. When the primary engine of [simple_text_to_speech]
    raises an exception (an instance of [Exception], as every [exn]
    is), the error is printed and [_fallback_tts] makes at most one
    further call: gTTS if it is importable and not the primary engine,
    else pyttsx3 under the same condition, else none. Nothing is
    retried. The answer is [False] when there is no such engine, and it
    is [True] only if that engine returned when it was called, so that
    it is [False] when that engine raises as well; the answer is a
    boolean and carries no failure reason. [clone_voice_from_sample] has no fallback: it makes at most
    the one call of the model, and when the model raises it answers
    [False]. *)
Theorem fallback_once env self text out st :
  (forall ann c e fs1,
     primary_plan self text out = Some (ann, c) ->
     engine env c (State (fs st) (log st ++ ann)) = (Some e, fs1) ->
     exists b s' l,
       simple_text_to_speech env self text out st = (Ok b, s')
       /\ log s' = log st ++ ann ++ Call c :: l
       /\ calls (log s')
          = calls (log st) ++ c :: option_list (fallback_call env self text out)
       /\ (length (option_list (fallback_call env self text out)) <= 1)%nat
       /\ In (Print (MsgGenError e)) l
       /\ (fallback_call env self text out = None -> b = false)
       /\ (b = true ->
           exists c' s1 l2,
             fallback_call env self text out = Some c'
             /\ log s' = log s1 ++ Call c' :: l2
             /\ engine env c' s1 = (None, fs s')))
  /\ (forall wav lang speed,
      exists b s',
        clone_voice_from_sample env self text wav out lang speed st = (Ok b, s')
        /\ (calls (log s') = calls (log st)
            \/ calls (log s')
               = calls (log st) ++ [clone_call self text wav out lang speed])
        /\ (forall e fs1,
              engine env (clone_call self text wav out lang speed)
                (State (fs st)
                   (log st ++ clone_announcement self text wav lang speed))
              = (Some e, fs1) ->
              b = false)).
Proof.
  split.
  - intros ann c e fs1 Hplan He.
    destruct (simple_summary env self text out st ann c Hplan)
      as (b & s' & l & Hrun & Hlog & Hcase).
    rewrite He in Hcase. destruct Hcase as (Hcalls & Hin & Hnone & _).
    exists b, s', l. split; [exact Hrun|]. split; [exact Hlog|].
    split; [|split; [|split; [|split]]]; try assumption.
    + rewrite Hlog, !calls_app, (primary_plan_silent _ _ _ _ _ Hplan).
      cbn [calls app]. now rewrite Hcalls.
    + destruct (fallback_call env self text out); simpl; lia.
    + exact (simple_true_after_raise _ _ _ _ _ _ _ _ _ _ _ Hplan He Hrun).
  - intros wav lang speed. apply clone_outcome.
Qed.

Lemma fallback_once_witness :
  (exists b s' l,
     simple_text_to_speech (world true true coqui_crashes) coqui
       (Py.u "hello") "out.wav" st0 = (Ok b, s')
     /\ calls (log s')
        = [tts_to_file (Py.u "hello") None "en" None "out.wav";
           gTTS_save (Py.u "hello") "en" "out.wav"]
     /\ In (Print (MsgGenError "RuntimeError: synthesis failed")) l)
  /\ (exists s',
        clone_voice_from_sample (world true true coqui_crashes) coqui
          (Py.u "hello") "speaker.wav" "out.wav" "en" Py.f1_0 st0
        = (Ok false, s')).
Proof.
  destruct (fallback_once (world true true coqui_crashes) coqui
              (Py.u "hello") "out.wav" st0) as (Hsimple & Hclone).
  split.
  - destruct (Hsimple _ _ _ _ eq_refl eq_refl)
      as (b & s' & l & Hrun & _ & Hcalls & _ & Hin & _).
    exists b, s', l. split; [exact Hrun|]. split; [exact Hcalls | exact Hin].
  - destruct (Hclone "speaker.wav"%string "en"%string Py.f1_0)
      as (b & s' & Hrun & _ & Hfalse).
    rewrite (Hfalse _ _ eq_refl) in Hrun. exists s'. exact Hrun.
Defined.

(** C4, as the claim states it, fails: an output file of zero bytes
    makes [clone_voice_from_sample] answer [True], and
    [simple_text_to_speech] answers [True] even when the model returned
    without writing a file. *)
Lemma empty_output_is_success :
  (exists s',
     clone_voice_from_sample (world true true (writes 0)) coqui
       (Py.u "hello") "speaker.wav" "out.wav" "en" Py.f1_0 st0 = (Ok true, s')
     /\ fs s' !! "out.wav"%string = Some 0)
  /\ (exists s',
        simple_text_to_speech (world true true writes_nothing) coqui
          (Py.u "hello") "out.wav" st0 = (Ok true, s')
        /\ fs s' !! "out.wav"%string = None).
Proof.
  split; eexists; (split; [vm_compute; reflexivity|]); reflexivity.
Qed.

(** C4, amended. After an engine call that returned, the verdict depends
    on the output file as follows. [clone_voice_from_sample] answers
    [True] exactly when the file exists, whatever its size.
    [simple_text_to_speech] answers [True] without a check that could
    change the verdict. Only [_fallback_tts] through gTTS looks at the
    size: [True] exactly when the file exists and has more than 1000
    bytes. The verdicts are booleans; none names a reason. *)
Theorem output_check env self text wav out lang speed st :
  (forall n fs',
     engine_is (primary_engine self) "TTS" = true -> tts self = true ->
     fs st !! wav = Some n ->
     engine env (clone_call self text wav out lang speed)
       (State (fs st) (log st ++ clone_announcement self text wav lang speed))
     = (None, fs') ->
     exists s',
       clone_voice_from_sample env self text wav out lang speed st
       = (Ok (bool_decide (is_Some (fs' !! out))), s')
       /\ fs s' = fs')
  /\ (forall ann c fs',
        primary_plan self text out = Some (ann, c) ->
        engine env c (State (fs st) (log st ++ ann)) = (None, fs') ->
        exists s',
          simple_text_to_speech env self text out st = (Ok true, s')
          /\ fs s' = fs')
  /\ (forall fs',
        GTTS_AVAILABLE env && negb (engine_is (primary_engine self) "GTTS")
        = true ->
        engine env (gTTS_save text (detect_language text) out)
          (State (fs st)
             (log st ++ [Print MsgTryingFallback;
                         Print (MsgFallbackLang (detect_language text))]))
        = (None, fs') ->
        exists s',
          _fallback_tts env self text out st
          = (Ok match fs' !! out with
                | Some size => 1000 <? size
                | None => false
                end, s')
          /\ fs s' = fs').
Proof.
  split; [|split].
  - intros n fs' H1 H2 Hwav He.
    destruct (clone_summary env self text wav out lang speed st n H1 H2 Hwav)
      as (b & s' & l & Hrun & _ & _ & Hcase).
    rewrite He in Hcase. destruct Hcase as (-> & Hfs).
    exists s'. split; assumption.
  - intros ann c fs' Hplan He.
    destruct (simple_summary env self text out st ann c Hplan)
      as (b & s' & l & Hrun & _ & Hcase).
    rewrite He in Hcase. destruct Hcase as (-> & _ & Hfs).
    exists s'. split; assumption.
  - intros fs' Hg He. rewrite (fallback_gtts _ _ _ _ _ Hg). cbv zeta.
    rewrite He. destruct (fs' !! out); eexists; split; reflexivity.
Qed.

Lemma output_check_witness :
  (exists s',
     clone_voice_from_sample (world true true (writes 12)) coqui
       (Py.u "hello") "speaker.wav" "out.wav" "en" Py.f1_0 st0 = (Ok true, s'))
  /\ (exists s',
        _fallback_tts (world true true (writes 12)) coqui
          (Py.u "hello") "out.wav" st0 = (Ok false, s')).
Proof.
  destruct (output_check (world true true (writes 12)) coqui
              (Py.u "hello") "speaker.wav" "out.wav" "en" Py.f1_0 st0)
    as (Hclone & _ & Hfallback).
  split.
  - destruct (Hclone 480000 _ eq_refl eq_refl eq_refl eq_refl) as (s' & Hrun & _).
    exists s'. exact Hrun.
  - destruct (Hfallback _ eq_refl eq_refl) as (s' & Hrun & _).
    exists s'. exact Hrun.
Defined.

(** C8, as the claim states it, fails: an empty text is handed to the
    model by both entry points, and the answer is [True]. *)
Lemma empty_text_reaches_engine :
  (exists s',
     clone_voice_from_sample (world true true (writes 20000)) coqui
       [] "speaker.wav" "out.wav" "en" Py.f1_0 st0 = (Ok true, s')
     /\ calls (log s')
        = [tts_to_file [] (Some "speaker.wav"%string) "en" (Some Py.f1_0)
             "out.wav"])
  /\ (exists s',
        simple_text_to_speech (world true true (writes 20000)) coqui
          [] "out.wav" st0 = (Ok true, s')
        /\ calls (log s') = [tts_to_file [] None "en" None "out.wav"]).
Proof.
  split; eexists; (split; [vm_compute; reflexivity|]); reflexivity.
Qed.

(** C8, amended. A request whose text is empty is not rejected, and
    there is no [InvalidInput] answer. With the model loaded (and, for
    cloning, the sample present) [clone_voice_from_sample] and
    [simple_text_to_speech] call the model with the empty text. Neither
    looks at the text before an engine is called, whatever the text:
    every call they make carries it unchanged. Only the batch loops
    look at the text, and they pass over an item, without calling
    either function and without an entry in [failed], when the text
    they make of its value is empty or white space only; this is said
    here of a CSV cell that holds a string and of a JSON field. *)
Theorem text_not_validated env self lang :
  (forall wav out speed st n,
     engine_is (primary_engine self) "TTS" = true -> tts self = true ->
     fs st !! wav = Some n ->
     exists b s',
       clone_voice_from_sample env self [] wav out lang speed st = (Ok b, s')
       /\ calls (log s')
          = calls (log st)
            ++ [tts_to_file [] (Some wav)
                  (_pick_language (supported_languages self) lang)
                  (Some (clamp_speed speed)) out])
  /\ (forall out st,
        engine_is (primary_engine self) "TTS" = true -> tts self = true ->
        exists b s' rest,
          simple_text_to_speech env self [] out st = (Ok b, s')
          /\ calls (log s')
             = calls (log st) ++ tts_to_file [] None "en" None out :: rest)
  /\ (forall text wav out speed st,
        exists b s' l,
          clone_voice_from_sample env self text wav out lang speed st
          = (Ok b, s')
          /\ log s' = log st ++ l
          /\ Forall (fun c => text_of c = text) (calls l))
  /\ (forall text out st,
        exists b s' l,
          simple_text_to_speech env self text out st = (Ok b, s')
          /\ log s' = log st ++ l
          /\ Forall (fun c => text_of c = text) (calls l))
  /\ (forall k col sample dir idx row text todo r s,
        row col = Py.PyStr text ->
        blank text = true ->
        csv_loop env self k col sample dir lang ((idx, row) :: todo) r s
        = csv_loop env self k col sample dir lang todo r s)
  /\ (forall k field sample dir idx d v todo r s,
        d !! field = Some v ->
        blank (Py.str v) = true ->
        json_loop env self k field sample dir lang idx (JObj d :: todo) r s
        = json_loop env self k field sample dir lang (S idx) todo r s).
Proof.
  split; [|split; [|split; [|split; [|split]]]].
  - intros wav out speed st n H1 H2 Hwav.
    destruct (clone_summary env self [] wav out lang speed st n H1 H2 Hwav)
      as (b & s' & l & Hrun & Hlog & Hl & _).
    exists b, s'. split; [exact Hrun|].
    rewrite Hlog, !calls_app, clone_announcement_silent. cbn [calls app].
    now rewrite Hl.
  - intros out st H1 H2.
    destruct (primary_plan_coqui self [] out H1 H2) as (ann & Hplan).
    destruct (simple_summary env self [] out st ann _ Hplan)
      as (b & s' & l & Hrun & Hlog & _).
    exists b, s', (calls l). split; [exact Hrun|].
    rewrite Hlog, !calls_app, (primary_plan_silent _ _ _ _ _ Hplan).
    reflexivity.
  - intros text wav out speed st.
    destruct (clone_calls env self text wav out lang speed st)
      as (b & s' & l & Hrun & Hlog & Hl).
    exists b, s', l. split; [exact Hrun|]. split; [exact Hlog|].
    destruct Hl as [-> | ->]; repeat constructor.
  - intros text out st.
    destruct (simple_calls_plain env self text out st)
      as (b & s' & l & Hrun & Hlog & Hl).
    exists b, s', l. split; [exact Hrun|]. split; [exact Hlog|].
    eapply Forall_impl; [exact Hl|]. now intros c (_ & Ht & _).
  - intros k col sample dir idx row text todo r s Hcell Hblank.
    cbn [csv_loop]. rewrite Hcell. cbn [Py.str]. rewrite Hblank.
    now rewrite orb_true_r.
  - intros k field sample dir idx d v todo r s Hfield Hblank.
    cbn [json_loop]. unfold bind, of_sum. cbn [has_field get_field].
    rewrite Hfield, exists_Some. cbn [negb]. now rewrite Hblank.
Qed.

Lemma text_not_validated_witness :
  (exists b s',
     clone_voice_from_sample (world true true (writes 20000)) coqui
       [] "speaker.wav" "out.wav" "en" Py.f1_0 st0 = (Ok b, s')
     /\ calls (log s')
        = [tts_to_file [] (Some "speaker.wav"%string) "en" (Some Py.f1_0)
             "out.wav"])
  /\ csv_loop (world true true (writes 20000)) coqui 1 "text" None "out" "en"
       [(IntLabel 0, fun _ => Py.PyStr (Py.u "  "))] no_results st0
     = (Ok no_results, st0).
Proof.
  destruct (text_not_validated (world true true (writes 20000)) coqui "en")
    as (Hclone & _ & _ & _ & Hcsv & _).
  split.
  - destruct (Hclone "speaker.wav"%string "out.wav"%string Py.f1_0 st0 480000
                eq_refl eq_refl eq_refl)
      as (b & s' & Hrun & Hcalls).
    exists b, s'. split; [exact Hrun | exact Hcalls].
  - rewrite (Hcsv 1%nat "text"%string None "out"%string (IntLabel 0)
               (fun _ => Py.PyStr (Py.u "  ")) (Py.u "  ") [] no_results st0
               eq_refl eq_refl).
    reflexivity.
Defined.

(** * Further properties of the code *)

(** ** Language choice *)

(** X1. [_pick_language] is idempotent, it answers ["uk"] only to a
    request for ["uk"] that is supported, and its answer is a supported
    language whenever ["en"] is one; without ["en"] among the supported
    languages the answer ["en"] is given all the same. *)
Theorem pick_language_closed (supported : list string) (lang : string) :
  _pick_language supported (_pick_language supported lang)
  = _pick_language supported lang
  /\ (_pick_language supported lang = "uk"%string ->
      lang = "uk"%string /\ In "uk"%string supported)
  /\ (In "en"%string supported -> In (_pick_language supported lang) supported)
  /\ (~ In "en"%string supported -> ~ In lang supported ->
      lang <> "uk"%string ->
      ~ In (_pick_language supported lang) supported).
Proof.
  destruct (pick_language_cases supported lang)
    as [(Hin & E) | [(Hnot & Huk & Hru & E) | (Hnot & E)]]; rewrite E.
  - split; [exact E|]. split; [intros ->; now split|]. split; [tauto|].
    intros _ Hn. contradiction.
  - split; [unfold _pick_language; apply str_in_In in Hru; now rewrite Hru|].
    split; [discriminate|]. split; [tauto|]. intros _ _ Hne. contradiction.
  - split.
    + destruct (pick_language_cases supported "en")
        as [(_ & E') | [(_ & Huk & _) | (_ & E')]];
        [exact E' | discriminate | exact E'].
    + split; [discriminate|]. split; [tauto|]. tauto.
Qed.

Lemma pick_language_closed_witness :
  In "en"%string xtts_languages
  /\ In (_pick_language xtts_languages "uk") xtts_languages
  /\ ~ In (_pick_language ["ru"; "fr"]%string "de") ["ru"; "fr"]%string.
Proof.
  assert (Hen : In "en"%string xtts_languages) by (apply str_in_In; reflexivity).
  split; [exact Hen|]. split.
  - exact (proj1 (proj2 (proj2 (pick_language_closed xtts_languages "uk"))) Hen).
  - apply (proj2 (proj2 (proj2 (pick_language_closed ["ru"; "fr"]%string "de")))).
    + apply str_in_not_In. reflexivity.
    + apply str_in_not_In. reflexivity.
    + discriminate.
Defined.

(** X2. The language guess does not see case and does not tell Russian
    from Ukrainian: a text with any letter from U+0410 to U+044F
    (the capital and small letters of the Russian alphabet, without the
    two forms of U+0451) is answered ["uk"], and a text of ASCII
    characters only is answered ["en"]. *)
Theorem detect_language_scripts (text : Py.pystr) :
  (Forall (fun c => c < 0x80) text -> detect_language text = "en"%string)
  /\ (forall c, In c text -> 0x410 <= c <= 0x44F ->
      detect_language text = "uk"%string).
Proof.
  unfold detect_language. split.
  - intros Hascii.
    destruct (Py.any (fun c => Py.char_in c cyrillic_letters) (Py.lower text))
      eqn:Hany; [|reflexivity].
    apply any_cyrillic in Hany as (c & Hc & Hr).
    rewrite Forall_forall in Hascii. apply list_elem_of_In, Hascii in Hc.
    apply lower_char_ascii in Hc. lia.
  - intros c Hc Hr.
    assert (Hany : Py.any (fun c => Py.char_in c cyrillic_letters)
                     (Py.lower text) = true).
    { apply any_cyrillic. exists c. split; [exact Hc|].
      now apply lower_char_russian. }
    now rewrite Hany.
Qed.

Lemma detect_language_scripts_witness :
  detect_language (Py.u "Hello, world") = "en"%string
  /\ detect_language [0x41C; 0x418; 0x420] = "uk"%string.
Proof.
  split.
  - apply (proj1 (detect_language_scripts (Py.u "Hello, world"))).
    repeat constructor.
  - apply (proj2 (detect_language_scripts [0x41C; 0x418; 0x420]) 0x418).
    + simpl. tauto.
    + split; [apply N.leb_le | apply N.leb_le]; reflexivity.
Defined.

(** ** The constructor *)

(** X3. The constructor gives an object exactly when Coqui TTS can be
    imported and the model loads. Otherwise it raises one of two fixed
    messages, and the error of the loader is in neither; it is only
    printed. The object keeps the name of the model and the device. The
    engines it lists are the importable ones, each once and in the
    order TTS, GTTS, PYTTSX3, EDGE_TTS: "TTS" is the first, and each of
    the other three is listed exactly when its library can be
    imported. *)
Theorem init_outcome env imports name :
  let dev := if cuda_is_available imports
                then "cuda"%string else "cpu"%string in
  ((exists obj, snd (__init__ env imports name) = inr obj)
   <-> TTS_AVAILABLE imports = true /\ load_model imports name dev = None)
  /\ (forall e, snd (__init__ env imports name) = inl e ->
      (TTS_AVAILABLE imports = false /\ e = library_missing)
      \/ (exists cause,
            load_model imports name dev = Some cause /\ e = load_failed
            /\ In (InitLoadError cause) (fst (__init__ env imports name))))
  /\ (forall obj, snd (__init__ env imports name) = inr obj ->
      view obj = coqui
      /\ hd_error (available_engines obj) = Some "TTS"%string
      /\ sublist (available_engines obj)
           ["TTS"; "GTTS"; "PYTTSX3"; "EDGE_TTS"]%string
      /\ (In "GTTS"%string (available_engines obj)
          <-> GTTS_AVAILABLE env = true)
      /\ (In "PYTTSX3"%string (available_engines obj)
          <-> PYTTSX3_AVAILABLE env = true)
      /\ (In "EDGE_TTS"%string (available_engines obj)
          <-> EDGE_TTS_AVAILABLE imports = true)
      /\ model_name obj = name
      /\ device obj = dev).
Proof.
  intros dev. subst dev. unfold __init__.
  destruct (TTS_AVAILABLE imports);
    [destruct (load_model imports name _) as [cause|] eqn:Hload|];
    cbn [fst snd].
  - split; [split; [intros (obj & [=]) | intros (_ & [=])]|].
    split; [|intros obj [=]].
    intros e [= <-]. right. exists cause. repeat split.
    apply in_or_app. right. now left.
  - split; [split; [tauto | intros _; eauto]|].
    split; [intros e [=]|].
    intros obj [= <-]. cbn [view available_engines].
    split; [reflexivity|]. split; [reflexivity|]. split.
    + destruct (GTTS_AVAILABLE env), (PYTTSX3_AVAILABLE env),
        (EDGE_TTS_AVAILABLE imports); cbn [app];
        repeat first [apply sublist_nil | apply sublist_skip | apply sublist_cons].
    + destruct (GTTS_AVAILABLE env), (PYTTSX3_AVAILABLE env),
        (EDGE_TTS_AVAILABLE imports); cbn [app];
        repeat split; try reflexivity; intros H;
        first [ reflexivity | discriminate | (simpl; tauto)
              | (simpl in H; intuition discriminate) ].
  - split; [split; [intros (obj & [=]) | intros ([=] & _)]|].
    split; [|intros obj [=]].
    intros e [= <-]. left. now split.
Qed.

Lemma init_outcome_witness :
  exists obj,
    snd (__init__ (world true false (writes 20000)) all_imports "xtts_v2")
    = inr obj
    /\ available_engines obj = ["TTS"; "GTTS"; "EDGE_TTS"]%string.
Proof.
  destruct (init_outcome (world true false (writes 20000)) all_imports "xtts_v2")
    as (Hiff & _).
  destruct (proj2 Hiff (conj eq_refl eq_refl)) as (obj & Hobj).
  exists obj. split; [exact Hobj|].
  cbv in Hobj. injection Hobj as <-. reflexivity.
Defined.

(** X4. An object the constructor returned never asks the model for a
    language it does not list, whatever the text and the language
    asked for. A call of Coqui TTS made by plain synthesis is the call
    without a sample, in ["ru"] for a text guessed Ukrainian and in
    ["en"] otherwise, never in ["uk"]; a call made by cloning is the
    call with the sample, the clamped speed and the language
    [_pick_language] chooses, which is one the model lists, ["ru"] for
    ["uk"]. *)
Theorem constructed_cloner env imports name obj :
  snd (__init__ env imports name) = inr obj ->
  (forall text out st,
     exists b s' l,
       simple_text_to_speech env (view obj) text out st = (Ok b, s')
       /\ log s' = log st ++ l
       /\ Forall (fun c =>
                    back_end_of c = Coqui ->
                    c = tts_to_file text None
                          (if String.eqb (detect_language text) "uk"
                           then "ru"%string else "en"%string) None out)
            (calls l))
  /\ (forall text wav out lang speed st,
        exists b s' l,
          clone_voice_from_sample env (view obj) text wav out lang speed st
          = (Ok b, s')
          /\ log s' = log st ++ l
          /\ Forall (fun c =>
                       c = tts_to_file text (Some wav)
                             (_pick_language xtts_languages lang)
                             (Some (clamp_speed speed)) out)
               (calls l))
  /\ (forall lang, In (_pick_language xtts_languages lang) xtts_languages)
  /\ _pick_language xtts_languages "uk" = "ru"%string
  /\ ~ In "uk"%string xtts_languages.
Proof.
  intros Hobj.
  assert (Hview : view obj = coqui).
  { unfold __init__ in Hobj.
    destruct (TTS_AVAILABLE imports); [|discriminate].
    destruct (load_model imports name _); [discriminate|].
    cbn [snd] in Hobj. injection Hobj as <-. reflexivity. }
  rewrite Hview. split; [|split; [|split; [|split]]].
  - intros text out st.
    destruct (primary_plan_coqui coqui text out eq_refl eq_refl) as (ann & Hplan).
    destruct (simple_summary env coqui text out st ann _ Hplan)
      as (b & s' & l & Hrun & Hlog & Hcase).
    eexists b, s', _. split; [exact Hrun|]. split; [exact Hlog|].
    rewrite calls_app, (primary_plan_silent _ _ _ _ _ Hplan). cbn [app calls].
    constructor; [intros _; now rewrite simple_tts_lang_values|].
    destruct (engine env _ _) as [[e|] fs'].
    + destruct Hcase as (-> & _).
      destruct (fallback_call env coqui text out) as [c|] eqn:Hfb;
        cbn [option_list]; [|constructor].
      constructor; [|constructor].
      destruct (fallback_call_not_coqui _ _ _ _ _ Hfb) as [(-> & _)|(-> & _)];
        discriminate.
    + destruct Hcase as (_ & -> & _). constructor.
  - intros text wav out lang speed st.
    destruct (clone_calls env coqui text wav out lang speed st)
      as (b & s' & l & Hrun & Hlog & Hl).
    exists b, s', l. split; [exact Hrun|]. split; [exact Hlog|].
    destruct Hl as [-> | ->]; repeat constructor.
  - intros lang.
    destruct (pick_language_cases xtts_languages lang)
      as [(Hin & ->) | [(_ & _ & Hru & ->) | (_ & ->)]];
      [exact Hin | exact Hru | apply str_in_In; reflexivity].
  - reflexivity.
  - apply str_in_not_In. reflexivity.
Qed.

Lemma constructed_cloner_witness :
  exists obj,
    snd (__init__ (world true true coqui_crashes) all_imports "xtts_v2")
    = inr obj
    /\ exists b s',
         simple_text_to_speech (world true true coqui_crashes) (view obj)
           [0x43C; 0x438; 0x440] "out.wav" st0 = (Ok b, s')
         /\ calls (log s')
            = [tts_to_file [0x43C; 0x438; 0x440] None "ru" None "out.wav";
               gTTS_save [0x43C; 0x438; 0x440] "uk" "out.wav"].
Proof.
  eexists. split; [reflexivity|].
  destruct (constructed_cloner (world true true coqui_crashes) all_imports
              "xtts_v2" _ eq_refl) as (Hsimple & _).
  destruct (Hsimple [0x43C; 0x438; 0x440] "out.wav"%string st0)
    as (b & s' & l & Hrun & _).
  exists b, s'. split; [exact Hrun|].
  pose proof Hrun as Hrun'. vm_compute in Hrun'.
  injection Hrun' as _ <-. reflexivity.
Defined.

(** ** The dispatcher *)

(** X5. When no branch of [simple_text_to_speech] applies (the primary
    engine is not Coqui with a model, not gTTS, not pyttsx3 with an
    engine) and the text can be printed, the answer is [False] at once:
    no engine is called, not even an importable gTTS, and no file is
    touched. *)
Theorem no_engine_no_fallback env self text out st :
  engine_is (primary_engine self) "TTS" && tts self = false ->
  engine_is (primary_engine self) "GTTS" = false ->
  engine_is (primary_engine self) "PYTTSX3" && tts_engine self = false ->
  Py.printable (Py.slice_to 50 text) = true ->
  exists s',
    simple_text_to_speech env self text out st = (Ok false, s')
    /\ calls (log s') = calls (log st)
    /\ fs s' = fs st
    /\ In (Print MsgNoEngine) (log s').
Proof.
  intros H1 H2 H3 _.
  assert (Hplan : primary_plan self text out = None)
    by (unfold primary_plan; now rewrite H1, H2, H3).
  rewrite (simple_no_engine _ _ _ _ _ Hplan).
  eexists. split; [reflexivity|]. cbn [fs log]. split.
  - rewrite calls_app. apply app_nil_r.
  - split; [reflexivity|]. apply in_or_app. right. simpl. tauto.
Qed.

Lemma no_engine_no_fallback_witness :
  exists s',
    simple_text_to_speech (world true true (writes 20000))
      {| primary_engine := None; tts := false; tts_engine := false;
         supported_languages := [] |}
      (Py.u "hello") "out.wav" st0 = (Ok false, s')
    /\ calls (log s') = []
    /\ fs s' = fs st0.
Proof.
  destruct (no_engine_no_fallback (world true true (writes 20000))
              {| primary_engine := None; tts := false; tts_engine := false;
                 supported_languages := [] |}
              (Py.u "hello") "out.wav" st0 eq_refl eq_refl eq_refl eq_refl)
    as (s' & Hrun & Hcalls & Hfs & _).
  exists s'. split; [exact Hrun|]. split; [exact Hcalls | exact Hfs].
Defined.

(** X6. One run of [simple_text_to_speech] calls at most two engines.
    A second call is made only after the first one raised, goes to
    another engine than the first, and never to Coqui. *)
Theorem second_engine_differs env self text out st :
  exists b s' cs,
    simple_text_to_speech env self text out st = (Ok b, s')
    /\ calls (log s') = calls (log st) ++ cs
    /\ (cs = []
        \/ (exists c, cs = [c])
        \/ (exists c c' ann e fs1,
              cs = [c; c']
              /\ primary_plan self text out = Some (ann, c)
              /\ engine env c (State (fs st) (log st ++ ann)) = (Some e, fs1)
              /\ back_end_of c' <> back_end_of c
              /\ back_end_of c' <> Coqui)).
Proof.
  destruct (primary_plan self text out) as [[ann c]|] eqn:Hplan.
  - destruct (simple_summary env self text out st ann c Hplan)
      as (b & s' & l & Hrun & Hlog & Hcase).
    exists b, s', (c :: calls l). split; [exact Hrun|]. split.
    { rewrite Hlog, !calls_app, (primary_plan_silent _ _ _ _ _ Hplan).
      reflexivity. }
    destruct (engine env c _) as [[e|] fs1] eqn:He.
    + destruct Hcase as (Hcalls & _). rewrite Hcalls.
      destruct (fallback_call env self text out) as [c'|] eqn:Hfb;
        cbn [option_list]; [|right; left; eauto].
      right. right. exists c, c', ann, e, fs1.
      split; [reflexivity|]. split; [reflexivity|]. split; [exact He|].
      destruct (fallback_call_not_coqui _ _ _ _ _ Hfb) as [(-> & Hg)|(-> & Hp)];
        destruct (primary_plan_cases _ _ _ _ _ Hplan)
          as [(Hc & _) | [(Hc & Hc') | (Hc & Hc')]];
        rewrite Hc; cbn [back_end_of]; split; congruence.
    + destruct Hcase as (_ & -> & _). right. left. eauto.
  - rewrite (simple_no_engine _ _ _ _ _ Hplan).
    eexists _, _, []. split; [reflexivity|]. cbn [log]. split; [|now left].
    rewrite calls_app, !app_nil_r. reflexivity.
Qed.

(** X7. [clone_voice_from_sample] calls the model at most once, with the
    sample it was given, and no other engine. It answers [True] only if
    the output file exists when it returns, and it leaves the files as
    they were when it made no call. *)
Theorem clone_true_means_file env self text wav out lang speed st :
  exists b s',
    clone_voice_from_sample env self text wav out lang speed st = (Ok b, s')
    /\ (b = true -> is_Some (fs s' !! out))
    /\ ((calls (log s') = calls (log st) /\ fs s' = fs st /\ b = false)
        \/ calls (log s')
           = calls (log st) ++ [clone_call self text wav out lang speed]).
Proof.
  destruct (negb (engine_is (primary_engine self) "TTS") || negb (tts self))
    eqn:Hguard.
  - rewrite (clone_without_model _ _ _ _ _ _ _ _ Hguard).
    eexists _, _. split; [reflexivity|]. cbn [fs log].
    split; [discriminate|]. left. split; [|now split].
    rewrite calls_app. apply app_nil_r.
  - destruct (fs st !! wav) as [n|] eqn:Hwav.
    + apply orb_false_elim in Hguard as [H1 H2].
      apply negb_false_iff in H1, H2.
      destruct (clone_summary env self text wav out lang speed st n H1 H2 Hwav)
        as (b & s' & l & Hrun & Hlog & Hl & Hcase).
      exists b, s'. split; [exact Hrun|]. split.
      * destruct (engine env _ _) as [[e|] fs'].
        -- intros ->. discriminate.
        -- destruct Hcase as (-> & ->). intros Hb.
           now apply bool_decide_eq_true in Hb.
      * right. rewrite Hlog, !calls_app, clone_announcement_silent.
        cbn [calls app]. now rewrite Hl.
    + rewrite (clone_missing_sample _ _ _ _ _ _ _ _ Hguard Hwav).
      eexists _, _. split; [reflexivity|]. cbn [fs log].
      split; [discriminate|]. left. split; [|now split].
      rewrite calls_app. apply app_nil_r.
Qed.

(** X8. When gTTS can be imported and is not the primary engine,
    [_fallback_tts] calls gTTS and nothing else, pyttsx3 not even after
    gTTS raised or wrote too little; its [True] then means that the
    output file exists with more than 1000 bytes. *)
Theorem fallback_true_means_audio env self text out s :
  GTTS_AVAILABLE env && negb (engine_is (primary_engine self) "GTTS") = true ->
  exists b s',
    _fallback_tts env self text out s = (Ok b, s')
    /\ calls (log s')
       = calls (log s) ++ [gTTS_save text (detect_language text) out]
    /\ (b = true -> exists size, fs s' !! out = Some size /\ 1000 < size).
Proof.
  intros Hg. rewrite (fallback_gtts _ _ _ _ _ Hg). cbv zeta.
  destruct (engine env _ _) as [[e|] fs'].
  - eexists _, _. split; [reflexivity|]. cbn [fs log]. split.
    + rewrite !calls_app. cbn [calls app]. now rewrite app_nil_r.
    + discriminate.
  - destruct (fs' !! out) as [size|] eqn:Hout.
    + eexists _, _. split; [reflexivity|]. cbn [fs log]. split.
      * rewrite !calls_app. cbn [calls app]. now rewrite app_nil_r.
      * intros Hb. exists size. split; [exact Hout|]. now apply N.ltb_lt.
    + eexists _, _. split; [reflexivity|]. cbn [fs log]. split.
      * rewrite !calls_app. cbn [calls app]. now rewrite app_nil_r.
      * discriminate.
Qed.

Lemma fallback_true_means_audio_witness :
  exists s',
    _fallback_tts (world true true (writes 20000)) coqui (Py.u "hello")
      "out.wav" st0 = (Ok true, s')
    /\ calls (log s') = [gTTS_save (Py.u "hello") "en" "out.wav"]
    /\ fs s' !! "out.wav"%string = Some 20000.
Proof.
  destruct (fallback_true_means_audio (world true true (writes 20000)) coqui
              (Py.u "hello") "out.wav" st0 eq_refl)
    as (b & s' & Hrun & Hcalls & _).
  pose proof Hrun as Hrun'. vm_compute in Hrun'.
  injection Hrun' as <- <-.
  eexists. split; [exact Hrun|]. split; [exact Hcalls | reflexivity].
Defined.

(** ** The batch runners *)

(** X10. What a batch run that reaches its loop does, on texts that can
    be printed. The items that are not passed over are served in the
    order of the input, each by [generate_audio] with the path of its
    index, and a failed item does not end the run. If the loop ends
    normally, the item of index [i] answered [True] gives the entry
    [item_path out i] of [success], the item answered [False] gives the
    entry "Row i: " (or "Item i: ", with [i] as [str] writes it)
    followed by the first 30 characters of its text in [failed], and
    the lengths of the two lists are printed. If the loop raises (at a
    CSV label that [04d] does not format, at a JSON element that is no
    object), the items before that one have been served all the same,
    but the answer is two empty lists and the exception is printed. *)
Theorem batch_report_exact env self st path col wav out lang :
  (forall df fs1,
     read_csv env path st = inr df ->
     In col (columns df) ->
     mkdir env out
       (State (fs st) (log st ++ [Print (MsgLoaded (length (rows df)))]))
     = (None, fs1) ->
     printable_items (csv_items col (rows df)) ->
     exists verdicts s2,
       serve env self (length (rows df)) wav out lang (csv_items col (rows df))
         (State fs1 (log st ++ [Print (MsgLoaded (length (rows df)))]))
       = (Ok verdicts, s2)
       /\ length verdicts = length (csv_items col (rows df))
       /\ process_csv_file env self path col wav out lang st
          = match csv_error col (rows df) with
            | None =>
                (Ok (report "Row" out (csv_items col (rows df)) verdicts),
                 State (fs s2)
                   (log s2
                    ++ [Print (MsgDone
                                 (length (chosen true verdicts
                                            (csv_items col (rows df))))
                                 (length (chosen false verdicts
                                            (csv_items col (rows df)))))]))
            | Some e =>
                (Ok no_results,
                 State (fs s2) (log s2 ++ [Print (MsgBatchError e)]))
            end)
  /\ (forall doc fs1,
        json_load env path st = inr doc ->
        mkdir env out
          (State (fs st) (log st ++ [Print (MsgLoaded (length (as_list doc)))]))
        = (None, fs1) ->
        printable_items (json_items col (as_list doc)) ->
        exists verdicts s2,
          serve env self (length (as_list doc)) wav out lang
            (json_items col (as_list doc))
            (State fs1 (log st ++ [Print (MsgLoaded (length (as_list doc)))]))
          = (Ok verdicts, s2)
          /\ length verdicts = length (json_items col (as_list doc))
          /\ process_json_file env self path col wav out lang st
             = match json_error col (as_list doc) with
               | None =>
                   (Ok (report "Item" out (json_items col (as_list doc))
                          verdicts),
                    State (fs s2)
                      (log s2
                       ++ [Print (MsgDone
                                    (length (chosen true verdicts
                                               (json_items col (as_list doc))))
                                    (length (chosen false verdicts
                                               (json_items col (as_list doc)))))]))
               | Some e =>
                   (Ok no_results,
                    State (fs s2) (log s2 ++ [Print (MsgBatchError e)]))
               end).
Proof.
  split.
  - intros df fs1 Hread Hcol Hmk _. apply str_in_In in Hcol.
    destruct (process_csv_file_run env self path col wav out lang st df fs1
                Hread Hcol Hmk) as (oks & s2 & Hserve & Hlen & Hrun).
    exists oks, s2. split; [exact Hserve|]. split; [exact Hlen|].
    rewrite Hrun. unfold report. cbn [success failed].
    now rewrite !length_map.
  - intros doc fs1 Hread Hmk _.
    destruct (process_json_file_run env self path col wav out lang st doc fs1
                Hread Hmk) as (oks & s2 & Hserve & Hlen & Hrun).
    exists oks, s2. split; [exact Hserve|]. split; [exact Hlen|].
    rewrite Hrun. unfold report. cbn [success failed].
    now rewrite !length_map.
Qed.

Lemma batch_report_exact_witness :
  (exists r s',
     process_csv_file (world true true crashes) coqui
       "in.csv" "text" None "out" "uk" st0 = (Ok r, s')
     /\ success r = []
     /\ failed r = [Py.u "Row 0: one"; Py.u "Row 1: two"; Py.u "Row 3: four";
                    Py.u "Row 4: nan"])
  /\ (exists s',
        process_csv_file (world_of lettered_df sample_json (writes 20000)) coqui
          "in.csv" "text" None "out" "uk" st0 = (Ok no_results, s')
        /\ calls (log s') = []).
Proof.
  assert (Hcol : In "text"%string (columns sample_df)) by (simpl; tauto).
  split.
  - destruct (proj1 (batch_report_exact (world true true crashes) coqui st0
                       "in.csv" "text" None "out" "uk")
                sample_df (fs st0) eq_refl Hcol eq_refl
                ltac:(repeat constructor))
      as (verdicts & s2 & Hserve & _ & Hrun).
    vm_compute in Hserve. injection Hserve as <- <-.
    change (csv_error "text" (rows sample_df)) with (@None exn) in Hrun.
    eexists _, _. split; [exact Hrun|]. split; reflexivity.
  - destruct (proj1 (batch_report_exact
                       (world_of lettered_df sample_json (writes 20000)) coqui
                       st0 "in.csv" "text" None "out" "uk")
                lettered_df (fs st0) eq_refl Hcol eq_refl
                ltac:(repeat constructor))
      as (verdicts & s2 & Hserve & _ & Hrun).
    vm_compute in Hserve. injection Hserve as <- <-.
    change (csv_error "text" (rows lettered_df))
      with (Some "ValueError: Unknown format code 'd'"%string) in Hrun.
    eexists. split; [exact Hrun | reflexivity].
Defined.

(** The text of a cell that holds a float is what [str] makes of it. *)
Example float_cell_entry :
  exists s',
    process_csv_file (world_of upcast_df sample_json crashes) coqui
      "in.csv" "text" None "out" "uk" st0
    = (Ok (Results [] [Py.u "Row 0: 12.0"]), s').
Proof. eexists. vm_compute. reflexivity. Qed.

(** X11. An entry of [failed] names the index of its item: the index
    of an item that is served is written without a colon, and entries
    of the same runner for indexes that are written differently differ,
    whatever the texts. So [failed] has no entry twice in any run of
    the JSON runner, and in any run of the CSV runner in which the
    labels of the rows that are served are pairwise different as [str]
    writes them. *)
Theorem failed_entries_name_index env self st path col wav out lang :
  (forall label a b,
     colon_free a -> colon_free b ->
     failed_entry label a = failed_entry label b -> item_name a = item_name b)
  /\ (forall df, Forall colon_free (csv_items col (rows df)))
  /\ (forall doc, Forall colon_free (json_items col (as_list doc)))
  /\ (forall i j : Z, Py.str_int i = Py.str_int j -> i = j)
  /\ (exists r s',
        process_json_file env self path col wav out lang st = (Ok r, s')
        /\ NoDup (failed r))
  /\ (forall df,
        read_csv env path st = inr df ->
        NoDup (map item_name (csv_items col (rows df))) ->
        exists r s',
          process_csv_file env self path col wav out lang st = (Ok r, s')
          /\ NoDup (failed r)).
Proof.
  split; [exact (fun label a b => failed_entry_name label a b)|].
  split; [intros df; apply csv_items_colon_free|].
  split; [intros doc; apply json_items_names|].
  split; [apply str_int_inj|].
  split.
  - destruct (json_load env path st) as [e|doc] eqn:Hread;
      [|destruct (mkdir env out
                    (State (fs st)
                       (log st ++ [Print (MsgLoaded (length (as_list doc)))])))
          as [[e|] fs1] eqn:Hmk].
    + rewrite (process_json_file_unread _ _ _ _ _ _ _ _ _ Hread).
      eexists _, _. split; [reflexivity | constructor].
    + rewrite (process_json_file_no_dir _ _ _ _ _ _ _ _ _ _ _ Hread Hmk).
      eexists _, _. split; [reflexivity | constructor].
    + destruct (process_json_file_run env self path col wav out lang st doc fs1
                  Hread Hmk) as (oks & s2 & _ & _ & ->).
      destruct (json_error col (as_list doc)); eexists _, _;
        (split; [reflexivity|]); [constructor|].
      cbn [failed report]. apply NoDup_failed_entries.
      * apply chosen_Forall, json_items_names.
      * eapply sublist_NoDup; [apply json_items_names | apply chosen_indices].
  - intros df Hread Hnd.
    destruct (Py.str_in col (columns df)) eqn:Hcol;
      [destruct (mkdir env out
                   (State (fs st)
                      (log st ++ [Print (MsgLoaded (length (rows df)))])))
         as [[e|] fs1] eqn:Hmk|].
    + rewrite (process_csv_file_no_dir _ _ _ _ _ _ _ _ _ _ _ Hread Hcol Hmk).
      eexists _, _. split; [reflexivity | constructor].
    + destruct (process_csv_file_run env self path col wav out lang st df fs1
                  Hread Hcol Hmk) as (oks & s2 & _ & _ & ->).
      destruct (csv_error col (rows df)); eexists _, _;
        (split; [reflexivity|]); [constructor|].
      cbn [failed report]. apply NoDup_failed_entries.
      * apply chosen_Forall, csv_items_colon_free.
      * eapply sublist_NoDup; [exact Hnd | apply chosen_indices].
    + rewrite (process_csv_file_no_column _ _ _ _ _ _ _ _ _ Hread Hcol).
      eexists _, _. split; [reflexivity | constructor].
Qed.

Lemma failed_entries_name_index_witness :
  exists r s',
    process_csv_file (world_of plain_df sample_json crashes) coqui
      "in.csv" "text" None "out" "uk" st0 = (Ok r, s')
    /\ failed r = [Py.u "Row 0: one"; Py.u "Row 1: two"; Py.u "Row 3: four"]
    /\ NoDup (failed r).
Proof.
  assert (Hnd : NoDup (map item_name (csv_items "text" (rows plain_df)))).
  { change (NoDup ["0"; "1"; "3"]%string).
    repeat (constructor; [rewrite list_elem_of_In; simpl; intuition discriminate|]).
    constructor. }
  destruct (proj2 (proj2 (proj2 (proj2 (proj2
              (failed_entries_name_index
                 (world_of plain_df sample_json crashes) coqui st0
                 "in.csv" "text" None "out" "uk")))))
              plain_df eq_refl Hnd) as (r & s' & Hrun & Hfailed).
  exists r, s'. split; [exact Hrun|]. split; [|exact Hfailed].
  pose proof Hrun as Hrun'. vm_compute in Hrun'.
  injection Hrun' as <- _. reflexivity.
Defined.

(** X12. Every engine call of a batch run is either plain synthesis or
    a cloning call with the sample of the batch, the language
    [_pick_language] chooses for the language of the batch, and speed
    1.0; the per-item speed cannot be set. Without a sample ([None] or
    the empty string) no call of the run is a cloning call. *)
Theorem batch_calls env self st path col wav out lang :
  (exists r s' l,
     process_csv_file env self path col wav out lang st = (Ok r, s')
     /\ log s' = log st ++ l
     /\ Forall (batch_call self wav lang) (calls l)
     /\ (truthy wav = None -> Forall (fun c => cloning c = false) (calls l)))
  /\ (exists r s' l,
        process_json_file env self path col wav out lang st = (Ok r, s')
        /\ log s' = log st ++ l
        /\ Forall (batch_call self wav lang) (calls l)
        /\ (truthy wav = None -> Forall (fun c => cloning c = false) (calls l))).
Proof.
  assert (Hnone : forall cs,
            Forall (batch_call self wav lang) cs -> truthy wav = None ->
            Forall (fun c => cloning c = false) cs).
  { intros cs Hcs Hwav. eapply Forall_impl; [exact Hcs|].
    intros c [Hc | (p & _ & _ & Hp & _)]; [exact Hc|]. congruence. }
  split.
  - destruct (process_csv_file_calls env self path col wav out lang st)
      as (r & s' & l & Hrun & Hlog & Hl).
    exists r, s', l. split; [exact Hrun|]. split; [exact Hlog|].
    split; [exact Hl | now apply Hnone].
  - destruct (process_json_file_calls env self path col wav out lang st)
      as (r & s' & l & Hrun & Hlog & Hl).
    exists r, s', l. split; [exact Hrun|]. split; [exact Hlog|].
    split; [exact Hl | now apply Hnone].
Qed.

Lemma batch_calls_witness :
  exists r s',
    process_csv_file (world true true (writes 20000)) coqui
      "in.csv" "text" (Some "speaker.wav"%string) "out" "uk" st0 = (Ok r, s')
    /\ Forall (batch_call coqui (Some "speaker.wav"%string) "uk") (calls (log s'))
    /\ calls (log s')
       = [tts_to_file (Py.u "one") (Some "speaker.wav"%string) "ru"
            (Some Py.f1_0) "out/audio_0000.wav";
          tts_to_file (Py.u "two") (Some "speaker.wav"%string) "ru"
            (Some Py.f1_0) "out/audio_0001.wav";
          tts_to_file (Py.u "four") (Some "speaker.wav"%string) "ru"
            (Some Py.f1_0) "out/audio_0003.wav";
          tts_to_file (Py.u "nan") (Some "speaker.wav"%string) "ru"
            (Some Py.f1_0) "out/audio_0004.wav"].
Proof.
  destruct (proj1 (batch_calls (world true true (writes 20000)) coqui st0
                     "in.csv" "text" (Some "speaker.wav"%string) "out" "uk"))
    as (r & s' & l & Hrun & Hlog & Hcalls & _).
  exists r, s'. split; [exact Hrun|]. split.
  - rewrite Hlog. exact Hcalls.
  - pose proof Hrun as Hrun'. vm_compute in Hrun'.
    injection Hrun' as _ <-. reflexivity.
Defined.

(** X13. A batch run that cannot load its input, or cannot make the
    output directory, answers with two empty lists: the error is
    printed, no engine is called, and the items that were loaded appear
    in neither list. *)
Theorem batch_stops_early env self st path col wav out lang :
  (forall e,
     read_csv env path st = inl e ->
     process_csv_file env self path col wav out lang st
     = (Ok no_results, State (fs st) (log st ++ [Print (MsgBatchError e)])))
  /\ (forall df e fs1,
        read_csv env path st = inr df ->
        In col (columns df) ->
        mkdir env out
          (State (fs st) (log st ++ [Print (MsgLoaded (length (rows df)))]))
        = (Some e, fs1) ->
        process_csv_file env self path col wav out lang st
        = (Ok no_results,
           State fs1 (log st ++ [Print (MsgLoaded (length (rows df)));
                                 Print (MsgBatchError e)])))
  /\ (forall e,
        json_load env path st = inl e ->
        process_json_file env self path col wav out lang st
        = (Ok no_results, State (fs st) (log st ++ [Print (MsgBatchError e)])))
  /\ (forall doc e fs1,
        json_load env path st = inr doc ->
        mkdir env out
          (State (fs st) (log st ++ [Print (MsgLoaded (length (as_list doc)))]))
        = (Some e, fs1) ->
        process_json_file env self path col wav out lang st
        = (Ok no_results,
           State fs1 (log st ++ [Print (MsgLoaded (length (as_list doc)));
                                 Print (MsgBatchError e)]))).
Proof.
  split; [|split; [|split]].
  - intros e Hread.
    unfold process_csv_file, try_except, bind, of_sum, print, ret.
    rewrite Hread. reflexivity.
  - intros df e fs1 Hread Hcol Hmk. apply str_in_In in Hcol.
    unfold process_csv_file, try_except, bind, of_sum, do_mkdir, print, ret.
    rewrite Hread. cbv beta iota. cbn [fs log]. rewrite Hcol. cbn [negb].
    rewrite Hmk. cbn [fs log]. now rewrite <- app_assoc.
  - intros e Hread.
    unfold process_json_file, try_except, bind, of_sum, print, ret.
    rewrite Hread. reflexivity.
  - intros doc e fs1 Hread Hmk.
    unfold process_json_file, try_except, bind, of_sum, do_mkdir, print, ret.
    rewrite Hread. cbv beta iota zeta. cbn [fs log].
    rewrite Hmk. cbn [fs log]. now rewrite <- app_assoc.
Qed.

Lemma batch_stops_early_witness :
  process_csv_file world_unreadable coqui "in.csv" "text" None "out" "uk" st0
  = (Ok no_results,
     State (fs st0) [Print (MsgBatchError "FileNotFoundError")])
  /\ process_json_file world_readonly coqui "in.json" "text" None "out" "uk" st0
     = (Ok no_results,
        State (fs st0) [Print (MsgLoaded 3);
                        Print (MsgBatchError "PermissionError")]).
Proof.
  split.
  - exact (proj1 (batch_stops_early world_unreadable coqui st0
                    "in.csv" "text" None "out" "uk") _ eq_refl).
  - exact (proj2 (proj2 (proj2 (batch_stops_early world_readonly coqui st0
                                  "in.json" "text" None "out" "uk")))
             sample_json _ _ eq_refl eq_refl).
Defined.

(** X16. A batch item for which the sample is given and exists is
    handled by cloning alone: the model is called at most once, no other
    engine is tried, and when the model raises an exception (an
    instance of [Exception]) at that call the item counts as failed,
    although the same failure in plain synthesis would have been
    followed by gTTS or pyttsx3. *)
Theorem cloning_item_has_no_fallback env self text wav p out lang st n :
  truthy wav = Some p ->
  fs st !! p = Some n ->
  exists ok s' cs,
    generate_audio env self text wav out lang st = (Ok ok, s')
    /\ calls (log s') = calls (log st) ++ cs
    /\ (cs = []
        \/ cs = [tts_to_file text (Some p)
                   (_pick_language (supported_languages self) lang)
                   (Some Py.f1_0) out])
    /\ (forall e fs1,
          engine env (clone_call self text p out lang Py.f1_0)
            (State (fs st)
               (log st ++ clone_announcement self text p lang Py.f1_0))
          = (Some e, fs1) ->
          ok = false).
Proof.
  intros Hwav Hp. unfold generate_audio. rewrite Hwav.
  unfold bind, path_exists. rewrite Hp, exists_Some.
  destruct (clone_outcome env self text p out lang Py.f1_0 st)
    as (b & s' & Hrun & Hcalls & Hfalse).
  destruct Hcalls as [Hcalls | Hcalls].
  - exists b, s', []. split; [exact Hrun|]. rewrite app_nil_r.
    split; [exact Hcalls|]. split; [now left | exact Hfalse].
  - exists b, s', [clone_call self text p out lang Py.f1_0].
    split; [exact Hrun|]. split; [exact Hcalls|].
    split; [now right | exact Hfalse].
Qed.

Lemma cloning_item_has_no_fallback_witness :
  exists s',
    generate_audio (world true true coqui_crashes) coqui (Py.u "hello")
      (Some "speaker.wav"%string) "out.wav" "en" st0 = (Ok false, s')
    /\ calls (log s')
       = [tts_to_file (Py.u "hello") (Some "speaker.wav"%string) "en"
            (Some Py.f1_0) "out.wav"].
Proof.
  destruct (cloning_item_has_no_fallback (world true true coqui_crashes) coqui
              (Py.u "hello") (Some "speaker.wav"%string) "speaker.wav"
              "out.wav" "en" st0 480000 eq_refl eq_refl)
    as (ok & s' & cs & Hrun & _ & _ & Hfalse).
  rewrite (Hfalse _ _ eq_refl) in Hrun. exists s'. split; [exact Hrun|].
  pose proof Hrun as Hrun'. vm_compute in Hrun'.
  injection Hrun' as <-. reflexivity.
Defined.

(** ** The converters of voice_clone_demo.py *)

Lemma conv_calls_app (l1 l2 : list conv_event) :
  conv_calls (l1 ++ l2) = conv_calls l1 ++ conv_calls l2.
Proof.
  induction l1 as [|[c|m] l1 IH]; simpl;
    [reflexivity | now rewrite IH | exact IH].
Qed.

Lemma report_output_spec not_created out s :
  exists l,
    snd (report_output not_created out s) = ConvState (cfs s) (clog s ++ l)
    /\ conv_calls l = []
    /\ fst (report_output not_created out s)
       = bool_decide (is_Some (cfs s !! out)).
Proof.
  unfold report_output. destruct (cfs s !! out) as [size|].
  - eexists. cbn [fst snd]. unfold say. split; [reflexivity|].
    split; [reflexivity | now rewrite exists_Some].
  - destruct not_created as [m|]; cbn [fst snd].
    + eexists. unfold say. split; [reflexivity|].
      split; [reflexivity | symmetry; apply exists_None].
    + exists []. rewrite app_nil_r. destruct s. cbn [cfs clog].
      split; [reflexivity|]. split; [reflexivity | symmetry; apply exists_None].
Qed.

Lemma pydub_handler_spec e s :
  exists l,
    pydub_handler e s = (false, ConvState (cfs s) (clog s ++ l))
    /\ conv_calls l = [].
Proof.
  unfold pydub_handler, say. destruct (import_error e); cbn [cfs clog];
    eexists; (split; [rewrite <- ?app_assoc; reflexivity | reflexivity]).
Qed.

(** What [convert_with_pydub] does: at most [from_ogg] and then
    [export], and [True] only with the output file in place. *)
Lemma convert_with_pydub_spec conv input out s :
  exists l,
    clog (snd (convert_with_pydub conv input out s)) = clog s ++ l
    /\ (conv_calls l = []
        \/ conv_calls l = [from_ogg input]
        \/ conv_calls l = [from_ogg input; export_wav out])
    /\ (conv_calls l = [] -> cfs (snd (convert_with_pydub conv input out s)) = cfs s)
    /\ (fst (convert_with_pydub conv input out s) = true ->
        is_Some (cfs (snd (convert_with_pydub conv input out s)) !! out)).
Proof.
  unfold convert_with_pydub.
  destruct (pydub_importable conv); cbn [negb].
  - destruct (read_ogg conv input _) as [e|].
    + match goal with |- context [pydub_handler ?e ?s1] =>
        destruct (pydub_handler_spec e s1) as (l & -> & Hl) end.
      cbn [fst snd cfs clog called say]. eexists. split.
      { rewrite <- !app_assoc. reflexivity. }
      rewrite !conv_calls_app, Hl. cbn [conv_calls app].
      split; [right; now left|]. split; [discriminate | discriminate].
    + destruct (export conv out _) as [[e|] files].
      * match goal with |- context [pydub_handler ?e ?s1] =>
          destruct (pydub_handler_spec e s1) as (l & -> & Hl) end.
        cbn [fst snd cfs clog called say]. eexists. split.
        { rewrite <- !app_assoc. reflexivity. }
        rewrite !conv_calls_app, Hl. cbn [conv_calls app].
        split; [right; now right|]. split; discriminate.
      * match goal with |- context [report_output ?m ?o ?s1] =>
          destruct (report_output_spec m o s1) as (l & Hs & Hl & Hb) end.
        rewrite Hs, Hb. cbn [fst snd cfs clog called say]. eexists. split.
        { rewrite <- !app_assoc. reflexivity. }
        rewrite !conv_calls_app, Hl. cbn [conv_calls app].
        split; [right; now right|]. split; [discriminate|].
        intros H. now apply bool_decide_eq_true in H.
  - match goal with |- context [pydub_handler ?e ?s1] =>
      destruct (pydub_handler_spec e s1) as (l & -> & Hl) end.
    cbn [fst snd cfs clog]. exists l. split; [reflexivity|].
    split; [now left|]. split; [reflexivity | discriminate].
Qed.

Lemma librosa_handler_spec conv input out e s :
  exists l,
    clog (snd (librosa_handler conv input out e s)) = clog s ++ l
    /\ (conv_calls l = []
        \/ conv_calls l = [from_ogg input]
        \/ conv_calls l = [from_ogg input; export_wav out])
    /\ (fst (librosa_handler conv input out e s) = true ->
        is_Some (cfs (snd (librosa_handler conv input out e s)) !! out)).
Proof.
  unfold librosa_handler.
  destruct (import_error e);
    match goal with |- context [convert_with_pydub ?c ?i ?o ?s1] =>
      destruct (convert_with_pydub_spec c i o s1) as (l & Hlog & Hl & _ & Hb) end;
    rewrite Hlog; cbn [say clog]; eexists;
    (split; [rewrite <- app_assoc; reflexivity|]);
    cbn [app conv_calls]; split; assumption.
Qed.

(** What [convert_ogg_to_wav] does: the calls of librosa ([load] once,
    then [write] once), then, only if that part raised, those of
    pydub. *)
Lemma convert_ogg_to_wav_spec conv input out s :
  exists l before after,
    clog (snd (convert_ogg_to_wav conv input out s)) = clog s ++ l
    /\ conv_calls l = before ++ after
    /\ (before = [] \/ before = [librosa_load input]
        \/ exists samples rate,
             before = [librosa_load input; sf_write out samples rate])
    /\ (after = [] \/ after = [from_ogg input]
        \/ after = [from_ogg input; export_wav out])
    /\ (fst (convert_ogg_to_wav conv input out s) = true ->
        is_Some (cfs (snd (convert_ogg_to_wav conv input out s)) !! out)).
Proof.
  unfold convert_ogg_to_wav.
  destruct (librosa_importable conv); cbn [negb].
  - destruct (load conv input _) as [e|[samples rate]].
    + match goal with |- context [librosa_handler ?c ?i ?o ?e ?s1] =>
        destruct (librosa_handler_spec c i o e s1) as (l & Hlog & Hl & Hb) end.
      rewrite Hlog. cbn [called say clog].
      eexists _, [librosa_load input], (conv_calls l).
      split; [rewrite <- !app_assoc; reflexivity|].
      cbn [app conv_calls]. split; [reflexivity|].
      split; [right; now left|]. split; assumption.
    + destruct (rate =? 0).
      * match goal with |- context [librosa_handler ?c ?i ?o ?e ?s1] =>
          destruct (librosa_handler_spec c i o e s1) as (l & Hlog & Hl & Hb) end.
        rewrite Hlog. cbn [called say clog].
        eexists _, [librosa_load input], (conv_calls l).
        split; [rewrite <- !app_assoc; reflexivity|].
        cbn [app conv_calls]. split; [reflexivity|].
        split; [right; now left|]. split; assumption.
      * destruct (write conv out samples rate _) as [[e|] files].
        -- match goal with |- context [librosa_handler ?c ?i ?o ?e ?s1] =>
             destruct (librosa_handler_spec c i o e s1) as (l & Hlog & Hl & Hb)
           end.
           rewrite Hlog. cbn [called say clog].
           eexists _, [librosa_load input; sf_write out samples rate],
             (conv_calls l).
           split; [rewrite <- !app_assoc; reflexivity|].
           cbn [app conv_calls]. rewrite ?conv_calls_app. cbn [app conv_calls].
           split; [reflexivity|].
           split; [right; right; eauto|]. split; assumption.
        -- match goal with |- context [report_output ?m ?o ?s1] =>
             destruct (report_output_spec m o s1) as (l & Hs & Hl & Hb) end.
           rewrite Hs, Hb. cbn [called say clog cfs].
           eexists _, [librosa_load input; sf_write out samples rate], [].
           split; [rewrite <- !app_assoc; reflexivity|].
           cbn [app conv_calls]. rewrite ?conv_calls_app. cbn [app conv_calls].
           rewrite ?Hl.
           split; [reflexivity|].
           split; [right; right; eauto|]. split; [now left|].
           intros H. now apply bool_decide_eq_true in H.
  - match goal with |- context [librosa_handler ?c ?i ?o ?e ?s1] =>
      destruct (librosa_handler_spec c i o e s1) as (l & Hlog & Hl & Hb) end.
    rewrite Hlog. eexists l, [], (conv_calls l).
    split; [reflexivity|]. split; [reflexivity|].
    split; [now left|]. split; assumption.
Qed.

(** X14. Either converter answers [True] only if the output file exists
    when it returns. *)
Theorem conversion_true_means_file conv input out s :
  (fst (convert_ogg_to_wav conv input out s) = true ->
   is_Some (cfs (snd (convert_ogg_to_wav conv input out s)) !! out))
  /\ (fst (convert_with_pydub conv input out s) = true ->
      is_Some (cfs (snd (convert_with_pydub conv input out s)) !! out)).
Proof.
  split.
  - destruct (convert_ogg_to_wav_spec conv input out s)
      as (l & b & a & _ & _ & _ & _ & H). exact H.
  - destruct (convert_with_pydub_spec conv input out s)
      as (l & _ & _ & _ & H). exact H.
Qed.

Lemma conversion_true_means_file_witness :
  fst (convert_ogg_to_wav (converters false true 16000 96044)
         "test/audio.ogg" "test/speaker_sample.wav" cs0) = true
  /\ cfs (snd (convert_ogg_to_wav (converters false true 16000 96044)
                 "test/audio.ogg" "test/speaker_sample.wav" cs0))
     !! "test/speaker_sample.wav"%string = Some 96044.
Proof.
  assert (Hb : fst (convert_ogg_to_wav (converters false true 16000 96044)
                      "test/audio.ogg" "test/speaker_sample.wav" cs0) = true)
    by reflexivity.
  split; [exact Hb|].
  destruct (proj1 (conversion_true_means_file (converters false true 16000 96044)
                     "test/audio.ogg" "test/speaker_sample.wav" cs0) Hb)
    as (size & Hsize).
  rewrite Hsize. vm_compute in Hsize. symmetry. exact Hsize.
Defined.

(** X15. [convert_ogg_to_wav] uses each library at most once, librosa
    first: it calls [librosa.load] at most once, then [sf.write] at most
    once, and after them at most [from_ogg] and then [export] of pydub,
    once each. It goes on to pydub only when the librosa part raised
    (the import, the loading, the division by a zero sample rate or the
    writing). When librosa returned without raising, the answer is
    decided by the output file alone: [False] without a try of pydub
    when the file is not there. *)
Theorem pydub_only_after_failure conv input out s :
  (exists l before after,
     clog (snd (convert_ogg_to_wav conv input out s)) = clog s ++ l
     /\ conv_calls l = before ++ after
     /\ (before = [] \/ before = [librosa_load input]
         \/ exists samples rate,
              before = [librosa_load input; sf_write out samples rate])
     /\ (after = [] \/ after = [from_ogg input]
         \/ after = [from_ogg input; export_wav out]))
  /\ (forall samples rate files,
        librosa_importable conv = true ->
        load conv input (say (ConvStart input out) s) = inr (samples, rate) ->
        rate <> 0 ->
        write conv out samples rate
          (say (ConvParams rate samples)
             (called (librosa_load input) (cfs s) (say (ConvStart input out) s)))
        = (None, files) ->
        fst (convert_ogg_to_wav conv input out s)
        = bool_decide (is_Some (files !! out))
        /\ cfs (snd (convert_ogg_to_wav conv input out s)) = files
        /\ conv_calls (clog (snd (convert_ogg_to_wav conv input out s)))
           = conv_calls (clog s)
             ++ [librosa_load input; sf_write out samples rate]).
Proof.
  split.
  - destruct (convert_ogg_to_wav_spec conv input out s)
      as (l & b & a & H1 & H2 & H3 & H4 & _). eauto 8.
  - intros samples rate files Himp Hload Hrate Hwrite.
    unfold convert_ogg_to_wav. rewrite Himp. cbn [negb]. cbv zeta.
    rewrite Hload. apply N.eqb_neq in Hrate. rewrite Hrate.
    unfold say, called in *. cbn [cfs clog] in *. rewrite Hwrite.
    match goal with |- context [report_output ?m ?o ?s1] =>
      destruct (report_output_spec m o s1) as (l & Hs & Hl & Hb) end.
    rewrite Hs, Hb. cbn [cfs clog]. split; [reflexivity|].
    split; [reflexivity|].
    rewrite !conv_calls_app, Hl. cbn [conv_calls app].
    now rewrite !app_nil_r, <- !app_assoc.
Qed.

Lemma pydub_only_after_failure_witness :
  fst (convert_ogg_to_wav (silent_converters 96044)
         "test/audio.ogg" "test/speaker_sample.wav" cs0) = false
  /\ conv_calls (clog (snd (convert_ogg_to_wav (silent_converters 96044)
                              "test/audio.ogg" "test/speaker_sample.wav" cs0)))
     = [librosa_load "test/audio.ogg";
        sf_write "test/speaker_sample.wav" 4800 16000].
Proof.
  destruct (proj2 (pydub_only_after_failure (silent_converters 96044)
                     "test/audio.ogg" "test/speaker_sample.wav" cs0)
              4800%nat 16000 (cfs cs0) eq_refl eq_refl
              ltac:(discriminate) eq_refl)
    as (Hb & _ & Hcalls).
  split; [rewrite Hb; reflexivity | exact Hcalls].
Defined.

